(** * Local-Cocoa services: a shallow embedding of the indexing, routing,
    health, settings and scope-isolation code, with its specification
    checked against it.

    The Python sources embedded here:
    - services/app/routers/settings.py   (get_settings, update_settings)
    - services/app/routers/health.py     (check_service, read_health)
    - services/core/content.py           (ContentRouter.parse)
    - services/search/qa.py              (QaMixin.stream_answer, scope isolation)
    - services/parser/pdf_deep.py        (PdfDeepParser.parse: page loop, text assembly)
    - services/parser/img_2_wordbox.py   (IMG2WORDS)
    - services/indexer/stages/deep.py    (DeepProcessor)
    - services/storage/memory.py         (episodes and profiles of MemoryMixin)

    Effects are made explicit: the HTTP endpoints, the VLM, the embedding
    service, the vector store and the clock are oracles passed as
    arguments; the relational store and the health cache are explicit
    state threaded through the functions. *)

From Stdlib Require Import String Ascii List ZArith Lia Bool.
From Stdlib Require Import DecimalString DecimalNat Permutation Sorted QArith.
Import ListNotations.
Open Scope string_scope.
Open Scope Z_scope.

(* ------------------------------------------------------------------ *)
(** ** Python string primitives *)

Module Py.

(** Strings are sequences of code points below 256 (one [ascii] each).
    [str.isspace] on them: space, \t \n \v \f \r, the separators
    \x1c .. \x1f, NEL (\x85) and NO-BREAK SPACE (\xa0). *)
Definition isspace (c : ascii) : bool :=
  let n := nat_of_ascii c in
  (Nat.eqb n 32 || ((9 <=? n)%nat && (n <=? 13)%nat)
   || ((28 <=? n)%nat && (n <=? 31)%nat) || Nat.eqb n 133 || Nat.eqb n 160)%bool.

(** [str.isalnum() or c == '_'], the class [\w] of [re], on code points
    below 256. *)
Definition isword (c : ascii) : bool :=
  let n := nat_of_ascii c in
  (((48 <=? n)%nat && (n <=? 57)%nat) || ((65 <=? n)%nat && (n <=? 90)%nat)
   || ((97 <=? n)%nat && (n <=? 122)%nat) || Nat.eqb n 95
   || Nat.eqb n 170 || Nat.eqb n 178 || Nat.eqb n 179 || Nat.eqb n 181
   || Nat.eqb n 185 || Nat.eqb n 186 || ((188 <=? n)%nat && (n <=? 190)%nat)
   || ((192 <=? n)%nat && (n <=? 214)%nat) || ((216 <=? n)%nat && (n <=? 246)%nat)
   || (248 <=? n)%nat)%bool.

Fixpoint lstrip_list (l : list ascii) : list ascii :=
  match l with
  | [] => []
  | c :: r => if isspace c then lstrip_list r else l
  end.

(** [s.strip()] *)
Definition strip (s : string) : string :=
  string_of_list_ascii
    (rev (lstrip_list (rev (lstrip_list (list_ascii_of_string s))))).

(** Truthiness of a [str]: non-empty. *)
Definition truthy (s : string) : bool :=
  negb (String.eqb s "").

(** [s.startswith(p)] *)
Definition startswith (p s : string) : bool := String.prefix p s.

(** [s[:n]] *)
Definition take (n : nat) (s : string) : string := substring 0 n s.

(** [str(n)] for a non-negative int. *)
Definition str_nat (n : nat) : string :=
  NilZero.string_of_uint (Nat.to_uint n).

(** [str(n)] for an int. *)
Definition str_int (z : Z) : string :=
  if z <? 0 then "-" ++ str_nat (Z.to_nat (- z)) else str_nat (Z.to_nat z).

(** The characters [int] skips around its digits: the string is first
    made ASCII, every non-ASCII whitespace ([\x85], [\xa0]) becoming a
    space, and then [Py_ISSPACE] is tested: space and \t \n \v \f \r. *)
Definition int_space (c : ascii) : bool :=
  let n := nat_of_ascii c in
  (Nat.eqb n 32 || ((9 <=? n)%nat && (n <=? 13)%nat) || Nat.eqb n 133 || Nat.eqb n 160)%bool.

Fixpoint drop_int_space (l : list ascii) : list ascii :=
  match l with
  | [] => []
  | c :: r => if int_space c then drop_int_space r else l
  end.

(** A decimal digit; the only code points below 256 with a decimal value
    are 0..9. *)
Definition digit (c : ascii) : option Z :=
  let n := nat_of_ascii c in
  if ((48 <=? n)%nat && (n <=? 57)%nat)%bool then Some (Z.of_nat (n - 48)) else None.

(** [digit ("_"? digit)*]: the digits, None for any other shape (no
    leading, trailing or doubled underscore). *)
Fixpoint digits_us (l : list ascii) : option (list Z) :=
  match l with
  | [] => None
  | c :: r =>
      match digit c with
      | None => None
      | Some d =>
          match r with
          | [] => Some [d]
          | u :: r' =>
              if Ascii.eqb u "_" then option_map (cons d) (digits_us r')
              else option_map (cons d) (digits_us r)
          end
      end
  end.

Definition digits_value (ds : list Z) : Z := fold_left (fun acc d => acc * 10 + d) ds 0.

(** [int(s)] for a [str], None for [ValueError]: surrounding whitespace,
    an optional sign, then decimal digits with single underscores between
    them.  The interpreter's limit on the number of digits
    ([sys.set_int_max_str_digits], which bounds [str(n)] as well) is not
    modelled: [int] and [str_int] are taken without it. *)
Definition int_of_str (s : string) : option Z :=
  let l := rev (drop_int_space (rev (drop_int_space (list_ascii_of_string s)))) in
  let sgn := match l with c :: _ => if Ascii.eqb c "-" then -1 else 1 | [] => 1 end in
  let body :=
    match l with
    | c :: r => if (Ascii.eqb c "+" || Ascii.eqb c "-")%bool then r else l
    | [] => []
    end in
  match digits_us body with
  | Some ds => Some (sgn * digits_value ds)
  | None => None
  end.

(** [s.split(sep)] for a one-character separator. *)
Fixpoint split_on (sep : ascii) (s : string) : list string :=
  match s with
  | EmptyString => [""]
  | String c r =>
      match split_on sep r with
      | [] => [] (* unreachable: split_on never returns [] *)
      | w :: ws =>
          if Ascii.eqb c sep then "" :: w :: ws else String c w :: ws
      end
  end.

(** [xs[i]] for a list, [None] for [IndexError]. *)
Definition index {A} (xs : list A) (i : nat) : option A := nth_error xs i.

(** [sep.join(xs)] *)
Fixpoint join (sep : string) (xs : list string) : string :=
  match xs with
  | [] => ""
  | [x] => x
  | x :: r => x ++ sep ++ join sep r
  end.

End Py.

(* ------------------------------------------------------------------ *)
(** ** services/app/routers/settings.py *)

Module SettingsRouter.

(** The fields of the process-wide [settings] object read or written by
    the settings router (other fields of [Settings] are untouched by it). *)
Record Settings := mkSettings {
  vision_max_pixels : Z;
  video_max_pixels : Z;
  embed_batch_size : Z;
  embed_batch_delay_ms : Z;
  vision_batch_delay_ms : Z;
  search_result_limit : Z;
  qa_context_limit : Z;
  max_snippet_length : Z;
  summary_max_tokens : Z;
  pdf_one_chunk_per_page : bool;
  rag_chunk_size : Z;
  rag_chunk_overlap : Z;
  default_indexing_mode : string
}.

(** The pydantic model [SettingsUpdate]: every field optional, [None]
    when the key is absent (or posted as null). *)
Record SettingsUpdate := mkSettingsUpdate {
  u_vision_max_pixels : option Z;
  u_video_max_pixels : option Z;
  u_embed_batch_size : option Z;
  u_embed_batch_delay_ms : option Z;
  u_vision_batch_delay_ms : option Z;
  u_search_result_limit : option Z;
  u_qa_context_limit : option Z;
  u_max_snippet_length : option Z;
  u_summary_max_tokens : option Z;
  u_pdf_one_chunk_per_page : option bool;
  u_rag_chunk_size : option Z;
  u_rag_chunk_overlap : option Z;
  u_default_indexing_mode : option string
}.

(** JSON values returned by the endpoints. *)
Inductive JsonValue := JInt (z : Z) | JBool (b : bool) | JStr (s : string).

(** [if update.k is not None: settings.k = update.k] *)
Definition set_if {A} (o : option A) (cur : A) : A :=
  match o with Some v => v | None => cur end.

Definition update_settings (s : Settings) (u : SettingsUpdate) : Settings :=
  {| vision_max_pixels := set_if (u_vision_max_pixels u) (vision_max_pixels s);
     video_max_pixels := set_if (u_video_max_pixels u) (video_max_pixels s);
     embed_batch_size := set_if (u_embed_batch_size u) (embed_batch_size s);
     embed_batch_delay_ms := set_if (u_embed_batch_delay_ms u) (embed_batch_delay_ms s);
     vision_batch_delay_ms := set_if (u_vision_batch_delay_ms u) (vision_batch_delay_ms s);
     search_result_limit := set_if (u_search_result_limit u) (search_result_limit s);
     qa_context_limit := set_if (u_qa_context_limit u) (qa_context_limit s);
     max_snippet_length := set_if (u_max_snippet_length u) (max_snippet_length s);
     summary_max_tokens := set_if (u_summary_max_tokens u) (summary_max_tokens s);
     pdf_one_chunk_per_page := set_if (u_pdf_one_chunk_per_page u) (pdf_one_chunk_per_page s);
     rag_chunk_size := set_if (u_rag_chunk_size u) (rag_chunk_size s);
     rag_chunk_overlap := set_if (u_rag_chunk_overlap u) (rag_chunk_overlap s);
     default_indexing_mode := set_if (u_default_indexing_mode u) (default_indexing_mode s) |}.

(** The dict returned by [GET /settings/]. *)
Definition get_settings (s : Settings) : list (string * JsonValue) :=
  [("vision_max_pixels", JInt (vision_max_pixels s));
   ("video_max_pixels", JInt (video_max_pixels s));
   ("embed_batch_size", JInt (embed_batch_size s));
   ("embed_batch_delay_ms", JInt (embed_batch_delay_ms s));
   ("vision_batch_delay_ms", JInt (vision_batch_delay_ms s));
   ("search_result_limit", JInt (search_result_limit s));
   ("qa_context_limit", JInt (qa_context_limit s));
   ("max_snippet_length", JInt (max_snippet_length s));
   ("summary_max_tokens", JInt (summary_max_tokens s));
   ("pdf_one_chunk_per_page", JBool (pdf_one_chunk_per_page s));
   ("rag_chunk_size", JInt (rag_chunk_size s));
   ("rag_chunk_overlap", JInt (rag_chunk_overlap s));
   ("default_indexing_mode", JStr (default_indexing_mode s))].

(** [PATCH /settings/]: the new settings (persisted by [save_to_file])
    and the response body. *)
Definition patch_settings (s : Settings) (u : SettingsUpdate)
  : Settings * list (string * JsonValue) :=
  let s' := update_settings s u in (s', get_settings s').

(** The keys of [SettingsUpdate]. *)
Inductive SettingKey :=
| KVisionMaxPixels | KVideoMaxPixels | KEmbedBatchSize | KEmbedBatchDelayMs
| KVisionBatchDelayMs | KSearchResultLimit | KQaContextLimit
| KMaxSnippetLength | KSummaryMaxTokens | KPdfOneChunkPerPage
| KRagChunkSize | KRagChunkOverlap | KDefaultIndexingMode.

Definition key_name (k : SettingKey) : string :=
  match k with
  | KVisionMaxPixels => "vision_max_pixels"
  | KVideoMaxPixels => "video_max_pixels"
  | KEmbedBatchSize => "embed_batch_size"
  | KEmbedBatchDelayMs => "embed_batch_delay_ms"
  | KVisionBatchDelayMs => "vision_batch_delay_ms"
  | KSearchResultLimit => "search_result_limit"
  | KQaContextLimit => "qa_context_limit"
  | KMaxSnippetLength => "max_snippet_length"
  | KSummaryMaxTokens => "summary_max_tokens"
  | KPdfOneChunkPerPage => "pdf_one_chunk_per_page"
  | KRagChunkSize => "rag_chunk_size"
  | KRagChunkOverlap => "rag_chunk_overlap"
  | KDefaultIndexingMode => "default_indexing_mode"
  end.

(** The value the payload posts for a key, as JSON. *)
Definition posted (u : SettingsUpdate) (k : SettingKey) : option JsonValue :=
  match k with
  | KVisionMaxPixels => option_map JInt (u_vision_max_pixels u)
  | KVideoMaxPixels => option_map JInt (u_video_max_pixels u)
  | KEmbedBatchSize => option_map JInt (u_embed_batch_size u)
  | KEmbedBatchDelayMs => option_map JInt (u_embed_batch_delay_ms u)
  | KVisionBatchDelayMs => option_map JInt (u_vision_batch_delay_ms u)
  | KSearchResultLimit => option_map JInt (u_search_result_limit u)
  | KQaContextLimit => option_map JInt (u_qa_context_limit u)
  | KMaxSnippetLength => option_map JInt (u_max_snippet_length u)
  | KSummaryMaxTokens => option_map JInt (u_summary_max_tokens u)
  | KPdfOneChunkPerPage => option_map JBool (u_pdf_one_chunk_per_page u)
  | KRagChunkSize => option_map JInt (u_rag_chunk_size u)
  | KRagChunkOverlap => option_map JInt (u_rag_chunk_overlap u)
  | KDefaultIndexingMode => option_map JStr (u_default_indexing_mode u)
  end.

(** [d[key]] on a JSON object. *)
Fixpoint lookup (k : string) (d : list (string * JsonValue)) : option JsonValue :=
  match d with
  | [] => None
  | (k', v) :: r => if String.eqb k k' then Some v else lookup k r
  end.

End SettingsRouter.

(* ------------------------------------------------------------------ *)
(** ** services/app/routers/health.py *)

Module Health.

Inductive Status := Online | Offline | Unknown.

Record ServiceStatus := mkServiceStatus {
  ss_name : string;
  ss_status : Status;
  ss_details : option string;
  ss_latency_ms : option Z
}.

(** What [await client.get(target)] produces: a response with its status
    code, or an exception (connection error, the 2 s timeout, ...). *)
Inductive Response := HttpResponse (code : Z) | TransportError (msg : string).

(** The module-level [_service_cache]: key -> (status, perf_counter time).
    Times are in milliseconds. *)
Definition Cache := list (string * (ServiceStatus * Z)).

Definition SERVICE_CACHE_TTL : Z := 10000.

Fixpoint cache_get (k : string) (c : Cache) : option (ServiceStatus * Z) :=
  match c with
  | [] => None
  | (k', v) :: r => if String.eqb k k' then Some v else cache_get k r
  end.

(** [_service_cache[k] = v] *)
Fixpoint cache_set (k : string) (v : ServiceStatus * Z) (c : Cache) : Cache :=
  match c with
  | [] => [(k, v)]
  | (k', v') :: r => if String.eqb k k' then (k, v) :: r else (k', v') :: cache_set k v r
  end.

(** [url.rstrip("/")] *)
Definition rstrip_slash (url : string) : string :=
  let fix drop (l : list ascii) :=
    match l with
    | c :: r => if Ascii.eqb c "/" then drop r else l
    | [] => []
    end in
  string_of_list_ascii (rev (drop (rev (list_ascii_of_string url)))).

(** [str(code)] *)
Definition str_Z (z : Z) : string := NilZero.string_of_int (Z.to_int z).

(** The probe: GET <url>/health, and GET <url> when that answered 404
    (the 404 is raised as [HTTPStatusError] and caught by the fallback). *)
Definition probe (get : string -> Response) (url : string) : Response :=
  match get (rstrip_slash url ++ "/health") with
  | HttpResponse 404 => get (rstrip_slash url)
  | r => r
  end.

Definition classify (name : string) (r : Response) (latency : Z) : ServiceStatus :=
  match r with
  | HttpResponse code =>
      if (200 <=? code) && (code <? 500)
      then mkServiceStatus name Online None (Some latency)
      else mkServiceStatus name Offline (Some ("HTTP " ++ str_Z code)) None
  | TransportError e => mkServiceStatus name Offline (Some e) None
  end.

(** [if not url] *)
Definition url_missing (url : option string) : bool :=
  match url with None => true | Some u => String.eqb u "" end.

(** [check_service(name, url, use_cache)]: [now] is the clock reading on
    entry, [done_] the reading after the probe (used for the latency and
    the cache time stamp). *)
Definition check_service (name : string) (url : option string) (use_cache : bool)
    (cache : Cache) (get : string -> Response) (now done_ : Z)
  : ServiceStatus * Cache :=
  match url with
  | None => (mkServiceStatus name Unknown (Some "URL not configured") None, cache)
  | Some u =>
      if String.eqb u "" then
        (mkServiceStatus name Unknown (Some "URL not configured") None, cache)
      else
        let key := name ++ ":" ++ u in
        let cached :=
          if use_cache then
            match cache_get key cache with
            | Some (st, t) => if now - t <? SERVICE_CACHE_TTL then Some st else None
            | None => None
            end
          else None in
        match cached with
        | Some st => (st, cache)
        | None =>
            let result := classify name (probe get u) (done_ - now) in
            (result, cache_set key (result, done_) cache)
        end
  end.

End Health.

(* ------------------------------------------------------------------ *)
(** ** services/core/content.py *)

Module Content.

(** Page images and other attachments are bytes. *)
Definition Bytes := list Byte.byte.

Record ParsedContent := mkParsed {
  text : string;
  page_count : option nat;
  attachments : list (string * Bytes)
}.

(** A parser: its name, whether it accepts a path, and its [parse]
    (exceptions raised by parsers are outside this model). *)
Record Parser := mkParser {
  parser_name : string;
  accepts : string -> bool;
  parse_fn : string -> ParsedContent
}.

(** [str.lower()] on ASCII. *)
Definition lower (s : string) : string :=
  string_of_list_ascii
    (map (fun c => let n := nat_of_ascii c in
                   if ((65 <=? n)%nat && (n <=? 90)%nat)%bool
                   then ascii_of_nat (n + 32) else c)
         (list_ascii_of_string s)).

(** [PurePath.suffix] of a path whose final component is [name]:
    [i = name.rfind('.')]; the suffix is [name[i:]] when
    [0 < i < len(name) - 1], else the empty string. *)
Definition suffix (name : string) : string :=
  let l := list_ascii_of_string name in
  let fix last_dot (l : list ascii) (pos : nat) (acc : option nat) :=
    match l with
    | [] => acc
    | c :: r => last_dot r (S pos) (if Ascii.eqb c "." then Some pos else acc)
    end in
  match last_dot l 0%nat None with
  | Some i =>
      if ((0 <? i)%nat && (i <? length l - 1)%nat)%bool
      then substring i (length l - i) name else ""
  | None => ""
  end.

(** [PurePosixPath(path).name]: the last component of the path, where
    pathlib drops the empty components and the ["."] ones when it parses
    it; "" when none is left (the path "/" or "."). *)
Definition path_name (path : string) : string :=
  last (filter (fun c => negb (String.eqb c "" || String.eqb c "."))
               (Py.split_on "/"%char path)) "".

(** [path.suffix] *)
Definition path_suffix (path : string) : string := suffix (path_name path).

(** Modelled from the spec: [services.parser.select_parser] (not part of
    the sources): "iterates a fixed, ordered list and delegates to the
    first match". *)
Fixpoint select_parser (parsers : list Parser) (path : string) : option Parser :=
  match parsers with
  | [] => None
  | p :: r => if accepts p path then Some p else select_parser r path
  end.

(** A [ContentRouter] instance with the [settings.pdf_mode] it reads. *)
Record ContentRouter := mkRouter {
  parsers : list Parser;
  pdf_text_parser : Parser;
  pdf_vision_parser : Parser;
  general_parser : Parser;
  pdf_mode : string
}.

(** [ContentRouter.parse(path, indexing_mode)]: the names of the parsers
    invoked, in order, and the returned content.  The [TypeError] retry
    calls the same parser with the same path. *)
Definition router_parse (r : ContentRouter) (path : string) (indexing_mode : string)
  : list string * ParsedContent :=
  if String.eqb (lower (path_suffix path)) ".pdf" then
    if (String.eqb indexing_mode "fine" || String.eqb indexing_mode "deep"
        || String.eqb (pdf_mode r) "vision")%bool
    then ([parser_name (pdf_vision_parser r)], parse_fn (pdf_vision_parser r) path)
    else
      let content := parse_fn (pdf_text_parser r) path in
      if negb (Py.truthy (Py.strip (text content)))
      then ([parser_name (pdf_text_parser r); parser_name (pdf_vision_parser r)],
            parse_fn (pdf_vision_parser r) path)
      else ([parser_name (pdf_text_parser r)], content)
  else
    let p := match select_parser (parsers r) path with
             | Some p => p
             | None => general_parser r
             end in
    ([parser_name p], parse_fn p path).

End Content.

(* ------------------------------------------------------------------ *)
(** ** services/search/qa.py: scope isolation in [stream_answer] *)

Module Scope.

Definition dquote : ascii := ascii_of_nat 34.

(** The characters before the first double quote, and what follows that
    quote (None when there is no closing quote). *)
Fixpoint split_at_quote (l : list ascii) : list ascii * option (list ascii) :=
  match l with
  | [] => ([], None)
  | c :: r =>
      if Ascii.eqb c dquote then ([], Some r)
      else let '(b, rest) := split_at_quote r in (c :: b, rest)
  end.

(** [\S+] taken greedily. *)
Fixpoint take_nonspace (l : list ascii) : list ascii * list ascii :=
  match l with
  | c :: r =>
      if Py.isspace c then ([], l)
      else let '(w, rest) := take_nonspace r in (c :: w, rest)
  | [] => ([], [])
  end.

(** [re.findall] of the mention pattern (an at sign followed either by
    a double-quoted non-empty name or by a run of non-space characters):
    the list of
    [(group1, group2)] pairs, an unmatched group being the empty string.
    [fuel] bounds the scan (the length of the query suffices). *)
Fixpoint findall_mentions (fuel : nat) (l : list ascii) : list (string * string) :=
  match fuel with
  | O => []
  | S f =>
      match l with
      | [] => []
      | c :: r =>
          if Ascii.eqb c "@" then
            let alt2 :=
              match take_nonspace r with
              | ([], _) => findall_mentions f r
              | (w, rest) => ("", string_of_list_ascii w) :: findall_mentions f rest
              end in
            match r with
            | q :: r' =>
                if Ascii.eqb q dquote then
                  match split_at_quote r' with
                  | ((_ :: _) as body, Some rest) =>
                      (string_of_list_ascii body, "") :: findall_mentions f rest
                  | _ => alt2
                  end
                else alt2
            | [] => alt2
            end
          else findall_mentions f r
      end
  end.

(** [file_filters]: [name = m[0] if m[0] else m[1]; if name: append]. *)
Definition file_filters (query : string) : list string :=
  let l := list_ascii_of_string query in
  filter Py.truthy
    (map (fun '(g1, g2) => if Py.truthy g1 then g1 else g2)
         (findall_mentions (S (length l)) l)).

(** The two storage queries used for scoping, returning file ids. *)
Record ScopeStorage := mkScopeStorage {
  find_files_by_name : string -> list string;
  get_files_in_folder : string -> list string
}.

Fixpoint dedup (l : list string) : list string :=
  match l with
  | [] => []
  | x :: r => if existsb (String.eqb x) r then dedup r else x :: dedup r
  end.

Definition mem (x : string) (l : list string) : bool := existsb (String.eqb x) l.

(** [list(set(a) & set(b))]; the order of a Python set is not observable
    by the claims, only its members. *)
Definition set_inter (a b : list string) : list string :=
  filter (fun x => mem x b) (dedup a).

(** [target_file_ids] as computed by [stream_answer] (lines 133-177). *)
Definition scope_target (st : ScopeStorage) (query : string)
    (folder_ids : option (list string)) : option (list string) :=
  let ff := file_filters query in
  let target :=
    match ff with
    | [] => None
    | _ => Some (concat (map (find_files_by_name st) ff))
    end in
  match folder_ids with
  | None | Some [] => target
  | Some fids =>
      match concat (map (get_files_in_folder st) fids) with
      | [] => target
      | folder_file_ids =>
          match target with
          | Some ((_ :: _) as t) => Some (set_inter t folder_file_ids)
          | _ => Some folder_file_ids
          end
      end
  end.

Record SearchHit := mkHit { hit_chunk_id : string; hit_file_id : string }.

(** Modelled from the spec: retrieval in StandardPipeline and
    MultiPathPipeline (services/search/pipelines, not part of the sources)
    "restricted to the allowlist if any": with no allowlist every candidate
    is kept, otherwise exactly the candidates whose file is allowed (so an
    empty allowlist gives no results). *)
Definition restrict (target : option (list string)) (candidates : list SearchHit)
  : list SearchHit :=
  match target with
  | None => candidates
  | Some ids => filter (fun h => mem (hit_file_id h) ids) candidates
  end.

(** The hits [stream_answer] returns on a retrieval path, for the
    candidates the retrievers would produce without a filter. *)
Definition answer_hits (st : ScopeStorage) (query : string)
    (folder_ids : option (list string)) (candidates : list SearchHit)
  : list SearchHit :=
  restrict (scope_target st query folder_ids) candidates.

(** The allowlist the specification describes: F from the mentions when
    some are given, G from the folders when some are given, their
    intersection when both are. *)
Definition spec_allowlist (F G : option (list string)) : option (list string) :=
  match F, G with
  | Some f, Some g => Some (set_inter f g)
  | Some f, None => Some f
  | None, Some g => Some g
  | None, None => None
  end.

End Scope.

(* ------------------------------------------------------------------ *)
(** ** services/parser/pdf_deep.py: [PdfDeepParser.parse] *)

Module PdfDeep.

Definition hexdigit (n : nat) : ascii :=
  if (n <? 10)%nat then ascii_of_nat (48 + n) else ascii_of_nat (87 + n).

(** [repr(s)] for a [str] whose code points are below 256. *)
Definition repr_str (s : string) : string :=
  let l := list_ascii_of_string s in
  let bs : ascii := ascii_of_nat 92 in
  let q : ascii :=
    if (existsb (Ascii.eqb "'"%char) l && negb (existsb (Ascii.eqb Scope.dquote) l))%bool
    then Scope.dquote else "'"%char in
  let esc (c : ascii) : list ascii :=
    let n := nat_of_ascii c in
    if Ascii.eqb c bs then [bs; bs]
    else if Ascii.eqb c q then [bs; q]
    else if Nat.eqb n 10 then [bs; "n"%char]
    else if Nat.eqb n 13 then [bs; "r"%char]
    else if Nat.eqb n 9 then [bs; "t"%char]
    else if ((n <? 32)%nat || ((127 <=? n)%nat && (n <=? 160)%nat) || Nat.eqb n 173)%bool
    then [bs; "x"%char; hexdigit (n / 16); hexdigit (n mod 16)]
    else [c] in
  string_of_list_ascii ([q] ++ concat (map esc l) ++ [q]).

(** [repr] of a list of strings. *)
Definition repr_list (xs : list string) : string :=
  "[" ++ Py.join ", " (map repr_str xs) ++ "]".

(** [str] of a tuple [(i, s)] produced by [enumerate]. *)
Definition repr_pair (i : nat) (s : string) : string :=
  "(" ++ Py.str_nat i ++ ", " ++ repr_str s ++ ")".

(** [enumerate(xs, start=k)] *)
Fixpoint enumerate {A} (k : nat) (xs : list A) : list (nat * A) :=
  match xs with
  | [] => []
  | x :: r => (k, x) :: enumerate (S k) r
  end.

(** Line 181:
    [page_text_final = "".join([f"--PAGE_{index}--\n{page_texts}"
                                for index in enumerate(page_texts,start=1)])] *)
Definition page_text_final (page_texts : list string) : string :=
  String.concat ""
    (map (fun '(i, t) => "--PAGE_" ++ repr_pair i t ++ "--" ++ String "010" EmptyString
                         ++ repr_list page_texts)
         (enumerate 1 page_texts)).

(** The per-page loop (lines 150-173): each page yields its extracted
    text or raises; the first exception ends the loop and is swallowed
    ([except Exception: pass]), keeping the texts gathered so far. *)
Fixpoint collect_page_texts (pages : list (option string)) : list string :=
  match pages with
  | [] => []
  | Some t :: r => t :: collect_page_texts r
  | None :: _ => []
  end.

(** [PdfDeepParser.parse]: the page images rendered by
    [turn_pdf_into_images] and the outcome of the per-page extraction. *)
Definition parse (images : list Content.Bytes) (pages : list (option string))
  : Content.ParsedContent :=
  {| Content.text := page_text_final (collect_page_texts pages);
     Content.page_count := Some (length images);
     Content.attachments := map (fun '(i, b) => (Py.str_nat i, b)) (enumerate 1 images) |}.

(** The text the specification asks for: pages with [--PAGE_N--] headers,
    separated by a blank line. *)
Definition spec_page_text (page_texts : list string) : string :=
  Py.join (String "010" (String "010" EmptyString))
    (map (fun '(i, t) => "--PAGE_" ++ Py.str_nat i ++ "--" ++ String "010" EmptyString ++ t)
         (enumerate 1 page_texts)).

End PdfDeep.

(* ------------------------------------------------------------------ *)
(** ** services/indexer/stages/deep.py: [DeepProcessor] *)

Module Deep.

Definition Bytes := Content.Bytes.

(** Embedding coordinates; their values play no part in the claims. *)
Definition Vector := list Z.

(** [FileRecord], with the [metadata] keys the deep round writes. *)
Record FileRecord := mkFile {
  id : string;
  name : string;
  path_exists : bool;
  kind : string;
  extension : string;
  folder_id : string;
  privacy_level : string;
  preview_image : option Bytes;
  page_count : option Z;
  fast_stage : Z;
  deep_stage : Z;
  deep_text_at : option Z;
  deep_embed_at : option Z;
  md_vector_chunks_deep : option (list string);
  md_chunk_count_deep : option nat;
  md_deep_processed : option bool
}.

(** [ChunkSnapshot]; [page_number] stands for the [page_number] and
    [page_numbers] metadata keys, [source] for [metadata["source"]]. *)
Record ChunkSnapshot := mkChunk {
  chunk_id : string;
  file_id : string;
  ordinal : Z;
  ctext : string;
  snippet : string;
  token_count : Z;
  char_count : Z;
  section_path : option string;
  page_number : option Z;
  source : string;
  created_at : Z;
  version : string
}.

Record VectorDocument := mkDoc {
  doc_id : string;
  vector : Vector;
  doc_file_id : string;
  doc_version : string;
  doc_page_number : option Z
}.

(** The relational store (files and versioned chunks) and the vector store. *)
Record Store := mkStore {
  files : string -> option FileRecord;
  chunks : string -> string -> list ChunkSnapshot;
  vectors : list VectorDocument
}.

(** [storage.update_file_stage(file_id, deep_stage=.., deep_text_at=..,
    deep_embed_at=..)]: per-field update of the given fields. *)
Definition update_file_stage (st : Store) (fid : string) (ds : Z)
    (text_at embed_at : option Z) : Store :=
  {| files := fun k =>
       if String.eqb k fid then
         match files st k with
         | Some r =>
             Some {| id := id r; name := name r; path_exists := path_exists r;
                     kind := kind r; extension := extension r;
                     folder_id := folder_id r; privacy_level := privacy_level r;
                     preview_image := preview_image r; page_count := page_count r;
                     fast_stage := fast_stage r; deep_stage := ds;
                     deep_text_at := match text_at with Some t => Some t | None => deep_text_at r end;
                     deep_embed_at := match embed_at with Some t => Some t | None => deep_embed_at r end;
                     md_vector_chunks_deep := md_vector_chunks_deep r;
                     md_chunk_count_deep := md_chunk_count_deep r;
                     md_deep_processed := md_deep_processed r |}
         | None => None
         end
       else files st k;
     chunks := chunks st;
     vectors := vectors st |}.

(** [storage.replace_chunks(file_id, chunks, version)] *)
Definition replace_chunks (st : Store) (fid : string) (cs : list ChunkSnapshot)
    (v : string) : Store :=
  {| files := files st;
     chunks := fun f v' => if (String.eqb f fid && String.eqb v' v)%bool then cs
                           else chunks st f v';
     vectors := vectors st |}.

(** [storage.upsert_file(record)] *)
Definition upsert_file (st : Store) (r : FileRecord) : Store :=
  {| files := fun k => if String.eqb k (id r) then Some r else files st k;
     chunks := chunks st;
     vectors := vectors st |}.

(** [vector_store.upsert(documents)] followed by [flush()]: a document
    replaces the one with the same id. *)
Definition vector_upsert (st : Store) (docs : list VectorDocument) : Store :=
  {| files := files st;
     chunks := chunks st;
     vectors := docs ++ filter (fun d => negb (existsb (fun d' => String.eqb (doc_id d) (doc_id d')) docs))
                               (vectors st) |}.

(** Outcome of one [vision_processor.process_image] call. *)
Inductive VlmCall := VlmRaise | VlmReturn (r : option string).

(** The services and settings the deep round depends on. *)
Record Env := mkEnv {
  (** [content_router.parse(path, indexing_mode="deep").attachments];
      None when parsing raises *)
  deep_parse : option (list (string * Bytes));
  (** reading the file's bytes; None when [open] raises *)
  read_file : option Bytes;
  (** the outcome of the n-th VLM call of the run *)
  vlm : nat -> VlmCall;
  (** [embedding_client.encode(batch)]; None when it raises *)
  encode : list string -> option (list Vector);
  (** whether [vector_store.upsert] and [flush] return normally *)
  vector_store_ok : bool;
  (** [dt.datetime.now(...)] *)
  now : Z;
  embed_max_chars : nat;
  embed_batch_size : Z
}.

(** Exceptions propagating out of a step. *)
Inductive Result (A : Type) := Ok (a : A) | Raise.
Arguments Ok {A} a.
Arguments Raise {A}.

(** Truthiness of [Optional[bytes]] and [Optional[str]]. *)
Definition bytes_truthy (b : option Bytes) : bool :=
  match b with Some (_ :: _) => true | _ => false end.

Definition text_truthy (t : option string) : bool :=
  match t with Some s => Py.truthy s | None => false end.

(** [_should_process_deep] *)
Definition should_process_deep (r : FileRecord) : bool :=
  if String.eqb (kind r) "image" then true
  else if (String.eqb (kind r) "document" && String.eqb (extension r) "pdf")%bool
         && (bytes_truthy (preview_image r)
             || (0 <? match page_count r with Some n => n | None => 0 end))
       then true
  else if String.eqb (kind r) "presentation" then true
  else if (String.eqb (kind r) "document"
           && existsb (String.eqb (extension r)) ["txt"; "md"; "csv"])%bool then false
  else if existsb (String.eqb (kind r)) ["audio"; "video"] then false
  else false.

(** [_process_image]: the VLM text, None when reading or the VLM fails. *)
Definition process_image (env : Env) (r : FileRecord) : option string :=
  let image :=
    if bytes_truthy (preview_image r) then preview_image r else read_file env in
  match image with
  | None => None
  | Some _ => match vlm env 0 with VlmRaise => None | VlmReturn t => t end
  end.

(** [_process_presentation] *)
Definition process_presentation (env : Env) (r : FileRecord) : option string :=
  if bytes_truthy (preview_image r) then
    match vlm env 0 with VlmRaise => None | VlmReturn t => t end
  else None.

(** [_build_deep_chunks] *)
Definition build_deep_chunks (env : Env) (r : FileRecord) (t : string)
  : list ChunkSnapshot :=
  if negb (Py.truthy (Py.strip t)) then []
  else [{| chunk_id := id r ++ "::deep::full"; file_id := id r; ordinal := 0;
           ctext := t; snippet := Py.take 400 t;
           token_count := Z.max (Z.of_nat (String.length t) / 4) 1;
           char_count := Z.of_nat (String.length t);
           section_path := None; page_number := None; source := "vlm";
           created_at := now env; version := "deep" |}].

(** *** Code-fence stripping:
    [re.sub(r"^```\w*\s+|\s+```$", "", cleaned, flags=re.MULTILINE)] *)

Definition backtick : ascii := ascii_of_nat 96.
Definition newline : ascii := ascii_of_nat 10.

Fixpoint span (p : ascii -> bool) (l : list ascii) : list ascii * list ascii :=
  match l with
  | c :: r => if p c then let '(a, b) := span p r in (c :: a, b) else ([], l)
  | [] => ([], [])
  end.

Definition fence (l : list ascii) : option (list ascii) :=
  match l with
  | a :: b :: c :: r =>
      if (Ascii.eqb a backtick && Ascii.eqb b backtick && Ascii.eqb c backtick)%bool
      then Some r else None
  | _ => None
  end.

(** First alternative at a position where [^] holds: the fence, [\w*]
    and [\s+] (both greedy; the classes are disjoint, so no backtracking
    changes the match).  Returns the last matched character and the rest. *)
Definition match_open (l : list ascii) : option (ascii * list ascii) :=
  match fence l with
  | Some r =>
      let '(_, r1) := span Py.isword r in
      match span Py.isspace r1 with
      | ([], _) => None
      | (ws, r2) => Some (last ws newline, r2)
      end
  | None => None
  end.

(** Second alternative: [\s+], the fence, then [$] (end of the string or
    before a newline). *)
Definition match_close (l : list ascii) : option (ascii * list ascii) :=
  match span Py.isspace l with
  | ([], _) => None
  | (_, r) =>
      match fence r with
      | Some [] => Some (backtick, [])
      | Some ((c :: _) as r') => if Ascii.eqb c newline then Some (backtick, r') else None
      | None => None
      end
  end.

(** [re.sub] scanning left to right; [bol] tells whether [^] holds
    (start of the string or just after a newline). *)
Fixpoint sub_fences (fuel : nat) (bol : bool) (l : list ascii) : list ascii :=
  match fuel with
  | O => l
  | S f =>
      match l with
      | [] => []
      | c :: r =>
          match (if bol then match_open l else None) with
          | Some (lc, rest) => sub_fences f (Ascii.eqb lc newline) rest
          | None =>
              match match_close l with
              | Some (lc, rest) => sub_fences f (Ascii.eqb lc newline) rest
              | None => c :: sub_fences f (Ascii.eqb c newline) r
              end
          end
      end
  end.

Definition strip_fences (s : string) : string :=
  let l := list_ascii_of_string s in
  string_of_list_ascii (sub_fences (S (length l)) true l).

(** [cleaned = (result or "").strip()] and the fence removal. *)
Definition clean_result (result : option string) : string :=
  let cleaned := Py.strip (match result with Some s => s | None => "" end) in
  if Py.startswith (String backtick (String backtick (String backtick EmptyString))) cleaned
  then Py.strip (strip_fences cleaned)
  else cleaned.

(** *** [_process_pdf] *)

(** [int(page_key.split("_")[1])]; None when it raises. *)
Definition page_key_num (k : string) : option Z :=
  match Py.index (Py.split_on "_"%char k) 1 with
  | Some part => Py.int_of_str part
  | None => None
  end.

(** The sort keys of all items, or an exception. *)
Fixpoint keyed {A} (items : list (string * A)) : option (list (Z * (string * A))) :=
  match items with
  | [] => Some []
  | (k, v) :: r =>
      match page_key_num k, keyed r with
      | Some n, Some kr => Some ((n, (k, v)) :: kr)
      | _, _ => None
      end
  end.

(** Stable insertion by key. *)
Fixpoint insert_by_key {A} (x : Z * A) (l : list (Z * A)) : list (Z * A) :=
  match l with
  | [] => [x]
  | y :: r => if fst x <? fst y then x :: l else y :: insert_by_key x r
  end.

Fixpoint sort_by_key {A} (l : list (Z * A)) : list (Z * A) :=
  match l with
  | [] => []
  | x :: r => insert_by_key x (sort_by_key r)
  end.

(** The chunk built for a page with a non-empty description. *)
Definition page_chunk (env : Env) (r : FileRecord) (page_num : Z) (cleaned : string)
  : ChunkSnapshot :=
  {| chunk_id := id r ++ "::deep::page_" ++ Py.str_int page_num;
     file_id := id r;
     ordinal := page_num - 1;
     ctext := cleaned;
     snippet := Py.take 400 cleaned;
     token_count := Z.max (Z.of_nat (String.length cleaned) / 4) 1;
     char_count := Z.of_nat (String.length cleaned);
     section_path := Some ("page_" ++ Py.str_int page_num);
     page_number := Some page_num;
     source := "vlm";
     created_at := now env;
     version := "deep" |}.

(** The page loop: [i] is the index of the page (and of the VLM call);
    a raising VLM call is caught and the page skipped. *)
Fixpoint page_loop (env : Env) (r : FileRecord) (i : nat)
    (pages : list (Z * (string * Bytes))) : list string * list ChunkSnapshot :=
  match pages with
  | [] => ([], [])
  | (page_num, _) :: rest =>
      let '(results, cs) := page_loop env r (S i) rest in
      match vlm env i with
      | VlmRaise => (results, cs)
      | VlmReturn out =>
          let cleaned := clean_result out in
          if Py.truthy cleaned
          then (cleaned :: results, page_chunk env r page_num cleaned :: cs)
          else (results, cs)
      end
  end.

Definition two_newlines : string := String newline (String newline EmptyString).

Definition process_pdf (env : Env) (r : FileRecord)
  : Result (option string * list ChunkSnapshot) :=
  match deep_parse env with
  | None => Ok (None, [])
  | Some attachments =>
      let page_images := filter (fun '(k, _) => Py.startswith "page_" k) attachments in
      match page_images with
      | [] => Ok (None, [])
      | _ =>
          match keyed page_images with
          | None => Raise
          | Some ks =>
              let '(page_results, cs) := page_loop env r 0 (sort_by_key ks) in
              Ok (match page_results with
                  | [] => None
                  | _ => Some (Py.join two_newlines page_results)
                  end, cs)
          end
      end
  end.

(** Modelled from the spec: the attachments of [PdfVisionParser.parse]
    (services/parser, not part of the sources), "per-page images
    ([page_N])", numbered from 1 in page order. *)
Definition vision_attachments (images : list Bytes) : list (string * Bytes) :=
  map (fun '(i, b) => ("page_" ++ Py.str_nat i, b)) (PdfDeep.enumerate 1 images).

(** *** [_embed_chunks] *)

Fixpoint batches (fuel : nat) (n : nat) (l : list string) : list (list string) :=
  match fuel with
  | O => []
  | S f =>
      match l with
      | [] => []
      | _ => firstn n l :: batches f n (skipn n l)
      end
  end.

Fixpoint encode_all (env : Env) (bs : list (list string)) : option (list Vector) :=
  match bs with
  | [] => Some []
  | b :: r =>
      match encode env b, encode_all env r with
      | Some vs, Some rest => Some (app vs rest)
      | _, _ => None
      end
  end.

Definition embed_chunks (env : Env) (cs : list ChunkSnapshot) : option (list Vector) :=
  let texts := map (fun c => Py.take (embed_max_chars env) (Py.strip (ctext c)))
                   (filter (fun c => Py.truthy (Py.strip (ctext c))) cs) in
  match texts with
  | [] => Some []
  | _ =>
      let bsz := Z.to_nat (Z.max (embed_batch_size env) 1) in
      encode_all env (batches (length texts) bsz texts)
  end.

(** *** [process] *)

Definition make_doc (r : FileRecord) (cv : ChunkSnapshot * Vector) : VectorDocument :=
  {| doc_id := chunk_id (fst cv); vector := snd cv; doc_file_id := id r;
     doc_version := "deep"; doc_page_number := page_number (fst cv) |}.

Definition set_deep (c : ChunkSnapshot) : ChunkSnapshot :=
  {| chunk_id := chunk_id c; file_id := file_id c; ordinal := ordinal c;
     ctext := ctext c; snippet := snippet c; token_count := token_count c;
     char_count := char_count c; section_path := section_path c;
     page_number := page_number c; source := source c;
     created_at := created_at c; version := "deep" |}.

(** The record written back at the end of a run. *)
Definition finished_record (env : Env) (r : FileRecord)
    (md : option (list string * nat)) : FileRecord :=
  {| id := id r; name := name r; path_exists := path_exists r; kind := kind r;
     extension := extension r; folder_id := folder_id r;
     privacy_level := privacy_level r; preview_image := preview_image r;
     page_count := page_count r; fast_stage := fast_stage r; deep_stage := 2;
     deep_text_at := Some (now env); deep_embed_at := Some (now env);
     md_vector_chunks_deep :=
       match md with Some (ids, _) => Some ids | None => md_vector_chunks_deep r end;
     md_chunk_count_deep :=
       match md with Some (_, n) => Some n | None => md_chunk_count_deep r end;
     md_deep_processed :=
       match md with Some _ => Some true | None => md_deep_processed r end |}.

(** The body of the [try] block (lines 108-210). *)
Definition process_body (env : Env) (st : Store) (fid : string) (r : FileRecord)
  : Result unit * Store :=
  let extracted :=
    if String.eqb (kind r) "image" then Ok (process_image env r, [])
    else if (String.eqb (kind r) "document" && String.eqb (extension r) "pdf")%bool
    then process_pdf env r
    else if String.eqb (kind r) "presentation" then Ok (process_presentation env r, [])
    else Ok (None, []) in
  match extracted with
  | Raise => (Raise, st)
  | Ok (deep_text, deep_chunks0) =>
      if (negb (text_truthy deep_text) && match deep_chunks0 with [] => true | _ => false end)%bool
      then (Ok tt, update_file_stage st fid 2 (Some (now env)) (Some (now env)))
      else
        let deep_chunks1 :=
          match deep_text, deep_chunks0 with
          | Some t, [] => if Py.truthy t then build_deep_chunks env r t else []
          | _, _ => deep_chunks0
          end in
        let deep_chunks := map set_deep deep_chunks1 in
        let st1 := replace_chunks st fid deep_chunks "deep" in
        match deep_chunks with
        | [] => (Ok tt, upsert_file st1 (finished_record env r None))
        | _ =>
            match embed_chunks env deep_chunks with
            | None => (Raise, st1)
            | Some vs =>
                let documents := map (make_doc r) (combine deep_chunks vs) in
                let st2 :=
                  match documents with
                  | [] => st1
                  | _ => if vector_store_ok env then vector_upsert st1 documents else st1
                  end in
                (Ok tt, upsert_file st2
                          (finished_record env r
                             (Some (map doc_id documents, length deep_chunks))))
            end
        end
  end.

(** [DeepProcessor.process(file_id)]: success flag and the new stores. *)
Definition process (env : Env) (st : Store) (fid : string) : bool * Store :=
  match files st fid with
  | None => (false, st)
  | Some r =>
      if fast_stage r <? 2 then (false, st)
      else if 2 <=? deep_stage r then (true, st)
      else if deep_stage r =? -2 then (true, st)
      else if negb (should_process_deep r) then (true, update_file_stage st fid (-2) None None)
      else if negb (path_exists r) then (false, update_file_stage st fid (-1) None None)
      else
        match process_body env st fid r with
        | (Ok _, st') => (true, st')
        | (Raise, st') => (false, update_file_stage st' fid (-1) None None)
        end
  end.

(** *** Auxiliary definitions for stating properties of the round *)

(** [env] with the vector store's [upsert]/[flush] returning normally
    ([ok = true]) or raising ([ok = false]). *)
Definition with_vector_store (env : Env) (ok : bool) : Env :=
  {| deep_parse := deep_parse env; read_file := read_file env; vlm := vlm env;
     encode := encode env; vector_store_ok := ok; now := now env;
     embed_max_chars := embed_max_chars env;
     embed_batch_size := embed_batch_size env |}.

(** The page numbers [int(k.split("_")[1])] of the [page_]-prefixed
    attachment keys; None where [int] raises. *)
Definition page_numbers (atts : list (string * Bytes)) : list (option Z) :=
  map (fun '(k, _) => page_key_num k)
      (filter (fun '(k, _) => Py.startswith "page_" k) atts).

Fixpoint nodupb {A} (eqb : A -> A -> bool) (l : list A) : bool :=
  match l with
  | [] => true
  | x :: r => negb (existsb (eqb x) r) && nodupb eqb r
  end.

Definition opt_Z_eqb (a b : option Z) : bool :=
  match a, b with
  | Some x, Some y => Z.eqb x y
  | None, None => true
  | _, _ => false
  end.

(** The page keys of the attachments carry pairwise-distinct page
    numbers, all of them positive (a key whose number [int] rejects is
    allowed: it makes the sort raise). *)
Definition pages_ok (atts : list (string * Bytes)) : bool :=
  nodupb opt_Z_eqb (page_numbers atts)
  && forallb (fun o => match o with Some n => 0 <? n | None => true end)
             (page_numbers atts).

(** A chunk's ordinal is non-negative and is [page_number - 1] for a page
    chunk, 0 for a whole-document chunk. *)
Definition ordinal_ok (c : ChunkSnapshot) : bool :=
  (0 <=? ordinal c)
  && match page_number c with
     | Some n => ordinal c =? n - 1
     | None => ordinal c =? 0
     end.

(** A stored chunk set with pairwise-distinct ids, pairwise-distinct
    ordinals and well-placed ordinals. *)
Definition deep_chunks_ok (cs : list ChunkSnapshot) : bool :=
  nodupb String.eqb (map chunk_id cs) && nodupb Z.eqb (map ordinal cs)
  && forallb ordinal_ok cs.

(** The keyed pages [(page_num, (page_key, image))] of
    [vision_attachments], numbered from [k]. *)
Definition numbered_pages (k : nat) (images : list Bytes)
  : list (Z * (string * Bytes)) :=
  map (fun '(i, b) => (Z.of_nat i, ("page_" ++ Py.str_nat i, b))) (PdfDeep.enumerate k images).

End Deep.

(* ------------------------------------------------------------------ *)
(** ** services/parser/pdf_deep.py: the per-page loop of [PdfDeepParser.parse] *)

Module PdfDeepPages.
Import PdfDeep.

(** What the services return for one page of the loop (lines 150-170):
    the text [_extract_text_from_bboxes] builds from the OCR boxes (None
    when the OCR, the text extraction or the vision router raises), the
    [bbox_ratio_effective] of the vision router, and the VLM caption
    (None when [_array_to_bytes] or [process_image] raises). *)
Record PageOutcome := mkPageOutcome {
  po_text : option string;
  po_ratio : Q;
  po_caption : option string
}.

(** The text of a page, None when an exception leaves the loop.
    [if need_vlm["bbox_ratio_effective"] <= self.threshold:
       page_text = f"{page_text} caption:({caption})"] *)
Definition page_text (threshold : Q) (p : PageOutcome) : option string :=
  match po_text p with
  | None => None
  | Some t =>
      if Qle_bool (po_ratio p) threshold then
        match po_caption p with
        | Some c => Some (t ++ " caption:(" ++ c ++ ")")
        | None => None
        end
      else Some t
  end.

(** [for index, page in enumerate(doc, start=1)]: the page texts and the
    [(start, end, index)] entries of [page_mapping]; [cursor] is the value
    the loop variable has when an iteration starts.  The first exception
    ends the loop ([except Exception: pass]). *)
Fixpoint pages_loop (threshold : Q) (page_count index cursor : nat)
    (pages : list PageOutcome) : list string * list (nat * nat * nat) :=
  match pages with
  | [] => ([], [])
  | p :: rest =>
      let cursor := 0%nat in
      match page_text threshold p with
      | None => ([], [])
      | Some pt =>
          let start := cursor in
          let end_ := (start + String.length pt)%nat in
          let cursor := end_ in
          let cursor := if (index <? page_count)%nat then (cursor + 2)%nat else cursor in
          let '(page_texts, page_mapping) :=
            pages_loop threshold page_count (S index) cursor rest in
          (pt :: page_texts, (start, end_, index) :: page_mapping)
      end
  end.

(** The returned [ParsedContent] with its [page_mapping] and the
    [page_texts] of its metadata. *)
Record DeepParsed := mkDeepParsed {
  dp_content : Content.ParsedContent;
  dp_page_texts : list string;
  dp_page_mapping : list (nat * nat * nat)
}.

(** [PdfDeepParser.parse] with [threshold] (0.85 by default): [images] are
    the pages rendered by [turn_pdf_into_images], [pages] the outcomes of
    the services on each page. *)
Definition parse_pages (threshold : Q) (images : list Content.Bytes)
    (pages : list PageOutcome) : DeepParsed :=
  let '(page_texts, page_mapping) := pages_loop threshold (length images) 1 0 pages in
  {| dp_content :=
       {| Content.text := page_text_final page_texts;
          Content.page_count := Some (length images);
          Content.attachments :=
            map (fun '(i, b) => (Py.str_nat i, b)) (enumerate 1 images) |};
     dp_page_texts := page_texts;
     dp_page_mapping := page_mapping |}.

End PdfDeepPages.

(* ------------------------------------------------------------------ *)
(** ** services/parser/img_2_wordbox.py: [IMG2WORDS] *)

Module Wordbox.

Section Words.

(** The coordinate type of the OCR quads (Python floats) and Python's
    [<] on it. *)
Variable R : Type.
Variable ltb : R -> R -> bool.

(** A PyMuPDF word tuple [(x0, y0, x1, y1, text, block_no, line_no, word_no)]. *)
Record FitzWord := mkWord {
  x0 : R; y0 : R; x1 : R; y1 : R;
  w_text : string;
  block_no : nat;
  line_no : nat;
  word_no : nat
}.

(** An OCR character [(char, score, quad)], [quad] a list of [[x, y]] points. *)
Definition OcrChar := (string * R * list (R * R))%type.

(** [min(xs)]: the first item, replaced by every later item [< ] the
    current one; [ValueError] (None) on an empty list. *)
Definition py_min (xs : list R) : option R :=
  match xs with
  | [] => None
  | x :: r => Some (fold_left (fun cur y => if ltb y cur then y else cur) r x)
  end.

(** [max(xs)]: replaced by every later item [> ] the current one. *)
Definition py_max (xs : list R) : option R :=
  match xs with
  | [] => None
  | x :: r => Some (fold_left (fun cur y => if ltb cur y then y else cur) r x)
  end.

(** The body of the inner loop for one character. *)
Definition char_word (block_no word_no : nat) (ch : OcrChar) : option FitzWord :=
  let '(c, _, quad) := ch in
  let xs := map fst quad in
  let ys := map snd quad in
  match py_min xs, py_min ys, py_max xs, py_max ys with
  | Some x0, Some y0, Some x1, Some y1 =>
      Some (mkWord x0 y0 x1 y1 c block_no 0 word_no)
  | _, _, _, _ => None
  end.

(** [for word_no, (char, score, quad) in enumerate(block)] *)
Fixpoint block_words (block_no word_no : nat) (block : list OcrChar)
  : option (list FitzWord) :=
  match block with
  | [] => Some []
  | ch :: r =>
      match char_word block_no word_no ch with
      | None => None
      | Some w =>
          match block_words block_no (S word_no) r with
          | Some ws => Some (w :: ws)
          | None => None
          end
      end
  end.

(** [for block_no, block in enumerate(ocr_chars)] *)
Fixpoint blocks_words (block_no : nat) (blocks : list (list OcrChar))
  : option (list FitzWord) :=
  match blocks with
  | [] => Some []
  | b :: r =>
      match block_words block_no 0 b with
      | None => None
      | Some ws =>
          match blocks_words (S block_no) r with
          | Some wr => Some (ws ++ wr)%list
          | None => None
          end
      end
  end.

(** [IMG2WORDS.ocr_chars_to_fitz_words]; None when it raises. *)
Definition ocr_chars_to_fitz_words (ocr_chars : list (list OcrChar))
  : option (list FitzWord) :=
  blocks_words 0 ocr_chars.

(** [IMG2WORDS.run]: [engine] is the [word_results] of the RapidOCR call,
    None when that call raises; any exception gives []. *)
Definition run (engine : option (list (list OcrChar))) : list FitzWord :=
  match engine with
  | None => []
  | Some ocr_chars =>
      match ocr_chars_to_fitz_words ocr_chars with
      | Some ws => ws
      | None => []
      end
  end.

End Words.

Arguments mkWord {R}.
Arguments x0 {R}. Arguments y0 {R}. Arguments x1 {R}. Arguments y1 {R}.
Arguments w_text {R}. Arguments block_no {R}. Arguments line_no {R}.
Arguments word_no {R}.

End Wordbox.

(* ------------------------------------------------------------------ *)
(** ** services/app/routers/health.py: [read_health] *)

Module HealthRoute.
Import Health.

(** [indexer.status()]: its [status], [message] and [last_error]. *)
Record Progress := mkProgress {
  pg_status : string;
  pg_message : option string;
  pg_last_error : option string
}.

(** [settings.endpoints] *)
Record Endpoints := mkEndpoints {
  ep_embedding : option string;
  ep_rerank : option string;
  ep_vision : option string;
  ep_transcription : option string
}.

Record HealthResponse := mkHealthResponse {
  hr_status : string;
  hr_indexed_files : Z;
  hr_watched_folders : Z;
  hr_message : option string;
  hr_services : list ServiceStatus
}.

(** The [(name, url)] of the [check_service] calls gathered by [read_health]. *)
Definition health_checks (e : Endpoints) : list (string * option string) :=
  [("Embedding", ep_embedding e); ("Reranker", ep_rerank e)]
  ++ (if negb (url_missing (ep_vision e)) then [("Vision/LLM", ep_vision e)] else [])
  ++ (if negb (url_missing (ep_transcription e))
      then [("Whisper", ep_transcription e)] else []).

Definition is_offline (s : ServiceStatus) : bool :=
  match ss_status s with Offline => true | _ => false end.

(** [read_health] with the [storage.counts()] result, the indexer progress
    and the statuses [asyncio.gather] returns for [health_checks]. *)
Definition read_health (files folders : Z) (progress : Progress)
    (services : list ServiceStatus) : HealthResponse :=
  let status := if negb (files =? 0) then "ready" else "idle" in
  let status :=
    if existsb (String.eqb (pg_status progress)) ["running"; "paused"]
    then "indexing" else status in
  let message :=
    if Deep.text_truthy (pg_last_error progress) then pg_last_error progress
    else pg_message progress in
  let message :=
    if String.eqb (pg_status progress) "paused" then
      if Deep.text_truthy message then message else Some "Indexing paused."
    else message in
  let '(status, message) :=
    if existsb is_offline services then
      ("degraded",
       if negb (Deep.text_truthy message) then Some "Some AI services are offline."
       else message)
    else (status, message) in
  {| hr_status := status; hr_indexed_files := files; hr_watched_folders := folders;
     hr_message := message; hr_services := services |}.

End HealthRoute.

(* ------------------------------------------------------------------ *)
(** ** services/storage/memory.py: [MemoryMixin] *)

Module MemoryStore.

(** JSON values held in the [metadata] columns. *)
#[warnings="-register-all"]
Inductive Json :=
| JNull | JBool (b : bool) | JNum (z : Z) | JStr (s : string)
| JArr (xs : list Json) | JObj (kvs : list (string * Json)).

Definition Dict := list (string * Json).

Record EpisodeRecord := mkEpisode {
  ep_id : string;
  ep_user_id : string;
  ep_summary : string;
  ep_episode : option string;
  ep_subject : option string;
  ep_timestamp : option string;
  ep_metadata : option Dict
}.

Record ProfileRecord := mkProfile {
  pr_user_id : string;
  pr_user_name : option string;
  pr_personality : option (list string);
  pr_interests : option (list string);
  pr_hard_skills : option (list (list (string * string)));
  pr_soft_skills : option (list (list (string * string)));
  pr_updated_at : option string;
  pr_metadata : option Dict
}.

(** A row of [memory_episodes].  A TEXT column holding [json.dumps(v)]
    is represented by [v]: [json.loads] gives it back, and the text of a
    non-empty list or dict is truthy. *)
Record EpisodeRow := mkEpisodeRow {
  er_id : string;
  er_user_id : string;
  er_summary : string;
  er_episode : option string;
  er_subject : option string;
  er_timestamp : string;
  er_metadata : option Dict;
  er_created_at : string
}.

(** A row of [memory_profiles]. *)
Record ProfileRow := mkProfileRow {
  pw_user_id : string;
  pw_user_name : option string;
  pw_personality : option (list string);
  pw_interests : option (list string);
  pw_hard_skills : option (list (list (string * string)));
  pw_soft_skills : option (list (list (string * string)));
  pw_updated_at : string;
  pw_metadata : option Dict
}.

(** A row of the FTS5 table [memory_fts]. *)
Record FtsRow := mkFtsRow {
  fts_content : string;
  fts_user_id : string;
  fts_memory_type : string;
  fts_memory_id : string
}.

(** The tables read and written by the episode and profile operations,
    rows in table order. *)
Record Db := mkDb {
  episodes : list EpisodeRow;
  profiles : list ProfileRow;
  fts : list FtsRow
}.

(** [x or d] on an [Optional[str]]. *)
Definition str_or (o : option string) (d : string) : string :=
  match o with Some s => if Py.truthy s then s else d | None => d end.

(** [json.dumps(x) if x else None] as stored: an empty list or dict is
    stored as NULL. *)
Definition json_or_null {A} (x : option (list A)) : option (list A) :=
  match x with Some (_ :: _) => x | _ => None end.

(** [memory_id = ? AND memory_type = 'episode'] *)
Definition episode_fts (i : string) (f : FtsRow) : bool :=
  String.eqb (fts_memory_id f) i && String.eqb (fts_memory_type f) "episode".

(** [upsert_episode(record)], [now] the [isoformat()] of the clock:
    [INSERT ... ON CONFLICT(id) DO UPDATE SET summary, episode, subject,
    timestamp, metadata], then the FTS entry of the episode replaced. *)
Definition upsert_episode (db : Db) (now : string) (r : EpisodeRecord) : Db :=
  let timestamp := str_or (ep_timestamp r) now in
  let metadata_json := json_or_null (ep_metadata r) in
  let rows :=
    if existsb (fun w => String.eqb (er_id w) (ep_id r)) (episodes db) then
      map (fun w =>
             if String.eqb (er_id w) (ep_id r) then
               {| er_id := er_id w; er_user_id := er_user_id w;
                  er_summary := ep_summary r; er_episode := ep_episode r;
                  er_subject := ep_subject r; er_timestamp := timestamp;
                  er_metadata := metadata_json; er_created_at := er_created_at w |}
             else w) (episodes db)
    else
      (episodes db ++
        [{| er_id := ep_id r; er_user_id := ep_user_id r; er_summary := ep_summary r;
            er_episode := ep_episode r; er_subject := ep_subject r;
            er_timestamp := timestamp; er_metadata := metadata_json;
            er_created_at := now |}])%list in
  let fts_content :=
    ep_summary r ++ " " ++ str_or (ep_episode r) "" ++ " " ++ str_or (ep_subject r) "" in
  {| episodes := rows;
     profiles := profiles db;
     fts := (filter (fun f => negb (episode_fts (ep_id r) f)) (fts db)
             ++ [mkFtsRow fts_content (ep_user_id r) "episode" (ep_id r)])%list |}.

(** [WHERE user_id = ?] *)
Definition user_episodes (db : Db) (u : string) : list EpisodeRow :=
  filter (fun w => String.eqb (er_user_id w) u) (episodes db).

(** [count_episodes(user_id)] *)
Definition count_episodes (db : Db) (u : string) : nat :=
  length (user_episodes db u).

(** [ORDER BY timestamp DESC]: TEXT compared bytewise; rows with equal
    timestamps may come in any order, here in reverse table order. *)
Fixpoint insert_desc (w : EpisodeRow) (l : list EpisodeRow) : list EpisodeRow :=
  match l with
  | [] => [w]
  | v :: r =>
      if String.ltb (er_timestamp v) (er_timestamp w) then w :: l
      else v :: insert_desc w r
  end.

Fixpoint sort_desc (l : list EpisodeRow) : list EpisodeRow :=
  match l with
  | [] => []
  | w :: r => insert_desc w (sort_desc r)
  end.

(** A row as an [EpisodeRecord]:
    [metadata=json.loads(row["metadata"]) if row["metadata"] else None]. *)
Definition row_to_episode (w : EpisodeRow) : EpisodeRecord :=
  {| ep_id := er_id w; ep_user_id := er_user_id w; ep_summary := er_summary w;
     ep_episode := er_episode w; ep_subject := er_subject w;
     ep_timestamp := Some (er_timestamp w); ep_metadata := er_metadata w |}.

(** [get_episodes(user_id, limit, offset)] for the [limit >= 1] and
    [offset >= 0] the router admits. *)
Definition get_episodes (db : Db) (u : string) (limit offset : nat)
  : list EpisodeRecord :=
  map row_to_episode (firstn limit (skipn offset (sort_desc (user_episodes db u)))).

(** [delete_episode(episode_id)] *)
Definition delete_episode (db : Db) (i : string) : Db :=
  {| episodes := filter (fun w => negb (String.eqb (er_id w) i)) (episodes db);
     profiles := profiles db;
     fts := filter (fun f => negb (episode_fts i f)) (fts db) |}.

(** [upsert_profile(record)]: every column is overwritten on conflict. *)
Definition upsert_profile (db : Db) (now : string) (r : ProfileRecord) : Db :=
  let row :=
    {| pw_user_id := pr_user_id r; pw_user_name := pr_user_name r;
       pw_personality := json_or_null (pr_personality r);
       pw_interests := json_or_null (pr_interests r);
       pw_hard_skills := json_or_null (pr_hard_skills r);
       pw_soft_skills := json_or_null (pr_soft_skills r);
       pw_updated_at := now;
       pw_metadata := json_or_null (pr_metadata r) |} in
  {| episodes := episodes db;
     profiles :=
       if existsb (fun w => String.eqb (pw_user_id w) (pr_user_id r)) (profiles db)
       then map (fun w => if String.eqb (pw_user_id w) (pr_user_id r) then row else w)
                (profiles db)
       else (profiles db ++ [row])%list;
     fts := fts db |}.

(** [get_profile(user_id)] *)
Definition get_profile (db : Db) (u : string) : option ProfileRecord :=
  match find (fun w => String.eqb (pw_user_id w) u) (profiles db) with
  | None => None
  | Some w =>
      Some {| pr_user_id := pw_user_id w; pr_user_name := pw_user_name w;
              pr_personality := pw_personality w; pr_interests := pw_interests w;
              pr_hard_skills := pw_hard_skills w; pr_soft_skills := pw_soft_skills w;
              pr_updated_at := Some (pw_updated_at w); pr_metadata := pw_metadata w |}
  end.

End MemoryStore.

(* ------------------------------------------------------------------ *)
(** ** Auxiliary notions used to state properties of the code *)

Module DeepFrame.
Import Deep.

(** What a step may change: the record of [fid], its "deep" chunks and
    deep vector documents of [fid]; a vector document whose id does not
    start with [fid ++ "::deep::"] is kept. *)
Definition store_frame (fid : string) (st st' : Store) : Prop :=
  (forall k, k <> fid -> files st' k = files st k)
  /\ (forall k v, (k <> fid \/ v <> "deep") -> chunks st' k v = chunks st k v)
  /\ (forall d, In d (vectors st') ->
       In d (vectors st) \/ (doc_file_id d = fid /\ doc_version d = "deep"))
  /\ (forall d, In d (vectors st) ->
       String.prefix (fid ++ "::deep::") (doc_id d) = false -> In d (vectors st')).

End DeepFrame.

Module SettingsMerge.
Import SettingsRouter.

(** A payload that carries no key. *)
Definition empty_update : SettingsUpdate :=
  mkSettingsUpdate None None None None None None None None None None None None None.

(** One payload carrying, for every key, the value of [u2] when it has
    one and that of [u1] otherwise. *)
Definition merge_updates (u1 u2 : SettingsUpdate) : SettingsUpdate :=
  let pick {A} (a b : option A) := match b with Some v => Some v | None => a end in
  {| u_vision_max_pixels := pick (u_vision_max_pixels u1) (u_vision_max_pixels u2);
     u_video_max_pixels := pick (u_video_max_pixels u1) (u_video_max_pixels u2);
     u_embed_batch_size := pick (u_embed_batch_size u1) (u_embed_batch_size u2);
     u_embed_batch_delay_ms := pick (u_embed_batch_delay_ms u1) (u_embed_batch_delay_ms u2);
     u_vision_batch_delay_ms := pick (u_vision_batch_delay_ms u1) (u_vision_batch_delay_ms u2);
     u_search_result_limit := pick (u_search_result_limit u1) (u_search_result_limit u2);
     u_qa_context_limit := pick (u_qa_context_limit u1) (u_qa_context_limit u2);
     u_max_snippet_length := pick (u_max_snippet_length u1) (u_max_snippet_length u2);
     u_summary_max_tokens := pick (u_summary_max_tokens u1) (u_summary_max_tokens u2);
     u_pdf_one_chunk_per_page := pick (u_pdf_one_chunk_per_page u1) (u_pdf_one_chunk_per_page u2);
     u_rag_chunk_size := pick (u_rag_chunk_size u1) (u_rag_chunk_size u2);
     u_rag_chunk_overlap := pick (u_rag_chunk_overlap u1) (u_rag_chunk_overlap u2);
     u_default_indexing_mode := pick (u_default_indexing_mode u1) (u_default_indexing_mode u2) |}.

End SettingsMerge.

Module MentionTokens.
Import Scope.

(** The words of a query: a plain word, a bare mention [@name] and a
    quoted mention [@"name"]. *)
Inductive Token :=
| Plain (s : string)
| Bare (s : string)
| Quoted (s : string).

Definition render (t : Token) : string :=
  match t with
  | Plain s => s
  | Bare s => "@" ++ s
  | Quoted s => "@" ++ String dquote s ++ String dquote EmptyString
  end.

(** The name a token mentions. *)
Definition token_names (t : Token) : list string :=
  match t with
  | Plain _ => []
  | Bare s | Quoted s => [s]
  end.

Definition no_char (p : ascii -> bool) (s : string) : bool :=
  forallb (fun c => negb (p c)) (list_ascii_of_string s).

(** A plain word has no at sign; a bare name is non-empty, has no
    whitespace and does not start with a double quote; a quoted name is
    non-empty and has no double quote. *)
Definition token_ok (t : Token) : bool :=
  match t with
  | Plain s => no_char (fun c => Ascii.eqb c "@") s
  | Bare s =>
      match s with
      | EmptyString => false
      | String c _ => negb (Ascii.eqb c dquote) && no_char Py.isspace s
      end
  | Quoted s => Py.truthy s && no_char (fun c => Ascii.eqb c dquote) s
  end.

End MentionTokens.

Module WordSlots.

(** The [(block_no, word_no, char)] triples visited by the two nested
    [enumerate] loops of [ocr_chars_to_fitz_words]. *)
Definition word_slots {A} (blocks : list (list A)) : list (nat * nat * A) :=
  concat (map (fun '(i, b) => map (fun '(j, ch) => (i, j, ch)) (PdfDeep.enumerate 0 b))
              (PdfDeep.enumerate 0 blocks)).

End WordSlots.

(* ------------------------------------------------------------------ *)
(** ** Concrete inputs used by the examples below *)

Module DeepFixtures.
Import Deep.

(** A 3-page PDF whose fast round is done and whose deep round is pending. *)
Definition pdf_record : FileRecord :=
  mkFile "f1" "report.pdf" true "document" "pdf" "folder1" "public"
         None (Some 3) 2 0 None None None None None.

(** An image whose fast round is done. *)
Definition image_record : FileRecord :=
  mkFile "img1" "cat.png" true "image" "png" "folder1" "public"
         (Some [Byte.x89]) None 2 0 None None None None None.

Definition store0 : Store :=
  {| files := fun k =>
       if String.eqb k "f1" then Some pdf_record
       else if String.eqb k "img1" then Some image_record else None;
     chunks := fun _ _ => [];
     vectors := [] |}.

Definition three_pages : list Bytes := [[Byte.x01]; [Byte.x02]; [Byte.x03]].

(** Services for a run: the VLM answers [vlm_answer]; the embedding
    service returns one vector per text unless [embed_ok] is false. *)
Definition env_with (vlm_answer : nat -> VlmCall) (embed_ok vs_ok : bool) : Env :=
  {| deep_parse := Some (vision_attachments three_pages);
     read_file := None;
     vlm := vlm_answer;
     encode := fun b => if embed_ok then Some (map (fun _ => [1]) b) else None;
     vector_store_ok := vs_ok;
     now := 100;
     embed_max_chars := 4000;
     embed_batch_size := 32 |}.

(** The VLM raises on the second page (call 1) and describes the others. *)
Definition vlm_fails_on_page_2 (i : nat) : VlmCall :=
  if Nat.eqb i 1 then VlmRaise
  else VlmReturn (Some ("Page " ++ Py.str_nat (S i) ++ " shows a chart.")).

Definition vlm_ok (i : nat) : VlmCall := VlmReturn (Some "A cat on a sofa.").

Definition vlm_down (i : nat) : VlmCall := VlmRaise.

(** A text file and an audio file whose fast round is done. *)
Definition txt_record : FileRecord :=
  mkFile "t1" "notes.txt" true "document" "txt" "folder1" "public"
         None None 2 0 None None None None None.

Definition audio_record : FileRecord :=
  mkFile "a1" "talk.mp3" true "audio" "mp3" "folder1" "public"
         None None 2 0 None None None None None.

End DeepFixtures.

Module ContentFixtures.
Import Content.

Definition pdf_text : Parser :=
  mkParser "pdf_text" (fun _ => true)
    (fun p => mkParsed (if String.eqb p "scan.pdf" then " " else "text") (Some 1%nat) []).

Definition pdf_vision : Parser :=
  mkParser "pdf_vision" (fun _ => true)
    (fun _ => mkParsed "described" (Some 1%nat) [("page_1", [])]).

Definition docx : Parser :=
  mkParser "docx" (fun p => String.eqb (lower (path_suffix p)) ".docx")
    (fun _ => mkParsed "docx text" None []).

Definition markdown : Parser :=
  mkParser "markdown" (fun p => String.eqb (lower (path_suffix p)) ".md")
    (fun _ => mkParsed "md text" None []).

Definition general : Parser :=
  mkParser "general" (fun _ => true) (fun _ => mkParsed "" None []).

(** A router in text mode over a docx and a markdown parser. *)
Definition router0 : ContentRouter :=
  mkRouter [docx; markdown] pdf_text pdf_vision general "text".

End ContentFixtures.

Module HealthFixtures.
Import Health.

(** The caching behaviour the claim states, for calls of every kind. *)
Definition cache_clause_all_calls : Prop :=
  forall name u use_cache cache get get' now done_ now' done',
    u <> "" ->
    now' - done_ < SERVICE_CACHE_TTL ->
    let first := check_service name (Some u) use_cache cache get now done_ in
    fst (check_service name (Some u) use_cache (snd first) get' now' done')
    = fst first.

Definition embed_url : string := "http://embed:8001".

Definition embed_online : ServiceStatus :=
  mkServiceStatus "Embedding" Online None (Some 3).

(** A cache holding the Embedding service's status stamped at t = 1000 ms. *)
Definition cache0 : Cache := [("Embedding:http://embed:8001", (embed_online, 1000))].

End HealthFixtures.

Module ScopeFixtures.
Import Scope.

Definition scope_storage : ScopeStorage :=
  {| find_files_by_name := fun n => if String.eqb n "report.pdf" then ["a"; "b"] else [];
     get_files_in_folder := fun f => if String.eqb f "f1" then ["a"; "c"] else [] |}.

Definition candidates : list SearchHit :=
  [mkHit "a::0" "a"; mkHit "b::0" "b"; mkHit "c::0" "c"].

End ScopeFixtures.

Module DeepRoundFixtures.
Import Deep DeepFixtures.

(** A VLM run over the 3-page PDF where the second page fails. *)
Definition pdf_env : Env := env_with vlm_fails_on_page_2 true true.

Definition pdf_env_text : option string :=
  match process_pdf pdf_env pdf_record with Ok (t, _) => t | Raise => None end.

Definition pdf_env_chunks : list ChunkSnapshot :=
  match process_pdf pdf_env pdf_record with Ok (_, cs) => cs | Raise => [] end.

(** The parser returns a second page whose key has no page number. *)
Definition env_bad_key : Env :=
  {| deep_parse := Some [("page_1", [Byte.x01]); ("page_cover", [Byte.x02])];
     read_file := None;
     vlm := vlm_ok;
     encode := fun b => Some (map (fun _ => [1]) b);
     vector_store_ok := true;
     now := 100;
     embed_max_chars := 4000;
     embed_batch_size := 32 |}.

(** [store0] with vector documents: a fast one of the PDF, a deep one of
    the image, and a deep one of the PDF from an earlier run. *)
Definition store_vec : Store :=
  {| files := files store0;
     chunks := chunks store0;
     vectors := [mkDoc "f1::fast::0" [1] "f1" "fast" None;
                 mkDoc "img1::deep::full" [1] "img1" "deep" None;
                 mkDoc "f1::deep::page_1" [0] "f1" "deep" (Some 1)] |}.

End DeepRoundFixtures.

Module MemoryFixtures.
Import MemoryStore.

Definition clock : string := "2026-01-05T00:00:00+00:00".

(** Alice's episode "e1". *)
Definition alice_row : EpisodeRow :=
  mkEpisodeRow "e1" "alice" "Met Bob" None None "2026-01-02T10:00:00+00:00" None
               "2026-01-02T10:00:00+00:00".

Definition mem_db : Db :=
  mkDb [alice_row; mkEpisodeRow "e0" "alice" "Signed up" None None
                                "2026-01-01T09:00:00+00:00" None "2026-01-01T09:00:00+00:00"]
       [mkProfileRow "alice" (Some "Alice") (Some ["curious"]) None None None
                     "2026-01-01T09:00:00+00:00" None]
       [mkFtsRow "Met Bob  " "alice" "episode" "e1";
        mkFtsRow "Signed up  " "alice" "episode" "e0"].

(** Bob writes an episode under Alice's id "e1". *)
Definition bob_episode : EpisodeRecord :=
  mkEpisode "e1" "bob" "Lunch" (Some "pasta") None None None.

(** A new episode of Alice, with metadata. *)
Definition fresh_episode : EpisodeRecord :=
  mkEpisode "e2" "alice" "Gym" None (Some "health") (Some "2026-01-03T08:00:00+00:00")
            (Some [("mood", JStr "good")]).

(** Alice's profile update that drops her personality and interests. *)
Definition alice_profile : ProfileRecord :=
  mkProfile "alice" (Some "Alice") (Some []) None None None None None.

End MemoryFixtures.

(* ================================================================== *)
(** * Properties *)

(* ------------------------------------------------------------------ *)
(** ** Settings router *)

Module SettingsFacts.
Import SettingsRouter.

Example get_after_patch_example :
  let s := mkSettings 1 2 3 4 5 6 7 8 9 false 11 12 "fast" in
  let u := mkSettingsUpdate None None (Some 64) None None None None None None
                            (Some true) None None (Some "deep") in
  lookup "embed_batch_size" (get_settings (fst (patch_settings s u))) = Some (JInt 64)
  /\ lookup "rag_chunk_size" (get_settings (fst (patch_settings s u))) = Some (JInt 11)
  /\ lookup "default_indexing_mode" (get_settings (fst (patch_settings s u)))
     = Some (JStr "deep").
Proof. repeat split; reflexivity. Qed.

(** Claim C9: after [PATCH /settings/] with a [SettingsUpdate] payload,
    [GET /settings/] returns, for every key of [SettingsUpdate], the value
    posted for it when the payload carries one, and the prior value of
    that key otherwise. *)
Theorem patch_then_get_settings :
  forall (s : Settings) (u : SettingsUpdate) (k : SettingKey),
    lookup (key_name k) (get_settings (fst (patch_settings s u))) =
    match posted u k with
    | Some v => Some v
    | None => lookup (key_name k) (get_settings s)
    end.
Proof.
  intros s [] k; destruct k; cbn;
    match goal with |- context [set_if ?o _] => destruct o end; reflexivity.
Qed.

(** The body of the PATCH response is the dict a following GET returns. *)
Lemma patch_response_is_get :
  forall s u, snd (patch_settings s u) = get_settings (fst (patch_settings s u)).
Proof. reflexivity. Qed.

End SettingsFacts.

(* ------------------------------------------------------------------ *)
(** ** Deep eligibility *)

Module EligibilityFacts.
Import Deep DeepFixtures.

Lemma bytes_truthy_iff (b : option Bytes) :
  bytes_truthy b = true <-> exists x xs, b = Some (x :: xs).
Proof.
  destruct b as [[|x xs]|]; simpl; split; try discriminate;
    try (intros [? [? H]]; discriminate H); eauto.
Qed.

Lemma page_count_pos_iff (p : option Z) :
  (0 <? match p with Some n => n | None => 0 end) = true <->
  exists n, p = Some n /\ 0 < n.
Proof.
  destruct p as [n|]; simpl; rewrite ?Z.ltb_lt; split.
  - eauto.
  - intros [m [[= <-] H]]; exact H.
  - lia.
  - intros [m [H _]]; discriminate H.
Qed.

(** Claim C5: [_should_process_deep] holds exactly for images, for
    documents with extension pdf that carry a (non-empty) preview image or
    a page count above 0, and for presentations; in particular it is false
    for txt, md and csv documents and for audio and video files. *)
Theorem should_process_deep_iff : forall r : FileRecord,
  (should_process_deep r = true <->
     kind r = "image"
     \/ (kind r = "document" /\ extension r = "pdf"
         /\ ((exists x xs, preview_image r = Some (x :: xs))
             \/ exists n, page_count r = Some n /\ 0 < n))
     \/ kind r = "presentation")
  /\ (kind r = "document" -> In (extension r) ["txt"; "md"; "csv"] ->
      should_process_deep r = false)
  /\ (In (kind r) ["audio"; "video"] -> should_process_deep r = false).
Proof.
  intros r.
  assert (Hiff : should_process_deep r = true <->
     kind r = "image"
     \/ (kind r = "document" /\ extension r = "pdf"
         /\ ((exists x xs, preview_image r = Some (x :: xs))
             \/ exists n, page_count r = Some n /\ 0 < n))
     \/ kind r = "presentation").
  { rewrite <- bytes_truthy_iff, <- page_count_pos_iff.
    unfold should_process_deep.
    destruct (String.eqb_spec (kind r) "image") as [Hi|Hi];
      [tauto|].
    destruct (String.eqb_spec (kind r) "document") as [Hd|Hd];
    destruct (String.eqb_spec (extension r) "pdf") as [He|He];
    destruct (bytes_truthy (preview_image r));
    destruct (0 <? _);
    destruct (String.eqb_spec (kind r) "presentation") as [Hp|Hp];
    simpl; try tauto;
    repeat match goal with
           | |- context [if ?b then _ else _] => destruct b
           end; split; intros; try discriminate; try tauto;
    try (rewrite Hd in Hp; discriminate Hp). }
  split; [exact Hiff|].
  split.
  - intros Hd Hx.
    pose proof (proj1 Hiff) as E.
    destruct (should_process_deep r); [|reflexivity].
    specialize (E eq_refl); rewrite Hd in E.
    destruct E as [E|[[_ [E _]]|E]]; try discriminate E.
    rewrite E in Hx; simpl in Hx; intuition discriminate.
  - intros Hk.
    pose proof (proj1 Hiff) as E.
    destruct (should_process_deep r); [|reflexivity].
    specialize (E eq_refl).
    simpl in Hk; destruct Hk as [Hk|[Hk|[]]]; rewrite <- Hk in E;
      destruct E as [E|[[E _]|E]]; discriminate E.
Qed.

Lemma should_process_deep_iff_witness :
  should_process_deep pdf_record = true
  /\ should_process_deep txt_record = false
  /\ should_process_deep audio_record = false.
Proof.
  split; [|split].
  - apply (proj2 (proj1 (should_process_deep_iff pdf_record))).
    right; left; split; [reflexivity|split; [reflexivity|]].
    right; exists 3; split; [reflexivity|lia].
  - apply (proj1 (proj2 (should_process_deep_iff txt_record)));
      [reflexivity|simpl; auto].
  - apply (proj2 (proj2 (should_process_deep_iff audio_record))); simpl; auto.
Defined.

End EligibilityFacts.

(* ------------------------------------------------------------------ *)
(** ** Content routing *)

Module RouterFacts.
Import Content ContentFixtures.

Lemma select_parser_first (ps pre post : list Parser) (p : Parser) (path : string) :
  ps = (pre ++ p :: post)%list ->
  Forall (fun q => accepts q path = false) pre ->
  accepts p path = true ->
  select_parser ps path = Some p.
Proof.
  intros -> Hpre Hp; induction Hpre as [|q pre' Hq _ IH]; simpl.
  - rewrite Hp; reflexivity.
  - rewrite Hq; exact IH.
Qed.

Lemma select_parser_none (ps : list Parser) (path : string) :
  Forall (fun q => accepts q path = false) ps -> select_parser ps path = None.
Proof.
  induction 1 as [|q ps' Hq _ IH]; simpl; [reflexivity|rewrite Hq; exact IH].
Qed.

(** Claim C7: for a path whose suffix (pathlib's [suffix] of its last
    component) is .pdf (compared case-insensitively)
    [ContentRouter.parse] calls only the vision parser when the indexing
    mode is "deep" or "fine" or [pdf_mode] is "vision"; otherwise it calls
    the text parser first and returns the vision parser's result exactly
    when the text parser's text is empty after [strip()], the text
    parser's result otherwise.  For any other path it delegates to the
    first parser of its list that accepts the path, and to the general
    parser when none does.  (The first component lists the parsers
    called, in order.) *)
Theorem router_parse_dispatch :
  forall (r : ContentRouter) (path mode : string),
    (lower (path_suffix path) = ".pdf" ->
       ((mode = "deep" \/ mode = "fine" \/ pdf_mode r = "vision") ->
          router_parse r path mode =
            ([parser_name (pdf_vision_parser r)], parse_fn (pdf_vision_parser r) path))
       /\ (mode <> "deep" -> mode <> "fine" -> pdf_mode r <> "vision" ->
          router_parse r path mode =
            if String.eqb (Py.strip (text (parse_fn (pdf_text_parser r) path))) ""
            then ([parser_name (pdf_text_parser r); parser_name (pdf_vision_parser r)],
                  parse_fn (pdf_vision_parser r) path)
            else ([parser_name (pdf_text_parser r)], parse_fn (pdf_text_parser r) path)))
    /\ (lower (path_suffix path) <> ".pdf" ->
          (forall pre p post,
             parsers r = (pre ++ p :: post)%list ->
             Forall (fun q => accepts q path = false) pre ->
             accepts p path = true ->
             router_parse r path mode = ([parser_name p], parse_fn p path))
          /\ (Forall (fun q => accepts q path = false) (parsers r) ->
              router_parse r path mode =
                ([parser_name (general_parser r)], parse_fn (general_parser r) path))).
Proof.
  intros r path mode; unfold router_parse; split.
  - intros Hpdf; rewrite Hpdf; simpl; split.
    + intros H.
      assert (E : (String.eqb mode "fine" || String.eqb mode "deep"
                   || String.eqb (pdf_mode r) "vision")%bool = true).
      { destruct H as [H | [H | H]]; rewrite H; simpl;
          rewrite ?Bool.orb_true_r; reflexivity. }
      rewrite E; reflexivity.
    + intros Hd Hf Hv.
      apply String.eqb_neq in Hd, Hf, Hv; rewrite Hd, Hf, Hv; simpl.
      unfold Py.truthy.
      destruct (String.eqb (Py.strip _) ""); reflexivity.
  - intros Hnp.
    assert (E : String.eqb (lower (path_suffix path)) ".pdf" = false)
      by (apply String.eqb_neq; exact Hnp).
    rewrite E; split.
    + intros pre p post Hps Hpre Hp.
      rewrite (select_parser_first _ _ _ _ _ Hps Hpre Hp); reflexivity.
    + intros Hall; rewrite (select_parser_none _ _ Hall); reflexivity.
Qed.

Lemma router_parse_dispatch_witness :
  router_parse router0 "report.pdf" "deep" = (["pdf_vision"], parse_fn pdf_vision "report.pdf")
  /\ router_parse router0 "scan.pdf" "fast"
     = (["pdf_text"; "pdf_vision"], parse_fn pdf_vision "scan.pdf")
  /\ router_parse router0 "notes.md" "fast" = (["markdown"], parse_fn markdown "notes.md")
  /\ router_parse router0 "song.mp3" "fast" = (["general"], parse_fn general "song.mp3")
  /\ router_parse router0 "docs/.pdf" "deep" = (["general"], parse_fn general "docs/.pdf").
Proof.
  split; [|split; [|split; [|split]]].
  - apply (proj1 (proj1 (router_parse_dispatch router0 "report.pdf" "deep") eq_refl)).
    left; reflexivity.
  - rewrite (proj2 (proj1 (router_parse_dispatch router0 "scan.pdf" "fast") eq_refl))
      by discriminate.
    reflexivity.
  - apply (proj1 (proj2 (router_parse_dispatch router0 "notes.md" "fast") ltac:(discriminate))
             [docx] markdown []); [reflexivity|constructor; [reflexivity|constructor]|reflexivity].
  - apply (proj2 (proj2 (router_parse_dispatch router0 "song.mp3" "fast") ltac:(discriminate))).
    repeat constructor.
  - apply (proj2 (proj2 (router_parse_dispatch router0 "docs/.pdf" "deep") ltac:(discriminate))).
    repeat constructor.
Defined.

End RouterFacts.

(* ------------------------------------------------------------------ *)
(** ** Service health checks *)

Module HealthFacts.
Import Health HealthFixtures.

Lemma cache_get_set (k : string) (v : ServiceStatus * Z) (c : Cache) :
  cache_get k (cache_set k v c) = Some v.
Proof.
  induction c as [|[k' v'] c IH]; simpl.
  - rewrite String.eqb_refl; reflexivity.
  - destruct (String.eqb_spec k k') as [->|Hne]; simpl.
    + rewrite String.eqb_refl; reflexivity.
    + apply String.eqb_neq in Hne; rewrite Hne; exact IH.
Qed.

Lemma classify_status (name : string) (r : Response) (lat : Z) :
  (ss_status (classify name r lat) = Online <->
     exists code, r = HttpResponse code /\ 200 <= code < 500)
  /\ (ss_status (classify name r lat) = Offline <->
     (exists code, r = HttpResponse code /\ ~ (200 <= code < 500))
     \/ exists e, r = TransportError e)
  /\ ss_name (classify name r lat) = name.
Proof.
  destruct r as [code|e]; simpl.
  - destruct ((200 <=? code) && (code <? 500)) eqn:E; simpl;
      apply andb_true_iff in E || apply andb_false_iff in E;
      rewrite ?Z.leb_le, ?Z.ltb_lt, ?Z.leb_gt, ?Z.ltb_ge in E.
    + repeat split; try discriminate; eauto with zarith.
      * intros [[c [[= <-] Hc]]|[? H]]; [lia|discriminate H].
    + repeat split; try discriminate.
      * intros [c [[= <-] Hc]]; lia.
      * intros _; left; exists code; split; [reflexivity|lia].
  - repeat split; try discriminate; eauto.
    intros [c [H _]]; discriminate H.
Qed.

(** Claim C8 (as stated): a repeated call within the TTL does not return
    the cached status when it passes [use_cache=False]. *)
Lemma check_service_use_cache_false_counterexample : ~ cache_clause_all_calls.
Proof.
  intros H.
  specialize (H "Embedding" "http://embed:8001" false [] (fun _ => HttpResponse 200)
                (fun _ => TransportError "connection refused") 0 5 1000 1001).
  specialize (H ltac:(discriminate) ltac:(reflexivity)).
  discriminate H.
Qed.

(** Claim C8 (amended): with no URL (None or empty) [check_service]
    reports Unknown with "URL not configured" and leaves the cache alone.
    Otherwise, with [use_cache] (the default) and an entry under
    "name:url" younger than 10 s it returns that entry; in every other case
    it probes GET <url>/health, falls back to GET <url> on a 404, reports
    Online exactly for a final status in 200..499 and Offline for any other
    status or a transport error, and stores the result under "name:url"
    stamped with the time the probe ended, so that every call with
    [use_cache] within 10 s of that time returns it. *)
Theorem check_service_contract :
  forall name url use_cache cache get now done_,
    (url_missing url = true ->
       check_service name url use_cache cache get now done_
       = (mkServiceStatus name Unknown (Some "URL not configured") None, cache))
    /\ (forall u, url = Some u -> u <> "" ->
         let key := name ++ ":" ++ u in
         (use_cache = true -> forall st t,
            cache_get key cache = Some (st, t) -> now - t < SERVICE_CACHE_TTL ->
            check_service name url use_cache cache get now done_ = (st, cache))
         /\ ((use_cache = false \/ forall st t, cache_get key cache = Some (st, t) ->
                                   SERVICE_CACHE_TTL <= now - t) ->
             let resp := match get (rstrip_slash u ++ "/health") with
                         | HttpResponse 404 => get (rstrip_slash u)
                         | r => r
                         end in
             exists res,
               check_service name url use_cache cache get now done_
               = (res, cache_set key (res, done_) cache)
               /\ ss_name res = name
               /\ (ss_status res = Online <->
                     exists code, resp = HttpResponse code /\ 200 <= code < 500)
               /\ (ss_status res = Offline <->
                     (exists code, resp = HttpResponse code /\ ~ (200 <= code < 500))
                     \/ exists e, resp = TransportError e)
               /\ forall get' now' done',
                    now' - done_ < SERVICE_CACHE_TTL ->
                    check_service name url true (cache_set key (res, done_) cache)
                                  get' now' done'
                    = (res, cache_set key (res, done_) cache))).
Proof.
  intros name url use_cache cache get now done_; split.
  - destruct url as [u|]; simpl; [|reflexivity].
    intros Hu; rewrite Hu; reflexivity.
  - intros u -> Hu key.
    assert (Hne : String.eqb u "" = false) by (apply String.eqb_neq; exact Hu).
    split.
    + intros -> st t Hc Ht; cbv beta iota zeta delta [check_service]; rewrite Hne; fold key; rewrite Hc.
      apply Z.ltb_lt in Ht; rewrite Ht; reflexivity.
    + intros Hmiss resp.
      exists (classify name (probe get u) (done_ - now)).
      assert (Hp : probe get u = resp).
      { unfold probe, resp; reflexivity. }
      destruct (classify_status name (probe get u) (done_ - now)) as [Hon [Hoff Hn]].
      rewrite Hp in Hon, Hoff.
      split; [|split; [exact Hn|split; [exact Hon|split; [exact Hoff|]]]].
      * cbv beta iota zeta delta [check_service]; rewrite Hne; fold key.
        destruct use_cache; [|reflexivity].
        destruct Hmiss as [Hf|Hold]; [discriminate Hf|].
        destruct (cache_get key cache) as [[st t]|] eqn:Hc; [|reflexivity].
        specialize (Hold st t eq_refl).
        assert (E : (now - t <? SERVICE_CACHE_TTL) = false) by (apply Z.ltb_ge; exact Hold).
        rewrite E; reflexivity.
      * intros get' now' done' Ht; cbv beta iota zeta delta [check_service]; rewrite Hne; fold key.
        rewrite cache_get_set.
        apply Z.ltb_lt in Ht; rewrite Ht; reflexivity.
Qed.

Lemma check_service_contract_witness :
  check_service "Embedding" None true cache0 (fun _ => HttpResponse 200) 5000 5001
  = (mkServiceStatus "Embedding" Unknown (Some "URL not configured") None, cache0)
  /\ check_service "Embedding" (Some embed_url) true cache0
       (fun _ => TransportError "connection refused") 5000 5001
     = (embed_online, cache0)
  /\ exists res,
       check_service "Embedding" (Some embed_url) false cache0
         (fun _ => HttpResponse 200) 5000 5003
       = (res, cache_set "Embedding:http://embed:8001" (res, 5003) cache0)
       /\ ss_status res = Online.
Proof.
  split; [|split].
  - apply (proj1 (check_service_contract "Embedding" None true cache0
                    (fun _ => HttpResponse 200) 5000 5001)).
    reflexivity.
  - apply (proj1 (proj2 (check_service_contract "Embedding" (Some embed_url) true cache0
                          (fun _ => TransportError "connection refused") 5000 5001)
                    embed_url eq_refl ltac:(discriminate)) eq_refl embed_online 1000);
      reflexivity.
  - destruct (proj2 (proj2 (check_service_contract "Embedding" (Some embed_url) false cache0
                              (fun _ => HttpResponse 200) 5000 5003)
                      embed_url eq_refl ltac:(discriminate)) (or_introl eq_refl))
      as [res [Heq [_ [Hon _]]]].
    exists res; split; [exact Heq|].
    apply Hon; exists 200; split; [reflexivity|lia].
Defined.

End HealthFacts.

(* ------------------------------------------------------------------ *)
(** ** Scope isolation in [stream_answer] *)

Module ScopeFacts.
Import Scope ScopeFixtures.

Example mentions_example :
  file_filters "What did @report.pdf say about Q3?" = ["report.pdf"].
Proof. reflexivity. Qed.

(** Both filters resolving to files: the intersection is used. *)
Example scope_both_present :
  answer_hits scope_storage "What did @report.pdf say?" (Some ["f1"]) candidates
  = [mkHit "a::0" "a"].
Proof. reflexivity. Qed.

(** Claim C1 (code_bug): a mention that resolves to no file combined with
    folder_ids that resolve to files gives the folder's files as the
    allowlist instead of the empty intersection (the [if target_file_ids:]
    test treats the empty list like "no mention"), so hits outside
    F ∩ G = {} are returned; and folder_ids that resolve to no file leave
    the search unrestricted instead of giving no results. *)
Theorem scope_isolation_failing_inputs :
  (* @missing.pdf resolves to F = [], folder f1 to G = [a; c] *)
  file_filters "@missing.pdf revenue" = ["missing.pdf"]
  /\ scope_target scope_storage "@missing.pdf revenue" (Some ["f1"]) = Some ["a"; "c"]
  /\ spec_allowlist (Some []) (Some ["a"; "c"]) = Some []
  /\ answer_hits scope_storage "@missing.pdf revenue" (Some ["f1"]) candidates
     = [mkHit "a::0" "a"; mkHit "c::0" "c"]
  (* no mention, folder f9 resolves to G = [] *)
  /\ scope_target scope_storage "revenue" (Some ["f9"]) = None
  /\ spec_allowlist None (Some []) = Some []
  /\ answer_hits scope_storage "revenue" (Some ["f9"]) candidates = candidates.
Proof. repeat split; reflexivity. Qed.

End ScopeFacts.

(* ------------------------------------------------------------------ *)
(** ** Page text assembly in [PdfDeepParser.parse] *)

Module PdfDeepFacts.
Import PdfDeep.

Definition nl : string := String (ascii_of_nat 10) EmptyString.

(** Claim C3 (code_bug): for a two-page PDF whose pages extract to "a"
    and "b", the text is built from the [enumerate] tuples and the whole
    list [page_texts], without the blank-line separator, instead of
    "--PAGE_1--\na\n\n--PAGE_2--\nb". *)
Theorem pdf_deep_text_two_pages :
  Content.text (parse [[]; []] [Some "a"; Some "b"])
  = "--PAGE_(1, 'a')--" ++ nl ++ "['a', 'b']--PAGE_(2, 'b')--" ++ nl ++ "['a', 'b']"
  /\ spec_page_text ["a"; "b"]
     = "--PAGE_1--" ++ nl ++ "a" ++ nl ++ nl ++ "--PAGE_2--" ++ nl ++ "b"
  /\ Content.text (parse [[]; []] [Some "a"; Some "b"]) <> spec_page_text ["a"; "b"].
Proof. split; [reflexivity|split; [reflexivity|]]. vm_compute. discriminate. Qed.

End PdfDeepFacts.

(* ------------------------------------------------------------------ *)
(** ** Deep round: auxiliary facts *)

Module DeepLemmas.
Import Deep.

Definition dec_digits : list ascii :=
  ["0"; "1"; "2"; "3"; "4"; "5"; "6"; "7"; "8"; "9"]%char.

Definition digit_val (c : ascii) : Z :=
  match Py.digit c with Some d => d | None => 0 end.

Lemma string_of_uint_digits (d : Decimal.uint) :
  Forall (fun c => In c dec_digits) (list_ascii_of_string (NilEmpty.string_of_uint d)).
Proof. induction d; simpl; constructor; auto; simpl; tauto. Qed.

Lemma string_of_uint_value (d : Decimal.uint) : forall acc,
  fold_left (fun acc d => acc * 10 + d)
            (map digit_val (list_ascii_of_string (NilEmpty.string_of_uint d))) (Z.of_nat acc)
  = Z.of_nat (Nat.of_uint_acc d acc).
Proof.
  induction d; intros acc; simpl; try reflexivity;
    rewrite <- IHd, Nat.tail_mul_spec; f_equal; unfold digit_val; simpl; lia.
Qed.

(** The decimal writing of [n]: non-empty, digits only, of value [n]. *)
Lemma str_nat_digits (n : nat) :
  list_ascii_of_string (Py.str_nat n) <> []
  /\ Forall (fun c => In c dec_digits) (list_ascii_of_string (Py.str_nat n))
  /\ Py.digits_value (map digit_val (list_ascii_of_string (Py.str_nat n))) = Z.of_nat n.
Proof.
  unfold Py.str_nat, NilZero.string_of_uint, Py.digits_value.
  pose proof (DecimalNat.Unsigned.of_to n) as Hn.
  destruct (Nat.to_uint n) as [|d|d|d|d|d|d|d|d|d|d] eqn:E;
    [ exfalso; simpl in Hn; subst n; vm_compute in E; discriminate E
    | .. ];
    (split; [discriminate|split; [apply string_of_uint_digits|]]);
    rewrite <- Hn; unfold Nat.of_uint;
    exact (string_of_uint_value _ 0).
Qed.

Lemma dec_digit_facts (c : ascii) :
  In c dec_digits ->
  Py.int_space c = false /\ Ascii.eqb c "+" = false /\ Ascii.eqb c "-" = false
  /\ Ascii.eqb c "_" = false /\ Py.digit c = Some (digit_val c).
Proof. intros H; repeat destruct H as [<-|H]; [..|destruct H]; repeat split. Qed.

Lemma drop_int_space_digit (l : list ascii) c :
  hd_error l = Some c -> In c dec_digits -> Py.drop_int_space l = l.
Proof.
  destruct l as [|c' l]; simpl; [discriminate|]. intros [= ->] Hc.
  rewrite (proj1 (dec_digit_facts c Hc)); reflexivity.
Qed.

Lemma digits_us_digits (l : list ascii) :
  l <> [] -> Forall (fun c => In c dec_digits) l ->
  Py.digits_us l = Some (map digit_val l).
Proof.
  induction l as [|c r IH]; intros Hne Hall; [contradiction|].
  inversion Hall as [|? ? Hc Hr]; subst.
  destruct (dec_digit_facts c Hc) as (_ & _ & _ & _ & Hd).
  cbn [Py.digits_us]; rewrite Hd.
  destruct r as [|u r']; [reflexivity|].
  inversion Hr as [|? ? Hu _]; subst.
  rewrite (proj1 (proj2 (proj2 (proj2 (dec_digit_facts u Hu))))).
  rewrite IH by (discriminate || exact Hr). reflexivity.
Qed.

Lemma last_digit (l : list ascii) :
  l <> [] -> Forall (fun c => In c dec_digits) l ->
  exists c, hd_error (rev l) = Some c /\ In c dec_digits.
Proof.
  intros Hne Hall. destruct (rev l) as [|c r] eqn:E.
  - apply (f_equal (@rev ascii)) in E; rewrite rev_involutive in E; contradiction.
  - exists c; split; [reflexivity|].
    rewrite Forall_forall in Hall; apply Hall, in_rev; rewrite E; left; reflexivity.
Qed.

Lemma int_of_str_digits (s : string) :
  list_ascii_of_string s <> [] ->
  Forall (fun c => In c dec_digits) (list_ascii_of_string s) ->
  Py.int_of_str s = Some (Py.digits_value (map digit_val (list_ascii_of_string s))).
Proof.
  unfold Py.int_of_str. generalize (list_ascii_of_string s) as l. intros l Hne Hall.
  destruct l as [|c r]; [contradiction|].
  assert (Hc : In c dec_digits) by (inversion Hall; assumption).
  rewrite (drop_int_space_digit (c :: r) c eq_refl Hc).
  destruct (last_digit (c :: r) Hne Hall) as [c' [Hc' Hin']].
  rewrite (drop_int_space_digit (rev (c :: r)) c' Hc' Hin'), rev_involutive.
  destruct (dec_digit_facts c Hc) as (_ & Hp & Hm & _).
  cbv zeta. rewrite Hp, Hm. cbn [orb]. rewrite digits_us_digits by assumption.
  f_equal; apply Z.mul_1_l.
Qed.

Lemma int_of_str_str_nat (n : nat) : Py.int_of_str (Py.str_nat n) = Some (Z.of_nat n).
Proof.
  destruct (str_nat_digits n) as (Hne & Hall & Hv).
  rewrite int_of_str_digits by assumption. rewrite Hv; reflexivity.
Qed.

Lemma int_of_str_str_int (z : Z) : Py.int_of_str (Py.str_int z) = Some z.
Proof.
  unfold Py.str_int. destruct (z <? 0) eqn:Hz.
  - apply Z.ltb_lt in Hz.
    destruct (str_nat_digits (Z.to_nat (- z))) as (Hne & Hall & Hv).
    unfold Py.int_of_str.
    change (list_ascii_of_string ("-" ++ Py.str_nat (Z.to_nat (- z))))
      with ("-"%char :: list_ascii_of_string (Py.str_nat (Z.to_nat (- z)))).
    generalize dependent (list_ascii_of_string (Py.str_nat (Z.to_nat (- z)))).
    intros l Hne Hall Hv.
    cbn [Py.drop_int_space]. change (Py.int_space "-") with false. cbv iota.
    cbn [rev]. destruct (last_digit l Hne Hall) as [c' [Hc' Hin']].
    rewrite (drop_int_space_digit (rev l ++ ["-"%char])%list c').
    2: { destruct (rev l); [discriminate|exact Hc']. }
    2: exact Hin'.
    rewrite rev_app_distr, rev_involutive. cbn [rev app]. cbv zeta.
    change (Ascii.eqb "-" "+") with false. change (Ascii.eqb "-" "-") with true.
    cbn [orb]. cbv iota.
    rewrite digits_us_digits by assumption. rewrite Hv, Z2Nat.id by lia. f_equal; lia.
  - apply Z.ltb_ge in Hz. rewrite int_of_str_str_nat, Z2Nat.id by exact Hz. reflexivity.
Qed.

Lemma str_int_inj (n m : Z) : Py.str_int n = Py.str_int m -> n = m.
Proof.
  intros H.
  assert (E : Py.int_of_str (Py.str_int n) = Py.int_of_str (Py.str_int m))
    by (rewrite H; reflexivity).
  rewrite !int_of_str_str_int in E; congruence.
Qed.

Lemma append_cancel_l (p s t : string) : p ++ s = p ++ t -> s = t.
Proof.
  induction p as [|c p IH]; simpl; [auto|].
  intros [= H]; exact (IH H).
Qed.

Lemma split_digits (d : Decimal.uint) :
  Py.split_on "_"%char (NilEmpty.string_of_uint d) = [NilEmpty.string_of_uint d].
Proof. induction d; simpl; rewrite ?IHd; reflexivity. Qed.

Lemma split_str_nat (n : nat) :
  Py.split_on "_"%char (Py.str_nat n) = [Py.str_nat n].
Proof.
  unfold Py.str_nat, NilZero.string_of_uint.
  destruct (Nat.to_uint n); try reflexivity; apply split_digits.
Qed.

Lemma page_key_num_page (n : nat) :
  page_key_num ("page_" ++ Py.str_nat n) = Some (Z.of_nat n).
Proof.
  unfold page_key_num; simpl; rewrite split_str_nat; simpl.
  apply int_of_str_str_nat.
Qed.

Lemma enumerate_fst {A} (k : nat) (xs : list A) :
  map fst (PdfDeep.enumerate k xs) = seq k (length xs).
Proof.
  revert k; induction xs as [|x xs IH]; intros k; simpl; [reflexivity|].
  f_equal; apply IH.
Qed.

Lemma startswith_page (s : string) : Py.startswith "page_" ("page_" ++ s) = true.
Proof. destruct s; reflexivity. Qed.

Lemma page_numbers_cons_page (s : string) (b : Bytes) atts :
  page_numbers (("page_" ++ s, b) :: atts) = page_key_num ("page_" ++ s) :: page_numbers atts.
Proof. unfold page_numbers; cbn [filter]; rewrite startswith_page; reflexivity. Qed.

Lemma vision_attachments_numbers_from (k : nat) (imgs : list Bytes) :
  page_numbers (map (fun '(i, b) => ("page_" ++ Py.str_nat i, b)) (PdfDeep.enumerate k imgs))
  = map (fun i => Some (Z.of_nat i)) (seq k (length imgs)).
Proof.
  revert k; induction imgs as [|b imgs IH]; intros k; [reflexivity|].
  change (PdfDeep.enumerate k (b :: imgs)) with ((k, b) :: PdfDeep.enumerate (S k) imgs).
  rewrite map_cons; cbv beta iota.
  rewrite page_numbers_cons_page, page_key_num_page, IH; reflexivity.
Qed.

Lemma vision_attachments_numbers (imgs : list Bytes) :
  page_numbers (vision_attachments imgs) = map (fun i => Some (Z.of_nat i)) (seq 1 (length imgs)).
Proof. apply vision_attachments_numbers_from. Qed.

(** The vector store's behaviour is invisible to every step before the upsert. *)
Lemma page_loop_wvs env b r i ps :
  page_loop (with_vector_store env b) r i ps = page_loop env r i ps.
Proof.
  revert i; induction ps as [|[n kv] ps IH]; intros i; [reflexivity|].
  simpl; rewrite IH; reflexivity.
Qed.

Lemma process_pdf_wvs env b r :
  process_pdf (with_vector_store env b) r = process_pdf env r.
Proof.
  unfold process_pdf; simpl.
  destruct (deep_parse env) as [atts|]; [|reflexivity].
  destruct (filter _ atts); [reflexivity|].
  destruct (keyed _) as [ks|]; [|reflexivity].
  rewrite page_loop_wvs; reflexivity.
Qed.

Lemma encode_all_wvs env b bs :
  encode_all (with_vector_store env b) bs = encode_all env bs.
Proof. induction bs as [|x bs IH]; simpl; rewrite ?IH; reflexivity. Qed.

Lemma embed_chunks_wvs env b cs :
  embed_chunks (with_vector_store env b) cs = embed_chunks env cs.
Proof. unfold embed_chunks; simpl; rewrite encode_all_wvs; reflexivity. Qed.

Lemma vector_upsert_files st docs : files (vector_upsert st docs) = files st.
Proof. reflexivity. Qed.

Lemma vector_upsert_chunks st docs : chunks (vector_upsert st docs) = chunks st.
Proof. reflexivity. Qed.

(** Running the body with a raising vector store gives the stores of the
    run with a working one, except for the vectors, which stay as they were. *)
Lemma process_body_wvs env st fid r :
  let '(res0, st0) := process_body (with_vector_store env false) st fid r in
  let '(res1, st1) := process_body (with_vector_store env true) st fid r in
  res0 = res1 /\ files st0 = files st1 /\ chunks st0 = chunks st1
  /\ vectors st0 = vectors st.
Proof.
  unfold process_body.
  rewrite !process_pdf_wvs.
  change (process_image (with_vector_store env false) r) with (process_image env r).
  change (process_image (with_vector_store env true) r) with (process_image env r).
  change (process_presentation (with_vector_store env false) r)
    with (process_presentation env r).
  change (process_presentation (with_vector_store env true) r)
    with (process_presentation env r).
  destruct (if String.eqb (kind r) "image" then _ else _) as [[t cs0]|];
    [|repeat split].
  destruct (_ && _)%bool; [repeat split|].
  destruct (map set_deep _) as [|c cs] eqn:Hcs; [repeat split|].
  rewrite !embed_chunks_wvs.
  destruct (embed_chunks env (c :: cs)) as [vs|]; [|repeat split].
  destruct (map (make_doc r) _); repeat split.
Qed.

(** *** Well-formedness of the deep chunk sets *)

Lemma nodupb_spec {A} (eqb : A -> A -> bool)
  (Heq : forall x y, eqb x y = true <-> x = y) (l : list A) :
  nodupb eqb l = true <-> NoDup l.
Proof.
  induction l as [|x l IH]; simpl.
  - split; [constructor|reflexivity].
  - rewrite andb_true_iff, negb_true_iff, IH. split.
    + intros [Hx Hl]; constructor; [|exact Hl].
      intros Hin. assert (existsb (eqb x) l = true) as Hc
        by (apply existsb_exists; exists x; split; [exact Hin|apply Heq; reflexivity]).
      congruence.
    + intros Hnd; inversion Hnd as [|? ? Hx Hl]; subst; split; [|exact Hl].
      apply not_true_iff_false; intros Hc.
      apply existsb_exists in Hc; destruct Hc as [y [Hy Hxy]].
      apply Heq in Hxy; subst; contradiction.
Qed.

Lemma opt_Z_eqb_spec (a b : option Z) : opt_Z_eqb a b = true <-> a = b.
Proof.
  destruct a as [x|], b as [y|]; simpl; rewrite ?Z.eqb_eq;
    split; congruence.
Qed.

Lemma deep_chunks_ok_iff (cs : list ChunkSnapshot) :
  deep_chunks_ok cs = true
  <-> NoDup (map chunk_id cs) /\ NoDup (map ordinal cs)
      /\ Forall (fun c => ordinal_ok c = true) cs.
Proof.
  unfold deep_chunks_ok. rewrite !andb_true_iff, forallb_forall, Forall_forall.
  rewrite (nodupb_spec String.eqb String.eqb_eq), (nodupb_spec Z.eqb Z.eqb_eq).
  tauto.
Qed.

Lemma pages_ok_spec (atts : list (string * Bytes)) :
  pages_ok atts = true ->
  NoDup (page_numbers atts) /\ (forall n, In (Some n) (page_numbers atts) -> 0 < n).
Proof.
  unfold pages_ok. rewrite andb_true_iff, (nodupb_spec _ opt_Z_eqb_spec), forallb_forall.
  intros [Hnd Hp]; split; [exact Hnd|].
  intros n Hin. specialize (Hp _ Hin); simpl in Hp. apply Z.ltb_lt, Hp.
Qed.

(** Injectivity of [g] on [l] relative to [f] carries distinctness over. *)
Lemma NoDup_map_rel {A B C} (f : A -> B) (g : A -> C) (l : list A) :
  NoDup (map f l) ->
  (forall x y, In x l -> In y l -> g x = g y -> f x = f y) ->
  NoDup (map g l).
Proof.
  induction l as [|x l IH]; simpl; intros Hnd Hinj; [constructor|].
  inversion Hnd as [|? ? Hx Hl]; subst. constructor.
  - intros Hin. apply in_map_iff in Hin. destruct Hin as [y [Hy Hyl]].
    apply Hx. rewrite (Hinj x y (or_introl eq_refl) (or_intror Hyl) (eq_sym Hy)).
    apply in_map; exact Hyl.
  - apply IH; [exact Hl|]. intros a b Ha Hb; apply Hinj; right; assumption.
Qed.

Lemma insert_by_key_perm {A} (x : Z * A) (l : list (Z * A)) :
  Permutation (insert_by_key x l) (x :: l).
Proof.
  induction l as [|y l IH]; simpl; [reflexivity|].
  destruct (fst x <? fst y); [reflexivity|].
  rewrite IH. apply perm_swap.
Qed.

Lemma sort_by_key_perm {A} (l : list (Z * A)) : Permutation (sort_by_key l) l.
Proof.
  induction l as [|x l IH]; simpl; [reflexivity|].
  rewrite insert_by_key_perm, IH; reflexivity.
Qed.

Lemma keyed_fst {A} (items : list (string * A)) ks :
  keyed items = Some ks ->
  map (fun p => Some (fst p)) ks = map (fun '(k, _) => page_key_num k) items.
Proof.
  revert ks; induction items as [|[k v] items IH]; simpl; intros ks H.
  - injection H as <-; reflexivity.
  - destruct (page_key_num k) as [n|]; [|discriminate].
    destruct (keyed items) as [kr|]; [|discriminate].
    injection H as <-; simpl; rewrite (IH kr eq_refl); reflexivity.
Qed.

Lemma page_chunk_id_inj env r n m t t' :
  chunk_id (page_chunk env r n t) = chunk_id (page_chunk env r m t') -> n = m.
Proof.
  simpl; intros H.
  apply append_cancel_l in H; apply (append_cancel_l "::deep::page_") in H.
  apply str_int_inj; exact H.
Qed.

(** The chunks of the page loop are page chunks of the loop's pages, one
    page number each. *)
Lemma page_loop_chunks env r i ps :
  Forall (fun c => exists n t, In n (map fst ps) /\ c = page_chunk env r n t)
         (snd (page_loop env r i ps))
  /\ (NoDup (map fst ps) -> NoDup (map page_number (snd (page_loop env r i ps)))).
Proof.
  revert i; induction ps as [|[n kv] ps IH]; intros i; simpl.
  - split; [constructor|intros _; constructor].
  - destruct (IH (S i)) as [Hall Hnd].
    destruct (page_loop env r (S i) ps) as [res cs]; simpl in *.
    assert (Hall' : Forall (fun c => exists m t, (n = m \/ In m (map fst ps))
                                              /\ c = page_chunk env r m t) cs).
    { eapply Forall_impl; [|exact Hall].
      intros c [m [t [Hm Hc]]]; exists m, t; split; [right|]; assumption. }
    destruct (vlm env i) as [|out]; [split; [exact Hall'|intros H; inversion H; auto]|].
    destruct (Py.truthy (clean_result out)); simpl;
      [|split; [exact Hall'|intros H; inversion H; auto]].
    split.
    + constructor; [exists n, (clean_result out); split; [left|]; reflexivity|exact Hall'].
    + intros H; inversion H as [|? ? Hn Hps]; subst. constructor; [|auto].
      simpl. intros Hin. apply in_map_iff in Hin. destruct Hin as [c [Hc Hcs]].
      rewrite Forall_forall in Hall. destruct (Hall c Hcs) as [m [t [Hm ->]]].
      simpl in Hc. injection Hc as ->. contradiction.
Qed.

Lemma page_chunks_ok env r i ps :
  NoDup (map fst ps) -> (forall n, In n (map fst ps) -> 0 < n) ->
  deep_chunks_ok (snd (page_loop env r i ps)) = true.
Proof.
  intros Hnd H0. destruct (page_loop_chunks env r i ps) as [Hall Hpn].
  specialize (Hpn Hnd). rewrite Forall_forall in Hall.
  apply deep_chunks_ok_iff; split; [|split].
  - apply (NoDup_map_rel page_number); [exact Hpn|].
    intros x y Hx Hy Hxy.
    destruct (Hall x Hx) as [n [t [_ ->]]], (Hall y Hy) as [m [t' [_ ->]]].
    apply page_chunk_id_inj in Hxy; subst; reflexivity.
  - apply (NoDup_map_rel page_number); [exact Hpn|].
    intros x y Hx Hy Hxy.
    destruct (Hall x Hx) as [n [t [_ ->]]], (Hall y Hy) as [m [t' [_ ->]]].
    simpl in *. f_equal. lia.
  - apply Forall_forall. intros c Hc.
    destruct (Hall c Hc) as [n [t [Hn ->]]].
    specialize (H0 n Hn).
    unfold ordinal_ok; simpl. rewrite Z.eqb_refl, andb_true_r. apply Z.leb_le; lia.
Qed.

Lemma process_pdf_chunks_ok env r t cs :
  (forall atts, deep_parse env = Some atts -> pages_ok atts = true) ->
  process_pdf env r = Ok (t, cs) -> deep_chunks_ok cs = true.
Proof.
  intros Hp. unfold process_pdf.
  destruct (deep_parse env) as [atts|] eqn:Ep; [|intros [= _ <-]; reflexivity].
  destruct (pages_ok_spec atts (Hp atts eq_refl)) as [Hnd H0].
  destruct (filter _ atts) as [|a l] eqn:Ef; [intros [= _ <-]; reflexivity|].
  destruct (keyed (a :: l)) as [ks|] eqn:Ek; [|discriminate].
  pose proof (keyed_fst _ _ Ek) as Hks. rewrite <- Ef in Hks.
  change (map _ (filter _ atts)) with (page_numbers atts) in Hks.
  rewrite <- Hks, <- (map_map fst Some) in Hnd, H0.
  apply NoDup_map_inv in Hnd.
  assert (H0' : forall n, In n (map fst ks) -> 0 < n)
    by (intros n Hin; apply H0, in_map_iff; exists n; split; [reflexivity|exact Hin]).
  pose proof (Permutation_map fst (sort_by_key_perm ks)) as Hperm.
  destruct (page_loop env r 0 (sort_by_key ks)) as [res cs'] eqn:El.
  intros [= _ <-].
  change cs' with (snd (res, cs')); rewrite <- El.
  apply page_chunks_ok.
  - eapply Permutation_NoDup; [symmetry; exact Hperm|exact Hnd].
  - intros n Hin; apply H0'. eapply Permutation_in; [exact Hperm|exact Hin].
Qed.

Lemma build_deep_chunks_ok env r t : deep_chunks_ok (build_deep_chunks env r t) = true.
Proof. unfold build_deep_chunks; destruct (negb _); reflexivity. Qed.

Lemma deep_chunks_ok_set_deep cs :
  deep_chunks_ok (map set_deep cs) = deep_chunks_ok cs.
Proof.
  unfold deep_chunks_ok. rewrite !map_map. f_equal.
  induction cs as [|c cs IH]; simpl; [reflexivity|]. rewrite IH; reflexivity.
Qed.

Lemma process_body_chunks_ok env st fid r :
  (forall atts, deep_parse env = Some atts -> pages_ok atts = true) ->
  (forall f, deep_chunks_ok (chunks st f "deep") = true) ->
  forall f, deep_chunks_ok (chunks (snd (process_body env st fid r)) f "deep") = true.
Proof.
  intros Hp Hst f. unfold process_body.
  destruct (if String.eqb (kind r) "image" then _ else _) as [[t cs0]|] eqn:Ex;
    [|exact (Hst f)].
  assert (Hcs0 : deep_chunks_ok cs0 = true).
  { destruct (String.eqb (kind r) "image"); [injection Ex as _ <-; reflexivity|].
    destruct (_ && _)%bool; [exact (process_pdf_chunks_ok env r t cs0 Hp Ex)|].
    destruct (String.eqb (kind r) "presentation"); injection Ex as _ <-; reflexivity. }
  destruct (negb (text_truthy t) && _)%bool; [exact (Hst f)|].
  assert (Hdc : forall dcs, deep_chunks_ok dcs = true ->
             deep_chunks_ok (chunks (replace_chunks st fid dcs "deep") f "deep") = true).
  { intros dcs Hd. simpl. destruct (String.eqb f fid); simpl; [exact Hd|exact (Hst f)]. }
  assert (H1 : deep_chunks_ok
                 (map set_deep (match t, cs0 with
                                | Some t', [] => if Py.truthy t' then build_deep_chunks env r t' else []
                                | _, _ => cs0 end)) = true).
  { rewrite deep_chunks_ok_set_deep.
    destruct t as [t'|], cs0; try exact Hcs0.
    destruct (Py.truthy t'); [apply build_deep_chunks_ok|reflexivity]. }
  destruct (map set_deep _) as [|c cs] eqn:Hm; [exact (Hdc _ H1)|].
  destruct (embed_chunks env (c :: cs)) as [vs|]; [|exact (Hdc _ H1)].
  destruct (map (make_doc r) _); [exact (Hdc _ H1)|].
  destruct (vector_store_ok env); exact (Hdc _ H1).
Qed.

(** *** A PDF whose VLM fails on one page *)

Lemma vision_attachments_from_filter (k : nat) (imgs : list Bytes) :
  filter (fun '(key, _) => Py.startswith "page_" key)
         (map (fun '(i, b) => ("page_" ++ Py.str_nat i, b)) (PdfDeep.enumerate k imgs))
  = map (fun '(i, b) => ("page_" ++ Py.str_nat i, b)) (PdfDeep.enumerate k imgs).
Proof.
  revert k; induction imgs as [|b imgs IH]; intros k; [reflexivity|].
  change (PdfDeep.enumerate k (b :: imgs)) with ((k, b) :: PdfDeep.enumerate (S k) imgs).
  rewrite map_cons; cbv beta iota. cbn [filter].
  rewrite startswith_page, IH; reflexivity.
Qed.

Lemma keyed_vision_attachments_from (k : nat) (imgs : list Bytes) :
  keyed (map (fun '(i, b) => ("page_" ++ Py.str_nat i, b)) (PdfDeep.enumerate k imgs))
  = Some (numbered_pages k imgs).
Proof.
  unfold numbered_pages.
  revert k; induction imgs as [|b imgs IH]; intros k; [reflexivity|].
  change (PdfDeep.enumerate k (b :: imgs)) with ((k, b) :: PdfDeep.enumerate (S k) imgs).
  rewrite !map_cons; cbv beta iota. cbn [keyed].
  rewrite page_key_num_page, IH; reflexivity.
Qed.

Lemma sort_numbered_pages (k : nat) (imgs : list Bytes) :
  sort_by_key (numbered_pages k imgs) = numbered_pages k imgs.
Proof.
  unfold numbered_pages.
  revert k; induction imgs as [|b imgs IH]; intros k; [reflexivity|].
  change (PdfDeep.enumerate k (b :: imgs)) with ((k, b) :: PdfDeep.enumerate (S k) imgs).
  rewrite map_cons; cbv beta iota. cbn [sort_by_key]. rewrite IH.
  destruct imgs as [|b' imgs]; [reflexivity|].
  change (PdfDeep.enumerate (S k) (b' :: imgs))
    with ((S k, b') :: PdfDeep.enumerate (S (S k)) imgs).
  rewrite map_cons; cbv beta iota. cbn [insert_by_key fst].
  rewrite (proj2 (Z.ltb_lt (Z.of_nat k) (Z.of_nat (S k)))) by lia; reflexivity.
Qed.

(** The page loop over pages [S i ..]: a page whose call raises is skipped,
    every other page gives its description and its chunk. *)
Lemma page_loop_one_failure env r (outs : nat -> option string) (N : nat) :
  forall imgs i,
  (S i <= N <= i + length imgs -> vlm env (N - 1) = VlmRaise)%nat ->
  (forall n, S i <= n <= i + length imgs -> n <> N ->
     vlm env (n - 1) = VlmReturn (outs n) /\ Py.truthy (clean_result (outs n)) = true)%nat ->
  page_loop env r i (numbered_pages (S i) imgs)
  = (map (fun n => clean_result (outs n))
         (filter (fun n => negb (Nat.eqb n N)) (seq (S i) (length imgs))),
     map (fun n => page_chunk env r (Z.of_nat n) (clean_result (outs n)))
         (filter (fun n => negb (Nat.eqb n N)) (seq (S i) (length imgs)))).
Proof.
  unfold numbered_pages.
  induction imgs as [|b imgs IH]; intros i Hfail Hok; [reflexivity|].
  change (PdfDeep.enumerate (S i) (b :: imgs))
    with ((S i, b) :: PdfDeep.enumerate (S (S i)) imgs).
  rewrite map_cons; cbv beta iota. cbn [page_loop length seq filter].
  rewrite IH.
  2: { intros H; apply Hfail; simpl; lia. }
  2: { intros n Hn Hne; apply Hok; simpl; [lia|exact Hne]. }
  destruct (Nat.eqb (S i) N) eqn:E; simpl negb; cbv iota.
  - apply Nat.eqb_eq in E.
    replace i with (N - 1)%nat at 1 by lia.
    rewrite Hfail by (simpl; lia). reflexivity.
  - apply Nat.eqb_neq in E.
    destruct (Hok (S i) ltac:(simpl; lia) E) as [Hv Ht].
    replace (S i - 1)%nat with i in Hv by lia.
    rewrite Hv, Ht. reflexivity.
Qed.

Lemma encode_all_some env bs :
  (forall b, exists v, encode env b = Some v) -> exists vs, encode_all env bs = Some vs.
Proof.
  intros He; induction bs as [|b bs [vs IH]]; simpl; [eauto|].
  destruct (He b) as [v Hv]; rewrite Hv, IH; eauto.
Qed.

Lemma embed_chunks_some env cs :
  (forall b, exists v, encode env b = Some v) -> exists vs, embed_chunks env cs = Some vs.
Proof.
  intros He; unfold embed_chunks.
  destruct (map _ (filter _ cs)); [eauto|apply encode_all_some, He].
Qed.

Lemma map_set_deep_page_chunks env r (f : nat -> string) (ns : list nat) :
  map set_deep (map (fun n => page_chunk env r (Z.of_nat n) (f n)) ns)
  = map (fun n => page_chunk env r (Z.of_nat n) (f n)) ns.
Proof. rewrite map_map; reflexivity. Qed.

Lemma skip_one_nonempty (N K : nat) :
  (2 <= K)%nat -> filter (fun n => negb (Nat.eqb n N)) (seq 1 K) <> [].
Proof.
  intros HK. destruct K as [|[|K]]; [lia|lia|].
  change (seq 1 (S (S K))) with (1 :: 2 :: seq 3 K)%nat. cbn [filter].
  destruct (Nat.eqb 1 N) eqn:E1; cbn [negb]; [|discriminate].
  apply Nat.eqb_eq in E1; subst. cbn [negb Nat.eqb]. discriminate.
Qed.

Lemma set_deep_page_chunk env r n t : set_deep (page_chunk env r n t) = page_chunk env r n t.
Proof. reflexivity. Qed.

(** *** The chunks of the other versions *)

Lemma process_other_versions env st fid f v :
  v <> "deep" -> chunks (snd (process env st fid)) f v = chunks st f v.
Proof.
  intros Hv.
  assert (Hb : forall r, chunks (snd (process_body env st fid r)) f v = chunks st f v).
  { intros r. unfold process_body.
    destruct (if String.eqb (kind r) "image" then _ else _) as [[t cs0]|]; [|reflexivity].
    destruct (_ && _)%bool; [reflexivity|].
    assert (Hr : forall cs, chunks (replace_chunks st fid cs "deep") f v = chunks st f v).
    { intros cs; cbn [replace_chunks chunks].
      apply String.eqb_neq in Hv; rewrite Hv, andb_false_r; reflexivity. }
    destruct (map set_deep _) as [|c cs]; [apply Hr|].
    destruct (embed_chunks env (c :: cs)); [|apply Hr].
    destruct (map (make_doc r) _); [|destruct (vector_store_ok env)]; apply Hr. }
  unfold process.
  destruct (files st fid) as [r|]; [|reflexivity].
  destruct (fast_stage r <? 2); [reflexivity|].
  destruct (2 <=? deep_stage r); [reflexivity|].
  destruct (deep_stage r =? -2); [reflexivity|].
  destruct (negb (should_process_deep r)); [reflexivity|].
  destruct (negb (path_exists r)); [reflexivity|].
  pose proof (Hb r) as H.
  destruct (process_body env st fid r) as [[] st']; exact H.
Qed.

(** [int] as Python applies it to the page keys: a sign and surrounding
    whitespace are accepted, and the split at "_" keeps only the first
    group of digits. *)
Example page_key_num_python_int :
  map page_key_num ["page_-1"; "page_+2"; "page_ 3"; "page_1_000"; "page_x"; "page_"; "page"]
  = [Some (-1); Some 2; Some 3; Some 1; None; None; None].
Proof. vm_compute. reflexivity. Qed.

End DeepLemmas.

(* ------------------------------------------------------------------ *)
(** ** Deep round *)

Module DeepFacts.
Import Deep DeepFixtures DeepLemmas.

(** A 3-page PDF whose vector store raises: the run succeeds, the file is
    finished (deep_stage 2, deep_embed_at set) and the page chunks stay
    stored, while no vector is written. *)
Example pdf_run_with_failing_vector_store :
  let '(ok, st') := process (env_with vlm_ok true false) store0 "f1" in
  ok = true
  /\ option_map deep_stage (files st' "f1") = Some 2
  /\ option_map deep_embed_at (files st' "f1") = Some (Some 100)
  /\ map chunk_id (chunks st' "f1" "deep")
     = ["f1::deep::page_1"; "f1::deep::page_2"; "f1::deep::page_3"]
  /\ vectors st' = [].
Proof. vm_compute. repeat split. Qed.

(** Claim C10: an exception from the vector store's [upsert] or [flush] is
    caught and only logged.  For every file and every behaviour of the
    other services, the run with a raising vector store returns the same
    success flag and leaves the same file records (deep_stage, deep_text_at,
    deep_embed_at, metadata) and the same chunks as the run with a working
    one; only the vectors differ, which stay as they were. *)
Theorem vector_store_failure_only_logged (env : Env) (st : Store) (fid : string) :
  let '(ok0, st0) := process (with_vector_store env false) st fid in
  let '(ok1, st1) := process (with_vector_store env true) st fid in
  ok0 = ok1 /\ (forall k, files st0 k = files st1 k)
  /\ (forall f v, chunks st0 f v = chunks st1 f v) /\ vectors st0 = vectors st.
Proof.
  unfold process.
  destruct (files st fid) as [r|]; [|repeat split].
  destruct (fast_stage r <? 2); [repeat split|].
  destruct (2 <=? deep_stage r); [repeat split|].
  destruct (deep_stage r =? -2); [repeat split|].
  destruct (negb (should_process_deep r)); [repeat split|].
  destruct (negb (path_exists r)); [repeat split|].
  pose proof (process_body_wvs env st fid r) as H.
  destruct (process_body (with_vector_store env false) st fid r) as [res0 st0].
  destruct (process_body (with_vector_store env true) st fid r) as [res1 st1].
  destruct H as (-> & Hf & Hc & Hv).
  destruct res1; (repeat split); intros; unfold update_file_stage; cbn [files chunks vectors];
    rewrite ?Hf, ?Hc; auto.
Qed.

(** Claim C6 (code_bug): the no-content branch sets deep_stage 2 without
    calling [replace_chunks], so deep chunks stored by an earlier run stay
    live.  An image whose first deep run stored its chunk and then failed
    while embedding (deep_stage -1) is retried while the VLM raises: the
    retry reports success and deep_stage 2, with the old chunk still stored
    for version "deep". *)
Theorem deep_no_content_keeps_stale_chunks :
  let '(ok1, st1) := process (env_with vlm_ok false true) store0 "img1" in
  let '(ok2, st2) := process (env_with vlm_down true true) st1 "img1" in
  ok1 = false
  /\ option_map deep_stage (files st1 "img1") = Some (-1)
  /\ process_image (env_with vlm_down true true) image_record = None
  /\ ok2 = true
  /\ option_map deep_stage (files st2 "img1") = Some 2
  /\ option_map deep_text_at (files st2 "img1") = Some (Some 100)
  /\ option_map deep_embed_at (files st2 "img1") = Some (Some 100)
  /\ map chunk_id (chunks st2 "img1" "deep") = ["img1::deep::full"].
Proof. vm_compute. repeat split. Qed.

(** Claim C2 (as stated): a 3-page PDF whose VLM call raises on page 2
    completes successfully with two deep chunks of ordinals 0 and 2: the
    ordinal 1 is below n = 2 but missing, so they do not form 0..n-1. *)
Lemma deep_ordinals_not_dense_counterexample :
  let '(ok, st') := process (env_with vlm_fails_on_page_2 true true) store0 "f1" in
  ok = true
  /\ map ordinal (chunks st' "f1" "deep") = [0; 2]
  /\ 1 < Z.of_nat (length (chunks st' "f1" "deep"))
  /\ ~ In 1 (map ordinal (chunks st' "f1" "deep")).
Proof.
  vm_compute. split; [reflexivity|split; [reflexivity|split; [reflexivity|]]].
  intros [H|[H|[]]]; discriminate H.
Qed.

(** Claim C2 (amended): a deep run never changes the chunks stored for a
    version other than "deep" (so the fast chunks keep what the fast round
    gave them).  If the chunks stored for version "deep" have
    pairwise-distinct chunk ids, pairwise-distinct non-negative ordinals,
    ordinal [page_number - 1] for page chunks and 0 for the whole-document
    chunk, a deep run keeps all of this, provided the parser's page keys
    carry distinct positive page numbers.  The ordinals need not be dense:
    a skipped page leaves a gap. *)
Theorem deep_chunk_sets_wellformed (env : Env) (st : Store) (fid : string) :
  (forall atts, deep_parse env = Some atts -> pages_ok atts = true) ->
  (forall f, deep_chunks_ok (chunks st f "deep") = true) ->
  (forall f v, v <> "deep" -> chunks (snd (process env st fid)) f v = chunks st f v)
  /\ forall f, deep_chunks_ok (chunks (snd (process env st fid)) f "deep") = true.
Proof.
  intros Hp Hst. split; [intros f v; apply process_other_versions|].
  intros f. unfold process.
  destruct (files st fid) as [r|]; [|exact (Hst f)].
  destruct (fast_stage r <? 2); [exact (Hst f)|].
  destruct (2 <=? deep_stage r); [exact (Hst f)|].
  destruct (deep_stage r =? -2); [exact (Hst f)|].
  destruct (negb (should_process_deep r)); [exact (Hst f)|].
  destruct (negb (path_exists r)); [exact (Hst f)|].
  pose proof (process_body_chunks_ok env st fid r Hp Hst f) as H.
  destruct (process_body env st fid r) as [[] st']; exact H.
Qed.

Lemma deep_chunk_sets_wellformed_witness :
  (forall atts, deep_parse (env_with vlm_fails_on_page_2 true true) = Some atts ->
                pages_ok atts = true)
  /\ (forall f, deep_chunks_ok (chunks store0 f "deep") = true)
  /\ (forall f v, v <> "deep" ->
        chunks (snd (process (env_with vlm_fails_on_page_2 true true) store0 "f1")) f v
        = chunks store0 f v)
  /\ (forall f, deep_chunks_ok
                  (chunks (snd (process (env_with vlm_fails_on_page_2 true true)
                                        store0 "f1")) f "deep") = true).
Proof.
  assert (Hp : forall atts, deep_parse (env_with vlm_fails_on_page_2 true true) = Some atts ->
                            pages_ok atts = true)
    by (intros atts H; injection H as <-; vm_compute; reflexivity).
  assert (Hst : forall f, deep_chunks_ok (chunks store0 f "deep") = true)
    by (intros f; reflexivity).
  split; [exact Hp|split; [exact Hst|]].
  exact (deep_chunk_sets_wellformed _ _ "f1" Hp Hst).
Defined.

(** Claim C4: for a K-page PDF that is eligible for the deep round and
    whose attachments are the parser's [page_1 .. page_K] images, if the VLM
    call of page N raises and the call of every other page returns a
    description that is non-empty after cleaning (and the embedding
    service answers), [process] returns success and sets deep_stage 2 and
    deep_embed_at; for K >= 2 the deep chunks stored are exactly the page
    chunks of pages 1..K except N, in page order; for K = 1 the run stores
    no chunk (the no-content branch). *)
Theorem pdf_vlm_failure_on_one_page (env : Env) (st : Store) (r : FileRecord)
    (imgs : list Bytes) (N : nat) (outs : nat -> option string) :
  files st (id r) = Some r ->
  kind r = "document" -> extension r = "pdf" -> should_process_deep r = true ->
  2 <= fast_stage r -> deep_stage r < 2 -> deep_stage r <> -2 ->
  path_exists r = true ->
  deep_parse env = Some (vision_attachments imgs) ->
  (1 <= N <= length imgs)%nat ->
  vlm env (N - 1) = VlmRaise ->
  (forall n, 1 <= n <= length imgs -> n <> N ->
     vlm env (n - 1) = VlmReturn (outs n) /\ Py.truthy (clean_result (outs n)) = true)%nat ->
  (forall b, exists v, encode env b = Some v) ->
  let '(ok, st') := process env st (id r) in
  ok = true
  /\ option_map deep_stage (files st' (id r)) = Some 2
  /\ option_map deep_embed_at (files st' (id r)) = Some (Some (now env))
  /\ (length imgs = 1%nat -> chunks st' (id r) "deep" = chunks st (id r) "deep")
  /\ ((2 <= length imgs)%nat ->
      chunks st' (id r) "deep"
      = map (fun n => page_chunk env r (Z.of_nat n) (clean_result (outs n)))
            (filter (fun n => negb (Nat.eqb n N)) (seq 1 (length imgs)))).
Proof.
  intros Hfile Hkind Hext Helig Hfast Hdeep Hskip Hpath Hparse HN Hfail Hok Henc.
  assert (Hpdf : process_pdf env r
    = Ok (match map (fun n => clean_result (outs n))
                    (filter (fun n => negb (Nat.eqb n N)) (seq 1 (length imgs))) with
          | [] => None
          | res => Some (Py.join two_newlines res)
          end,
          map (fun n => page_chunk env r (Z.of_nat n) (clean_result (outs n)))
              (filter (fun n => negb (Nat.eqb n N)) (seq 1 (length imgs))))).
  { unfold process_pdf. rewrite Hparse. unfold vision_attachments.
    rewrite vision_attachments_from_filter, keyed_vision_attachments_from.
    rewrite sort_numbered_pages, (page_loop_one_failure env r outs N imgs 0%nat);
      [| intros _; exact Hfail | intros n Hn; apply Hok; lia].
    destruct imgs as [|b imgs']; [simpl in HN; lia|].
    cbn [PdfDeep.enumerate map].
    destruct (map (fun n => clean_result (outs n)) _); reflexivity.
  }
  unfold process, process_body. rewrite Hfile.
  rewrite (proj2 (Z.ltb_ge _ _) Hfast), (proj2 (Z.leb_gt _ _) Hdeep),
    (proj2 (Z.eqb_neq _ _) Hskip), Helig, Hpath, Hkind, Hext, Hpdf.
  change (negb true) with false. change (negb false) with true.
  change ("document" =? "image")%string with false.
  change ("document" =? "document")%string with true.
  change ("pdf" =? "pdf")%string with true.
  change (true && true)%bool with true. cbv beta iota zeta.
  destruct (filter (fun n => negb (Nat.eqb n N)) (seq 1 (length imgs))) as [|p P'] eqn:EP.
  - simpl. rewrite String.eqb_refl, Hfile. simpl.
    split; [reflexivity|split; [reflexivity|split; [reflexivity|split; [reflexivity|]]]].
    intros H2; exfalso; exact (skip_one_nonempty N (length imgs) H2 EP).
  - cbn [map]. rewrite andb_false_r. cbv beta iota zeta.
    rewrite set_deep_page_chunk, map_set_deep_page_chunks.
    match goal with |- context [embed_chunks env ?cs] =>
      destruct (embed_chunks_some env cs Henc) as [vs Hvs]; rewrite Hvs end.
    assert (H1 : length imgs <> 1%nat).
    { intros H1; rewrite H1 in EP, HN. replace N with 1%nat in EP by lia. discriminate EP. }
    destruct (map (make_doc r) _); [|destruct (vector_store_ok env)];
      cbn [upsert_file replace_chunks vector_upsert files chunks finished_record id
           option_map deep_stage deep_embed_at];
      rewrite String.eqb_refl; cbn [andb];
      (split; [reflexivity|split; [reflexivity|split; [reflexivity|split]]]);
      intros; solve [exfalso; auto | reflexivity].
Qed.

Lemma pdf_vlm_failure_on_one_page_witness :
  let '(ok, st') := process (env_with vlm_fails_on_page_2 true true) store0 (id pdf_record) in
  ok = true
  /\ option_map deep_stage (files st' (id pdf_record)) = Some 2
  /\ option_map deep_embed_at (files st' (id pdf_record)) = Some (Some 100)
  /\ (length three_pages = 1%nat ->
      chunks st' (id pdf_record) "deep" = chunks store0 (id pdf_record) "deep")
  /\ ((2 <= length three_pages)%nat ->
      chunks st' (id pdf_record) "deep"
      = map (fun n => page_chunk (env_with vlm_fails_on_page_2 true true) pdf_record (Z.of_nat n)
                        (clean_result (Some ("Page " ++ Py.str_nat n ++ " shows a chart."))))
            (filter (fun n => negb (Nat.eqb n 2)) (seq 1 (length three_pages)))).
Proof.
  apply (pdf_vlm_failure_on_one_page (env_with vlm_fails_on_page_2 true true) store0
           pdf_record three_pages 2
           (fun n => Some ("Page " ++ Py.str_nat n ++ " shows a chart.")));
    try reflexivity; try (cbn; lia); try (cbn; discriminate).
  - intros n Hn Hne. destruct n as [|[|[|[|n]]]]; cbn in Hn; try lia;
      split; reflexivity.
  - intros b; eexists; reflexivity.
Defined.

End DeepFacts.

(* ------------------------------------------------------------------ *)
(** ** More of the deep round: helper lemmas *)

Module DeepRoundLemmas.
Import Deep DeepFrame.

Lemma process_body_ok_file env st fid r u st' :
  files st fid = Some r -> id r = fid ->
  process_body env st fid r = (Ok u, st') ->
  exists r', files st' fid = Some r' /\ fast_stage r' = fast_stage r /\ deep_stage r' = 2.
Proof.
  intros Hf Hid. unfold process_body.
  destruct (if String.eqb (kind r) "image" then _ else _) as [[t cs0]|]; [|intros [=]].
  destruct (_ && _)%bool.
  - intros [= _ <-]. unfold update_file_stage; cbn [files].
    rewrite String.eqb_refl, Hf. eexists; split; [reflexivity|split; reflexivity].
  - destruct (map set_deep _) as [|c cs].
    + intros [= _ <-]. unfold upsert_file; cbn [files finished_record id].
      rewrite Hid, String.eqb_refl. eexists; split; [reflexivity|split; reflexivity].
    + destruct (embed_chunks env (c :: cs)); [|intros [=]].
      intros [= _ <-]. unfold upsert_file; cbn [files finished_record id].
      rewrite Hid, String.eqb_refl. eexists; split; [reflexivity|split; reflexivity].
Qed.

Lemma process_body_raise_files env st fid r st' :
  process_body env st fid r = (Raise, st') -> files st' = files st.
Proof.
  unfold process_body.
  destruct (if String.eqb (kind r) "image" then _ else _) as [[t cs0]|];
    [|intros [= <-]; reflexivity].
  destruct (_ && _)%bool; [intros [=]|].
  destruct (map set_deep _) as [|c cs]; [intros [=]|].
  destruct (embed_chunks env (c :: cs)); [intros [=]|].
  intros [= <-]; reflexivity.
Qed.

Lemma update_file_stage_at st fid ds ta ea r :
  files st fid = Some r ->
  exists r', files (update_file_stage st fid ds ta ea) fid = Some r'
             /\ deep_stage r' = ds /\ fast_stage r' = fast_stage r.
Proof.
  intros Hf; unfold update_file_stage; cbn [files].
  rewrite String.eqb_refl, Hf. eexists; split; [reflexivity|split; reflexivity].
Qed.

Lemma prefix_app (p s : string) : String.prefix p (p ++ s) = true.
Proof.
  induction p as [|a p IH]; simpl; [destruct s; reflexivity|].
  destruct (Ascii.ascii_dec a a) as [_|n]; [exact IH|contradiction].
Qed.

Lemma string_app_assoc (a b c : string) : (a ++ b) ++ c = a ++ (b ++ c).
Proof. induction a as [|x a IH]; simpl; [reflexivity|rewrite IH; reflexivity]. Qed.

Lemma prefix_deep (f s : string) :
  String.prefix (f ++ "::deep::") (f ++ "::deep::" ++ s) = true.
Proof. rewrite <- string_app_assoc; apply prefix_app. Qed.

Lemma page_chunk_prefix env r n t :
  String.prefix (id r ++ "::deep::") (chunk_id (page_chunk env r n t)) = true.
Proof.
  unfold page_chunk; cbn [chunk_id].
  change ("::deep::page_" ++ Py.str_int n) with ("::deep::" ++ ("page_" ++ Py.str_int n)).
  apply prefix_deep.
Qed.

Lemma process_pdf_prefix env r t cs :
  process_pdf env r = Ok (t, cs) ->
  Forall (fun c => String.prefix (id r ++ "::deep::") (chunk_id c) = true) cs.
Proof.
  unfold process_pdf.
  destruct (deep_parse env) as [atts|]; [|intros [= _ <-]; constructor].
  destruct (filter _ atts) as [|a l]; [intros [= _ <-]; constructor|].
  destruct (keyed (a :: l)) as [ks|]; [|discriminate].
  pose proof (proj1 (DeepLemmas.page_loop_chunks env r 0 (sort_by_key ks))) as Hall.
  destruct (page_loop env r 0 (sort_by_key ks)) as [res cs'].
  intros [= _ <-]. eapply Forall_impl; [|exact Hall].
  intros c [n [t' [_ ->]]]; apply page_chunk_prefix.
Qed.

Lemma build_deep_chunks_prefix env r t :
  Forall (fun c => String.prefix (id r ++ "::deep::") (chunk_id c) = true)
         (build_deep_chunks env r t).
Proof.
  unfold build_deep_chunks; destruct (negb _); [constructor|].
  constructor; [|constructor]. cbn [chunk_id].
  change ("::deep::full") with ("::deep::" ++ "full"). apply prefix_deep.
Qed.

Lemma store_frame_refl fid st : store_frame fid st st.
Proof. repeat split; auto. Qed.

Lemma store_frame_trans fid s1 s2 s3 :
  store_frame fid s1 s2 -> store_frame fid s2 s3 -> store_frame fid s1 s3.
Proof.
  intros [F1 [C1 [V1 K1]]] [F2 [C2 [V2 K2]]]; repeat split.
  - intros k Hk; rewrite F2, F1 by exact Hk; reflexivity.
  - intros k v Hkv; rewrite C2, C1 by exact Hkv; reflexivity.
  - intros d Hd; destruct (V2 d Hd) as [H|H]; [exact (V1 d H)|right; exact H].
  - intros d Hd Hp; exact (K2 d (K1 d Hd Hp) Hp).
Qed.

Lemma store_frame_update st fid ds ta ea :
  store_frame fid st (update_file_stage st fid ds ta ea).
Proof.
  repeat split; auto. intros k Hk; unfold update_file_stage; cbn [files].
  apply String.eqb_neq in Hk; rewrite Hk; reflexivity.
Qed.

Lemma store_frame_replace st fid cs :
  store_frame fid st (replace_chunks st fid cs "deep").
Proof.
  repeat split; auto. intros k v Hkv; unfold replace_chunks; cbn [chunks].
  destruct (String.eqb_spec k fid), (String.eqb_spec v "deep"); simpl; try reflexivity.
  destruct Hkv; contradiction.
Qed.

Lemma store_frame_upsert st fid r :
  id r = fid -> store_frame fid st (upsert_file st r).
Proof.
  intros Hid; repeat split; auto. intros k Hk; unfold upsert_file; cbn [files].
  rewrite Hid. apply String.eqb_neq in Hk; rewrite Hk; reflexivity.
Qed.

Lemma store_frame_vectors st fid r cvs :
  id r = fid ->
  Forall (fun cv => String.prefix (fid ++ "::deep::") (chunk_id (fst cv)) = true) cvs ->
  store_frame fid st (vector_upsert st (map (make_doc r) cvs)).
Proof.
  intros Hid Hcvs; repeat split; auto.
  - intros d Hd; unfold vector_upsert in Hd; cbn [vectors] in Hd.
    apply in_app_or in Hd; destruct Hd as [Hd|Hd].
    + right. apply in_map_iff in Hd; destruct Hd as [cv [<- _]]; simpl; split; [exact Hid|reflexivity].
    + left. apply filter_In in Hd; apply Hd.
  - intros d Hd Hp; unfold vector_upsert; cbn [vectors].
    apply in_or_app; right. apply filter_In; split; [exact Hd|].
    apply negb_true_iff, not_true_iff_false. intros He.
    apply existsb_exists in He. destruct He as [d' [Hd' He]].
    apply String.eqb_eq in He. apply in_map_iff in Hd'. destruct Hd' as [cv [<- Hcv]].
    rewrite Forall_forall in Hcvs. specialize (Hcvs cv Hcv).
    cbn [doc_id make_doc] in He. rewrite He, Hcvs in Hp. discriminate.
Qed.

Lemma process_body_frame env st fid r res st' :
  id r = fid -> process_body env st fid r = (res, st') -> store_frame fid st st'.
Proof.
  intros Hid. unfold process_body.
  destruct (if String.eqb (kind r) "image" then _ else _) as [[t cs0]|] eqn:Ex;
    [|intros [= _ <-]; apply store_frame_refl].
  assert (Hcs0 : Forall (fun c => String.prefix (id r ++ "::deep::") (chunk_id c) = true) cs0).
  { destruct (String.eqb (kind r) "image"); [injection Ex as _ <-; constructor|].
    destruct (_ && _)%bool; [exact (process_pdf_prefix env r t cs0 Ex)|].
    destruct (String.eqb (kind r) "presentation"); injection Ex as _ <-; constructor. }
  destruct (negb (text_truthy t) && _)%bool; [intros [= _ <-]; apply store_frame_update|].
  assert (H1 : Forall (fun c => String.prefix (id r ++ "::deep::") (chunk_id c) = true)
                 (map set_deep (match t, cs0 with
                                | Some t', [] => if Py.truthy t' then build_deep_chunks env r t' else []
                                | _, _ => cs0 end))).
  { apply Forall_map.
    destruct t as [t'|], cs0; try exact Hcs0.
    destruct (Py.truthy t'); [apply build_deep_chunks_prefix|constructor]. }
  destruct (map set_deep _) as [|c cs] eqn:Hm.
  - intros [= _ <-]. eapply store_frame_trans; [apply store_frame_replace|].
    apply store_frame_upsert; exact Hid.
  - destruct (embed_chunks env (c :: cs)) as [vs|];
      [|intros [= _ <-]; apply store_frame_replace].
    destruct (map (make_doc r) (combine (c :: cs) vs)) as [|d ds] eqn:Hd;
      [|destruct (vector_store_ok env)]; intros [= _ <-];
      (eapply store_frame_trans; [|apply store_frame_upsert; exact Hid]);
      try apply store_frame_replace.
    eapply store_frame_trans; [apply store_frame_replace|].
    rewrite <- Hd. apply store_frame_vectors; [exact Hid|].
    rewrite <- Hid. apply Forall_forall. intros [c' v] Hin.
    apply in_combine_l in Hin. rewrite Forall_forall in H1. exact (H1 c' Hin).
Qed.

(** *** [_embed_chunks] *)

Lemma batches_cover_fuel (n fuel : nat) (l : list string) :
  (0 < n)%nat -> (length l <= fuel)%nat ->
  concat (batches fuel n l) = l
  /\ Forall (fun b => b <> [] /\ (length b <= n)%nat) (batches fuel n l).
Proof.
  intros Hn; revert l; induction fuel as [|f IH]; intros l Hl.
  - destruct l; [split; [reflexivity|constructor]|simpl in Hl; lia].
  - destruct l as [|x l']; [split; [reflexivity|constructor]|].
    cbn [batches]. set (l := x :: l') in *.
    destruct (IH (skipn n l)) as [Hc Hf].
    { rewrite length_skipn; subst l; cbn [length] in Hl |- *; lia. }
    split.
    + cbn [concat]. rewrite Hc. apply firstn_skipn.
    + constructor; [|exact Hf]. split.
      * destruct n as [|n']; [lia|]. simpl; discriminate.
      * apply firstn_le_length.
Qed.

Lemma encode_all_length env bs :
  (forall b, exists vs, encode env b = Some vs /\ length vs = length b) ->
  exists vs, encode_all env bs = Some vs /\ length vs = length (concat bs).
Proof.
  intros He; induction bs as [|b bs IH]; simpl.
  - exists []; split; reflexivity.
  - destruct (He b) as [vs [Hb Hl]]; destruct IH as [vr [Hr Hlr]].
    rewrite Hb, Hr. eexists; split; [reflexivity|].
    rewrite !length_app, Hl, Hlr; reflexivity.
Qed.

(** *** [Py.strip] *)

Lemma lstrip_list_app_spaces (l : list ascii) :
  exists sp, l = (sp ++ Py.lstrip_list l)%list /\ forallb Py.isspace sp = true.
Proof.
  induction l as [|c l IH]; simpl.
  - exists []; split; reflexivity.
  - destruct (Py.isspace c) eqn:Hc.
    + destruct IH as [sp [Hl Hsp]]. exists (c :: sp); simpl; rewrite Hc, Hsp.
      split; [rewrite Hl at 1; reflexivity|reflexivity].
    + exists []; split; reflexivity.
Qed.

Lemma lstrip_list_head (l : list ascii) c r :
  Py.lstrip_list l = c :: r -> Py.isspace c = false.
Proof.
  induction l as [|d l IH]; simpl; [discriminate|].
  destruct (Py.isspace d) eqn:Hd; [exact IH|].
  intros [= -> _]; exact Hd.
Qed.

Lemma lstrip_list_fixed (l : list ascii) :
  match l with [] => True | c :: _ => Py.isspace c = false end ->
  Py.lstrip_list l = l.
Proof. destruct l as [|c l]; simpl; [reflexivity|intros ->; reflexivity]. Qed.

Lemma lstrip_list_idem (l : list ascii) :
  Py.lstrip_list (Py.lstrip_list l) = Py.lstrip_list l.
Proof.
  apply lstrip_list_fixed. destruct (Py.lstrip_list l) as [|c r] eqn:E; [exact I|].
  exact (lstrip_list_head l c r E).
Qed.

Lemma strip_idem (s : string) : Py.strip (Py.strip s) = Py.strip s.
Proof.
  unfold Py.strip. rewrite list_ascii_of_string_of_list_ascii.
  set (a := Py.lstrip_list (list_ascii_of_string s)).
  set (b := Py.lstrip_list (rev a)).
  assert (Hrb : Py.lstrip_list (rev b) = rev b).
  { apply lstrip_list_fixed.
    destruct (lstrip_list_app_spaces (rev a)) as [sp [Hsp _]]. fold b in Hsp.
    assert (Ha : a = (rev b ++ rev sp)%list)
      by (rewrite <- rev_app_distr, <- Hsp, rev_involutive; reflexivity).
    destruct (rev b) as [|c r] eqn:Erb; [exact I|].
    destruct a as [|d a'] eqn:Ea; [discriminate Ha|].
    simpl in Ha. injection Ha as -> _.
    exact (lstrip_list_head (list_ascii_of_string s) c a' Ea). }
  rewrite Hrb, rev_involutive. unfold b at 1. rewrite lstrip_list_idem. reflexivity.
Qed.

(** Every page chunk text is already stripped and non-empty. *)
Lemma clean_result_stripped out : Py.strip (clean_result out) = clean_result out.
Proof.
  unfold clean_result. destruct (Py.startswith _ _); apply strip_idem.
Qed.

Lemma page_loop_texts env r i ps :
  fst (page_loop env r i ps) = map ctext (snd (page_loop env r i ps))
  /\ Forall (fun c => Py.strip (ctext c) = ctext c /\ Py.truthy (ctext c) = true)
            (snd (page_loop env r i ps)).
Proof.
  revert i; induction ps as [|[n kv] ps IH]; intros i; simpl.
  - split; [reflexivity|constructor].
  - destruct (IH (S i)) as [Ht Hc].
    destruct (page_loop env r (S i) ps) as [res cs]; simpl in *.
    destruct (vlm env i) as [|out]; [split; assumption|].
    destruct (Py.truthy (clean_result out)) eqn:Ht'; simpl; [|split; assumption].
    split; [rewrite Ht; reflexivity|].
    constructor; [|exact Hc]. simpl; split; [apply clean_result_stripped|exact Ht'].
Qed.

(** The page numbers of the page loop's chunks, in loop order, are
    among the keys of the loop's pages, in their order. *)
Lemma page_loop_sorted env r i ps :
  StronglySorted Z.le (map fst ps) ->
  exists ns, map page_number (snd (page_loop env r i ps)) = map Some ns
             /\ StronglySorted Z.le ns /\ incl ns (map fst ps).
Proof.
  revert i; induction ps as [|[n kv] ps IH]; intros i Hs; simpl.
  - exists []; repeat split; [constructor|intros x []].
  - inversion Hs as [|? ? Hs' Hall]; subst.
    destruct (IH (S i) Hs') as [ns [Hns [Hsn Hin]]].
    destruct (page_loop env r (S i) ps) as [res cs]; simpl in *.
    assert (Hin' : incl ns (n :: map fst ps)) by (intros x Hx; right; apply Hin, Hx).
    destruct (vlm env i) as [|out]; [exists ns; auto|].
    destruct (Py.truthy (clean_result out)); simpl; [|exists ns; auto].
    exists (n :: ns); split; [rewrite Hns; reflexivity|split].
    + constructor; [exact Hsn|]. rewrite Forall_forall in Hall |- *.
      intros x Hx; apply Hall, Hin, Hx.
    + intros x [<-|Hx]; [left; reflexivity|right; apply Hin, Hx].
Qed.

Lemma insert_by_key_sorted {A} (x : Z * A) (l : list (Z * A)) :
  Sorted Z.le (map fst l) -> Sorted Z.le (map fst (insert_by_key x l)).
Proof.
  induction l as [|y l IH]; simpl; intros Hs.
  - repeat constructor.
  - destruct (fst x <? fst y) eqn:E.
    + apply Z.ltb_lt in E. constructor; [exact Hs|constructor; lia].
    + apply Z.ltb_ge in E. inversion Hs as [|? ? Hs' Hhd]; subst.
      constructor; [apply IH, Hs'|].
      destruct l as [|z l]; simpl; [constructor; exact E|].
      destruct (fst x <? fst z); constructor; [exact E|].
      inversion Hhd; assumption.
Qed.

Lemma sort_by_key_sorted {A} (l : list (Z * A)) :
  Sorted Z.le (map fst (sort_by_key l)).
Proof.
  induction l as [|x l IH]; simpl; [constructor|]. apply insert_by_key_sorted, IH.
Qed.

Lemma keyed_none {A} (items : list (string * A)) :
  keyed items = None <-> In None (map (fun '(k, _) => page_key_num k) items).
Proof.
  induction items as [|[k v] items IH]; simpl; [split; [discriminate|intros []]|].
  destruct (page_key_num k) as [n|]; [|split; [intros _; left; reflexivity|reflexivity]].
  destruct (keyed items) as [kr|]; split.
  - discriminate.
  - intros [H|H]; [discriminate H|]. apply IH in H; discriminate H.
  - intros _; right; apply IH; reflexivity.
  - reflexivity.
Qed.

End DeepRoundLemmas.

(* ------------------------------------------------------------------ *)
(** ** More of the deep round: properties *)

Module DeepRoundFacts.
Import Deep DeepFrame DeepRoundLemmas DeepFixtures DeepRoundFixtures.

(** [DeepProcessor.process]: once a call has returned True for a file,
    every later call returns True and changes nothing, whatever the
    services do (the file is at deep_stage 2 or -2 and its fast stage is
    unchanged).  The store's record under [fid] has id [fid]. *)
Theorem process_success_is_final (env env' : Env) (st st' : Store) (fid : string) :
  (forall r, files st fid = Some r -> id r = fid) ->
  process env st fid = (true, st') ->
  process env' st' fid = (true, st').
Proof.
  intros Hid. unfold process at 1.
  destruct (files st fid) as [r|] eqn:Hf; [|intros [=]].
  destruct (fast_stage r <? 2) eqn:Hfs; [intros [=]|].
  destruct (2 <=? deep_stage r) eqn:Hds.
  { intros [= <-]. unfold process; rewrite Hf, Hfs, Hds; reflexivity. }
  destruct (deep_stage r =? -2) eqn:Hm2.
  { intros [= <-]. unfold process; rewrite Hf, Hfs, Hds, Hm2; reflexivity. }
  destruct (negb (should_process_deep r)).
  { intros [= <-].
    destruct (update_file_stage_at st fid (-2) None None r Hf) as [r' [Hf' [Hd' Hfs']]].
    unfold process; rewrite Hf', Hfs', Hfs, Hd'; reflexivity. }
  destruct (negb (path_exists r)); [intros [=]|].
  destruct (process_body env st fid r) as [[u|] st1] eqn:Hb; [|intros [=]].
  intros [= <-].
  destruct (process_body_ok_file env st fid r u st1 Hf (Hid r eq_refl) Hb) as [r' [Hf' [Hfs' Hd']]].
  unfold process; rewrite Hf', Hfs', Hfs, Hd'; reflexivity.
Qed.

(** [DeepProcessor.process]: a call that returns False either found no
    record, or a record whose fast round is not done, and then changed
    nothing; otherwise it left the file at deep_stage -1. *)
Theorem process_failure_marks_file (env : Env) (st st' : Store) (fid : string) :
  process env st fid = (false, st') ->
  (st' = st /\ match files st fid with None => True | Some r => fast_stage r < 2 end)
  \/ exists r, files st' fid = Some r /\ deep_stage r = -1.
Proof.
  unfold process.
  destruct (files st fid) as [r|] eqn:Hf; [|intros [= <-]; left; split; [reflexivity|exact I]].
  destruct (fast_stage r <? 2) eqn:Hfs.
  { intros [= <-]; left; split; [reflexivity|]. apply Z.ltb_lt; exact Hfs. }
  destruct (2 <=? deep_stage r); [intros [=]|].
  destruct (deep_stage r =? -2); [intros [=]|].
  destruct (negb (should_process_deep r)); [intros [=]|].
  destruct (negb (path_exists r)).
  { intros [= <-]; right.
    destruct (update_file_stage_at st fid (-1) None None r Hf) as [r' [Hf' [Hd' _]]].
    exists r'; split; assumption. }
  destruct (process_body env st fid r) as [[u|] st1] eqn:Hb; [intros [=]|].
  intros [= <-]; right.
  assert (Hf1 : files st1 fid = Some r)
    by (rewrite (process_body_raise_files env st fid r st1 Hb); exact Hf).
  destruct (update_file_stage_at st1 fid (-1) None None r Hf1) as [r' [Hf' [Hd' _]]].
  exists r'; split; assumption.
Qed.

(** [DeepProcessor.process] changes only the record of its own file,
    that file's "deep" chunks and the vector store's deep documents of
    that file: the records and chunks of every other file, and the
    chunks of every other version (the fast round's) are left as they
    were; every vector document it adds is a deep document of that file,
    and every vector document whose id does not start with
    [fid ++ "::deep::"] (those of other files, and the fast ones) is
    still in the store. *)
Theorem process_touches_only_its_file (env : Env) (st st' : Store) (fid : string)
    (ok : bool) :
  (forall r, files st fid = Some r -> id r = fid) ->
  process env st fid = (ok, st') ->
  (forall k, k <> fid -> files st' k = files st k)
  /\ (forall k v, (k <> fid \/ v <> "deep") -> chunks st' k v = chunks st k v)
  /\ (forall d, In d (vectors st') ->
        In d (vectors st) \/ (doc_file_id d = fid /\ doc_version d = "deep"))
  /\ (forall d, In d (vectors st) ->
        String.prefix (fid ++ "::deep::") (doc_id d) = false -> In d (vectors st')).
Proof.
  intros Hid. change (process env st fid = (ok, st') -> store_frame fid st st').
  unfold process.
  destruct (files st fid) as [r|] eqn:Hf; [|intros [= _ <-]; apply store_frame_refl].
  destruct (fast_stage r <? 2); [intros [= _ <-]; apply store_frame_refl|].
  destruct (2 <=? deep_stage r); [intros [= _ <-]; apply store_frame_refl|].
  destruct (deep_stage r =? -2); [intros [= _ <-]; apply store_frame_refl|].
  destruct (negb (should_process_deep r)); [intros [= _ <-]; apply store_frame_update|].
  destruct (negb (path_exists r)); [intros [= _ <-]; apply store_frame_update|].
  destruct (process_body env st fid r) as [res st1] eqn:Hb.
  pose proof (process_body_frame env st fid r res st1 (Hid r eq_refl) Hb) as Hfr.
  destruct res; intros [= _ <-]; [exact Hfr|].
  eapply store_frame_trans; [exact Hfr|apply store_frame_update].
Qed.

(** [_embed_chunks]: [for start in range(0, len(texts), batch_size)]
    sends consecutive non-empty batches of at most [batch_size] texts
    which together are exactly the texts, in order. *)
Theorem embed_batches_cover (n : nat) (texts : list string) :
  (0 < n)%nat ->
  concat (batches (length texts) n texts) = texts
  /\ Forall (fun b => b <> [] /\ (length b <= n)%nat) (batches (length texts) n texts).
Proof. intros Hn; apply batches_cover_fuel; [exact Hn|lia]. Qed.

Lemma embed_chunks_length_aux (env : Env) (cs : list ChunkSnapshot) :
  (forall b, exists vs, encode env b = Some vs /\ length vs = length b) ->
  exists vs, embed_chunks env cs = Some vs
             /\ length vs = length (filter (fun c => Py.truthy (Py.strip (ctext c))) cs).
Proof.
  intros He. unfold embed_chunks.
  set (texts := map _ (filter _ cs)).
  assert (Hlen : length texts = length (filter (fun c => Py.truthy (Py.strip (ctext c))) cs))
    by apply length_map.
  set (n := Z.to_nat (Z.max (embed_batch_size env) 1)).
  assert (Hall : forall l, exists vs, encode_all env (batches (length l) n l) = Some vs
                                      /\ length vs = length l).
  { intros l. assert (Hn : (0 < n)%nat) by (subst n; lia).
    destruct (encode_all_length env (batches (length l) n l) He) as [vs [Hvs Hl]].
    exists vs; split; [exact Hvs|].
    rewrite Hl, (proj1 (batches_cover_fuel n (length l) l Hn (le_n _))); reflexivity. }
  rewrite <- Hlen. destruct texts as [|x xs].
  - exists []; split; reflexivity.
  - apply Hall.
Qed.

(** [_embed_chunks]: with an embedding client that returns one vector
    per text, it returns one vector per chunk whose text is not blank
    (and [] when every text is blank), whatever [embed_batch_size]. *)
Theorem embed_chunks_one_vector_per_text (env : Env) (cs : list ChunkSnapshot) :
  (forall b, exists vs, encode env b = Some vs /\ length vs = length b) ->
  exists vs, embed_chunks env cs = Some vs
             /\ length vs = length (filter (fun c => Py.truthy (Py.strip (ctext c))) cs).
Proof. apply embed_chunks_length_aux. Qed.

Lemma process_pdf_chunks_stripped_aux (env : Env) (r : FileRecord) (t : option string)
    (cs : list ChunkSnapshot) :
  process_pdf env r = Ok (t, cs) ->
  Forall (fun c => Py.strip (ctext c) = ctext c /\ ctext c <> "") cs.
Proof.
  unfold process_pdf.
  destruct (deep_parse env) as [atts|]; [|intros [= _ <-]; constructor].
  destruct (filter _ atts) as [|p ps]; [intros [= _ <-]; constructor|].
  destruct (keyed (p :: ps)) as [ks|]; [|intros [=]].
  destruct (page_loop_texts env r 0 (sort_by_key ks)) as [_ Hc].
  destruct (page_loop env r 0 (sort_by_key ks)) as [res cs0].
  intros [= _ <-]. eapply Forall_impl; [|exact Hc].
  intros c [Hs Ht]; split; [exact Hs|].
  intros He; rewrite He in Ht; discriminate Ht.
Qed.

(** [_process_pdf]: every page chunk it returns has a non-empty text
    without leading or trailing whitespace. *)
Theorem pdf_page_chunks_stripped (env : Env) (r : FileRecord) (t : option string)
    (cs : list ChunkSnapshot) :
  process_pdf env r = Ok (t, cs) ->
  Forall (fun c => Py.strip (ctext c) = ctext c /\ ctext c <> "") cs.
Proof. apply process_pdf_chunks_stripped_aux. Qed.

(** [DeepProcessor.process]: with an embedding client that returns one
    vector per text, the deep chunks of a PDF (from [_process_pdf]) or
    of a whole text (from [_build_deep_chunks]) get one vector each, so
    [zip(deep_chunks, vectors)] drops no chunk. *)
Theorem deep_chunks_all_embedded (env : Env) (r : FileRecord) (t : option string)
    (cs : list ChunkSnapshot) :
  (forall b, exists vs, encode env b = Some vs /\ length vs = length b) ->
  (process_pdf env r = Ok (t, cs) \/ exists s, cs = build_deep_chunks env r s) ->
  exists vs, embed_chunks env (map set_deep cs) = Some vs /\ length vs = length cs.
Proof.
  intros He Hcs.
  destruct (embed_chunks_length_aux env (map set_deep cs) He) as [vs [Hvs Hl]].
  exists vs; split; [exact Hvs|]. rewrite Hl, <- (length_map set_deep cs).
  f_equal. apply forallb_filter_id, forallb_forall.
  intros c Hc. apply in_map_iff in Hc; destruct Hc as [c0 [<- Hc0]]; simpl.
  destruct Hcs as [Hp|[s ->]].
  - apply process_pdf_chunks_stripped_aux in Hp. rewrite Forall_forall in Hp.
    destruct (Hp c0 Hc0) as [-> Hne]. unfold Py.truthy.
    destruct (String.eqb_spec (ctext c0) ""); [contradiction|reflexivity].
  - unfold build_deep_chunks in Hc0.
    destruct (Py.truthy (Py.strip s)) eqn:Hs; simpl in Hc0; [|contradiction].
    destruct Hc0 as [<-|[]]; exact Hs.
Qed.

(** [_process_pdf]: the combined text is the page chunks' texts joined
    by blank lines, and None exactly when there is no chunk. *)
Theorem process_pdf_text_is_joined_chunks (env : Env) (r : FileRecord)
    (t : option string) (cs : list ChunkSnapshot) :
  process_pdf env r = Ok (t, cs) ->
  t = match cs with [] => None | _ => Some (Py.join two_newlines (map ctext cs)) end.
Proof.
  unfold process_pdf.
  destruct (deep_parse env) as [atts|]; [|intros [= <- <-]; reflexivity].
  destruct (filter _ atts) as [|p ps]; [intros [= <- <-]; reflexivity|].
  destruct (keyed (p :: ps)) as [ks|]; [|intros [=]].
  destruct (page_loop_texts env r 0 (sort_by_key ks)) as [Ht _].
  destruct (page_loop env r 0 (sort_by_key ks)) as [res cs0]; simpl in Ht; subst res.
  intros [= <- <-]. destruct cs0; reflexivity.
Qed.

(** [_process_pdf]: the page chunks come in ascending page order,
    whatever the order of the attachments. *)
Theorem process_pdf_chunks_in_page_order (env : Env) (r : FileRecord)
    (t : option string) (cs : list ChunkSnapshot) :
  process_pdf env r = Ok (t, cs) ->
  exists ns, map page_number cs = map Some ns /\ Sorted Z.le ns.
Proof.
  unfold process_pdf.
  destruct (deep_parse env) as [atts|]; [|intros [= _ <-]; exists []; split; constructor].
  destruct (filter _ atts) as [|p ps]; [intros [= _ <-]; exists []; split; constructor|].
  destruct (keyed (p :: ps)) as [ks|]; [|intros [=]].
  assert (Hs : StronglySorted Z.le (map fst (sort_by_key ks))).
  { apply Sorted_StronglySorted; [intros a b c; apply Z.le_trans|].
    apply sort_by_key_sorted. }
  destruct (page_loop_sorted env r 0 _ Hs) as [ns [Hns [Hsn _]]].
  destruct (page_loop env r 0 (sort_by_key ks)) as [res cs0]; simpl in Hns.
  intros [= _ <-]. exists ns; split; [exact Hns|].
  apply StronglySorted_Sorted; exact Hsn.
Qed.

(** [DeepProcessor.process]: when one [page_]-prefixed attachment key of
    an eligible PDF has a part after [page_] that Python's [int()]
    rejects (such as [page_cover]; [page_-1], [page_+2] and [page_ 3]
    are accepted by [int()] and do not count), the sort raises, the
    whole round fails and the file is marked deep_stage -1, whatever the
    other pages hold. *)
Theorem bad_page_key_fails_round (env : Env) (st : Store) (fid : string)
    (r : FileRecord) (atts : list (string * Bytes)) :
  files st fid = Some r -> 2 <= fast_stage r -> deep_stage r < 2 ->
  deep_stage r <> -2 -> kind r = "document" -> extension r = "pdf" ->
  should_process_deep r = true -> path_exists r = true ->
  deep_parse env = Some atts -> In None (page_numbers atts) ->
  process env st fid = (false, update_file_stage st fid (-1) None None).
Proof.
  intros Hf Hfs Hds Hm2 Hk He Hsp Hpe Hdp Hbad.
  unfold process; rewrite Hf.
  replace (fast_stage r <? 2) with false by (symmetry; apply Z.ltb_ge; lia).
  replace (2 <=? deep_stage r) with false by (symmetry; apply Z.leb_gt; lia).
  replace (deep_stage r =? -2) with false by (symmetry; apply Z.eqb_neq; exact Hm2).
  rewrite Hsp, Hpe; cbn [negb].
  unfold process_body; rewrite Hk, He; cbn -[process_pdf].
  unfold process_pdf; rewrite Hdp.
  unfold page_numbers in Hbad.
  destruct (filter _ atts) as [|p ps]; [destruct Hbad|].
  apply keyed_none in Hbad; rewrite Hbad; reflexivity.
Qed.

Lemma process_success_is_final_witness :
  process (env_with vlm_down false false)
          (snd (process (env_with vlm_ok true true) store0 "f1")) "f1"
  = (true, snd (process (env_with vlm_ok true true) store0 "f1")).
Proof.
  apply (process_success_is_final (env_with vlm_ok true true) _ store0 _ "f1").
  - intros r Hr; simpl in Hr; injection Hr as <-; reflexivity.
  - reflexivity.
Defined.

Lemma process_failure_marks_file_witness :
  let st' := snd (process (env_with vlm_ok false true) store0 "f1") in
  (st' = store0 /\ match files store0 "f1" with None => True | Some r => fast_stage r < 2 end)
  \/ exists r, files st' "f1" = Some r /\ deep_stage r = -1.
Proof.
  apply (process_failure_marks_file (env_with vlm_ok false true) store0 _ "f1").
  reflexivity.
Defined.

Lemma process_touches_only_its_file_witness :
  let st' := snd (process (env_with vlm_ok true true) store_vec "f1") in
  (forall k, k <> "f1" -> files st' k = files store_vec k)
  /\ (forall k v, (k <> "f1" \/ v <> "deep") -> chunks st' k v = chunks store_vec k v)
  /\ (forall d, In d (vectors st') ->
        In d (vectors store_vec) \/ (doc_file_id d = "f1" /\ doc_version d = "deep"))
  /\ (forall d, In d (vectors store_vec) ->
        String.prefix ("f1" ++ "::deep::") (doc_id d) = false -> In d (vectors st')).
Proof.
  apply (process_touches_only_its_file (env_with vlm_ok true true) store_vec _ "f1" true).
  - intros r Hr; simpl in Hr; injection Hr as <-; reflexivity.
  - reflexivity.
Defined.

Lemma embed_batches_cover_witness :
  concat (batches 3 2 ["a"; "b"; "c"]) = ["a"; "b"; "c"]
  /\ Forall (fun b => b <> [] /\ (length b <= 2)%nat) (batches 3 2 ["a"; "b"; "c"]).
Proof. apply (embed_batches_cover 2 ["a"; "b"; "c"]); lia. Defined.

Lemma embed_chunks_one_vector_per_text_witness :
  exists vs, embed_chunks pdf_env pdf_env_chunks = Some vs
             /\ length vs = length (filter (fun c => Py.truthy (Py.strip (ctext c)))
                                            pdf_env_chunks).
Proof.
  apply (embed_chunks_one_vector_per_text pdf_env pdf_env_chunks).
  intros b; exists (map (fun _ => [1]) b); split; [reflexivity|apply length_map].
Defined.

Lemma pdf_page_chunks_stripped_witness :
  Forall (fun c => Py.strip (ctext c) = ctext c /\ ctext c <> "") pdf_env_chunks.
Proof.
  apply (pdf_page_chunks_stripped pdf_env pdf_record pdf_env_text). reflexivity.
Defined.

Lemma deep_chunks_all_embedded_witness :
  exists vs, embed_chunks pdf_env (map set_deep pdf_env_chunks) = Some vs
             /\ length vs = length pdf_env_chunks.
Proof.
  apply (deep_chunks_all_embedded pdf_env pdf_record pdf_env_text).
  - intros b; exists (map (fun _ => [1]) b); split; [reflexivity|apply length_map].
  - left; reflexivity.
Defined.

Lemma process_pdf_text_is_joined_chunks_witness :
  pdf_env_text = match pdf_env_chunks with
                 | [] => None
                 | _ => Some (Py.join two_newlines (map ctext pdf_env_chunks)) end.
Proof.
  apply (process_pdf_text_is_joined_chunks pdf_env pdf_record). reflexivity.
Defined.

Lemma process_pdf_chunks_in_page_order_witness :
  exists ns, map page_number pdf_env_chunks = map Some ns /\ Sorted Z.le ns.
Proof.
  apply (process_pdf_chunks_in_page_order pdf_env pdf_record pdf_env_text). reflexivity.
Defined.

Lemma bad_page_key_fails_round_witness :
  process env_bad_key store0 "f1" = (false, update_file_stage store0 "f1" (-1) None None).
Proof.
  apply (bad_page_key_fails_round env_bad_key store0 "f1" pdf_record
           [("page_1", [Byte.x01]); ("page_cover", [Byte.x02])]);
    [reflexivity|cbn; lia|cbn; lia|cbn; discriminate|reflexivity|reflexivity
    |reflexivity|reflexivity|reflexivity|vm_compute; auto].
Defined.

End DeepRoundFacts.

(* ------------------------------------------------------------------ *)
(** ** PdfDeepParser.parse: the page loop *)

Module PdfPagesFacts.
Import PdfDeep PdfDeepPages.

Lemma enumerate_length {A} (k : nat) (l : list A) : length (enumerate k l) = length l.
Proof. revert k; induction l as [|x l IH]; intros k; simpl; [reflexivity|now rewrite IH]. Qed.

Lemma pages_loop_mapping th n k c pages :
  snd (pages_loop th n k c pages)
  = map (fun '(i, t) => (0%nat, String.length t, i))
        (enumerate k (fst (pages_loop th n k c pages))).
Proof.
  revert k c; induction pages as [|p rest IH]; intros k c; simpl; [reflexivity|].
  destruct (page_text th p) as [pt|]; [|reflexivity].
  match goal with |- context [pages_loop th n (S k) ?c' rest] =>
    specialize (IH (S k) c');
    destruct (pages_loop th n (S k) c' rest) as [ts m] end.
  simpl in *. now rewrite IH.
Qed.

Lemma pages_loop_prefix th n k c pre p post :
  Forall (fun q => page_text th q <> None) pre -> page_text th p = None ->
  fst (pages_loop th n k c (pre ++ p :: post))
  = map (fun q => match page_text th q with Some t => t | None => "" end) pre.
Proof.
  intros Hpre Hp; revert k c; induction Hpre as [|q pre Hq Hpre IH]; intros k c; simpl.
  - now rewrite Hp.
  - destruct (page_text th q) as [t|]; [|contradiction].
    match goal with |- context [pages_loop th n (S k) ?c' (pre ++ p :: post)] =>
      specialize (IH (S k) c');
      destruct (pages_loop th n (S k) c' (pre ++ p :: post)) as [ts m] end.
    simpl in *. now rewrite IH.
Qed.

(** [PdfDeepParser.parse]: when the services raise on a page (or the
    caption of a low-coverage page fails), the pages before it are kept,
    no later page is read, and [page_count] still counts every rendered
    image. *)
Theorem parse_pages_first_failure (th : Q) (images : list Content.Bytes)
    (pre : list PageOutcome) (p : PageOutcome) (post : list PageOutcome) :
  Forall (fun q => page_text th q <> None) pre -> page_text th p = None ->
  dp_page_texts (parse_pages th images (pre ++ p :: post))
  = map (fun q => match page_text th q with Some t => t | None => "" end) pre
  /\ length (dp_page_mapping (parse_pages th images (pre ++ p :: post))) = length pre
  /\ Content.page_count (dp_content (parse_pages th images (pre ++ p :: post)))
     = Some (length images).
Proof.
  intros Hpre Hp. unfold parse_pages.
  pose proof (pages_loop_prefix th (length images) 1 0 pre p post Hpre Hp) as Ht.
  pose proof (pages_loop_mapping th (length images) 1 0 (pre ++ p :: post)) as Hm.
  destruct (pages_loop th (length images) 1 0 (pre ++ p :: post)) as [ts m]; simpl in *.
  split; [exact Ht|split; [|reflexivity]].
  rewrite Hm, length_map, enumerate_length, Ht, length_map; reflexivity.
Qed.

Lemma parse_pages_first_failure_witness :
  let pages := [mkPageOutcome (Some "a") (1 # 1) None;
                mkPageOutcome (Some "b") (0 # 1) None;
                mkPageOutcome (Some "c") (1 # 1) None] in
  dp_page_texts (parse_pages (85 # 100) [[]; []; []] pages) = ["a"]
  /\ length (dp_page_mapping (parse_pages (85 # 100) [[]; []; []] pages)) = 1%nat
  /\ Content.page_count (dp_content (parse_pages (85 # 100) [[]; []; []] pages)) = Some 3%nat.
Proof.
  apply (parse_pages_first_failure (85 # 100) [[]; []; []]
           [mkPageOutcome (Some "a") (1 # 1) None]
           (mkPageOutcome (Some "b") (0 # 1) None)
           [mkPageOutcome (Some "c") (1 # 1) None]).
  - constructor; [vm_compute; discriminate|constructor].
  - reflexivity.
Defined.

End PdfPagesFacts.

(* ------------------------------------------------------------------ *)
(** ** IMG2WORDS *)

Module WordboxFacts.
Import Wordbox WordSlots.

Section MinFold.
Variable R : Type.
Variable lt : R -> R -> bool.
Hypothesis lt_irrefl : forall a, lt a a = false.
Hypothesis lt_trans : forall a b c, lt a b = true -> lt b c = true -> lt a c = true.

Lemma fold_min_bound r c z :
  (lt z c = false \/ In z r) ->
  lt z (fold_left (fun cur y => if lt y cur then y else cur) r c) = false.
Proof.
  revert c; induction r as [|y r IH]; intros c Hz; simpl.
  - destruct Hz as [H|[]]; exact H.
  - apply IH. destruct Hz as [H|[->|H]]; [left|left|right; exact H].
    + destruct (lt y c) eqn:Hyc; [|exact H].
      destruct (lt z y) eqn:Hzy; [|reflexivity].
      rewrite (lt_trans _ _ _ Hzy Hyc) in H; discriminate H.
    + destruct (lt z c) eqn:Hzc; [apply lt_irrefl|exact Hzc].
Qed.

Lemma py_min_bound xs m : py_min R lt xs = Some m -> forall z, In z xs -> lt z m = false.
Proof.
  destruct xs as [|x r]; simpl; [discriminate|]. intros [= <-] z Hz.
  apply fold_min_bound. destruct Hz as [<-|H]; [left; apply lt_irrefl|right; exact H].
Qed.

End MinFold.

Lemma py_max_bound R (ltb : R -> R -> bool) :
  (forall a, ltb a a = false) ->
  (forall a b c, ltb a b = true -> ltb b c = true -> ltb a c = true) ->
  forall xs m, py_max R ltb xs = Some m -> forall z, In z xs -> ltb m z = false.
Proof.
  intros Hirr Htr xs m H.
  apply (py_min_bound R (fun a b => ltb b a)); [exact Hirr|eauto|exact H].
Qed.

Lemma char_word_none R ltb i j (ch : OcrChar R) :
  char_word R ltb i j ch = None <-> snd ch = [].
Proof.
  destruct ch as [[c s] [|p q]]; simpl; split; try reflexivity; discriminate.
Qed.

Lemma block_words_spec R ltb bn wn (b : list (OcrChar R)) ws :
  block_words R ltb bn wn b = Some ws ->
  Forall2 (fun w '(i, j, ch) => char_word R ltb i j ch = Some w) ws
          (map (fun '(j, ch) => (bn, j, ch)) (PdfDeep.enumerate wn b)).
Proof.
  revert wn ws; induction b as [|ch b IH]; intros wn ws; simpl.
  - intros [= <-]; constructor.
  - destruct (char_word R ltb bn wn ch) as [w|] eqn:Hc; [|discriminate].
    destruct (block_words R ltb bn (S wn) b) as [ws'|] eqn:Hb; [|discriminate].
    intros [= <-]; constructor; [exact Hc|apply IH; exact Hb].
Qed.

Lemma blocks_words_spec R ltb bn (blocks : list (list (OcrChar R))) ws :
  blocks_words R ltb bn blocks = Some ws ->
  Forall2 (fun w '(i, j, ch) => char_word R ltb i j ch = Some w) ws
          (concat (map (fun '(i, b) => map (fun '(j, ch) => (i, j, ch)) (PdfDeep.enumerate 0 b))
                       (PdfDeep.enumerate bn blocks))).
Proof.
  revert bn ws; induction blocks as [|b blocks IH]; intros bn ws; simpl.
  - intros [= <-]; constructor.
  - destruct (block_words R ltb bn 0 b) as [wb|] eqn:Hb; [|discriminate].
    destruct (blocks_words R ltb (S bn) blocks) as [wr|] eqn:Hr; [|discriminate].
    intros [= <-]. apply Forall2_app; [apply block_words_spec; exact Hb|apply IH; exact Hr].
Qed.

Lemma block_words_none R ltb bn wn (b : list (OcrChar R)) :
  block_words R ltb bn wn b = None <-> exists ch, In ch b /\ snd ch = [].
Proof.
  revert wn; induction b as [|ch b IH]; intros wn; simpl.
  - split; [discriminate|intros [ch [[] _]]].
  - destruct (char_word R ltb bn wn ch) as [w|] eqn:Hc.
    + assert (Hs : snd ch <> []) by (intros He; apply (proj2 (char_word_none R ltb bn wn ch)) in He; congruence).
      destruct (block_words R ltb bn (S wn) b) as [ws|] eqn:Hb.
      * split; [discriminate|]. intros [c [[<-|Hin] He]]; [contradiction|].
        assert (Hn : block_words R ltb bn (S wn) b = None) by (apply IH; eauto).
        congruence.
      * split; [|reflexivity]. intros _. destruct (proj1 (IH (S wn)) Hb) as [c [Hin He]].
        eauto.
    + split; [|reflexivity]. intros _. exists ch; split; [left; reflexivity|].
      apply (char_word_none R ltb bn wn); exact Hc.
Qed.

Lemma blocks_words_none R ltb bn (blocks : list (list (OcrChar R))) :
  blocks_words R ltb bn blocks = None
  <-> exists b ch, In b blocks /\ In ch b /\ snd ch = [].
Proof.
  revert bn; induction blocks as [|b blocks IH]; intros bn; simpl.
  - split; [discriminate|intros [b [ch [[] _]]]].
  - destruct (block_words R ltb bn 0 b) as [wb|] eqn:Hb.
    + assert (Hnb : ~ exists ch, In ch b /\ snd ch = [])
        by (intros He; apply (proj2 (block_words_none R ltb bn 0 b)) in He; congruence).
      destruct (blocks_words R ltb (S bn) blocks) as [wr|] eqn:Hr.
      * split; [discriminate|]. intros [b' [ch [[<-|Hin] [Hc He]]]]; [exfalso; apply Hnb; eauto|].
        assert (Hn : blocks_words R ltb (S bn) blocks = None) by (apply IH; eauto).
        congruence.
      * split; [|reflexivity]. intros _. destruct (proj1 (IH (S bn)) Hr) as [b' [ch H]].
        exists b', ch; intuition.
    + split; [|reflexivity]. intros _.
      destruct (proj1 (block_words_none R ltb bn 0 b) Hb) as [ch [Hin He]].
      exists b, ch; auto.
Qed.

(** [IMG2WORDS.ocr_chars_to_fitz_words] raises ([min] of an empty
    sequence) exactly when some OCR character has an empty quad, and
    [run] then returns no word at all, even for the characters whose
    quads are fine. *)
Theorem ocr_words_fail_iff_empty_quad (R : Type) (ltb : R -> R -> bool)
    (blocks : list (list (OcrChar R))) :
  (ocr_chars_to_fitz_words R ltb blocks = None
   <-> exists b ch, In b blocks /\ In ch b /\ snd ch = [])
  /\ ((exists b ch, In b blocks /\ In ch b /\ snd ch = []) ->
      run R ltb (Some blocks) = []).
Proof.
  split; [apply blocks_words_none|].
  intros He; apply (proj2 (blocks_words_none R ltb 0 blocks)) in He. unfold run, ocr_chars_to_fitz_words.
  rewrite He; reflexivity.
Qed.

Lemma ocr_words_fail_iff_empty_quad_witness :
  (ocr_chars_to_fitz_words Z Z.ltb [[("a", 1, [(0, 0); (2, 3)]); ("b", 1, [])]] = None
   <-> exists b ch, In b [[("a", 1, [(0, 0); (2, 3)]); ("b", 1, [])]] /\ In ch b
                    /\ snd ch = [])
  /\ ((exists b ch, In b [[("a", 1, [(0, 0); (2, 3)]); ("b", 1, [])]] /\ In ch b
                    /\ snd ch = []) ->
      run Z Z.ltb (Some [[("a", 1, [(0, 0); (2, 3)]); ("b", 1, [])]]) = []).
Proof. apply (ocr_words_fail_iff_empty_quad Z Z.ltb). Defined.

(** [IMG2WORDS.ocr_chars_to_fitz_words]: one word per OCR character, in
    the order of the two loops, carrying the character as its text, the
    index of its block as [block_no], 0 as [line_no] and its index within
    the block as [word_no]. *)
Theorem ocr_words_layout (R : Type) (ltb : R -> R -> bool)
    (blocks : list (list (OcrChar R))) (ws : list (FitzWord R)) :
  ocr_chars_to_fitz_words R ltb blocks = Some ws ->
  Forall2 (fun w (slot : nat * nat * OcrChar R) =>
             let '(i, j, (c, _, _)) := slot in
             w_text w = c /\ block_no w = i /\ line_no w = 0%nat /\ word_no w = j)
          ws (word_slots blocks).
Proof.
  intros H. apply blocks_words_spec in H. unfold word_slots.
  eapply Forall2_impl; [|exact H].
  intros w [[i j] [[c s] quad]] Hc. unfold char_word in Hc.
  destruct (py_min R ltb (map fst quad)), (py_min R ltb (map snd quad)),
           (py_max R ltb (map fst quad)), (py_max R ltb (map snd quad));
    try discriminate.
  injection Hc as <-; repeat split.
Qed.

Lemma ocr_words_layout_witness :
  Forall2 (fun w (slot : nat * nat * OcrChar Z) =>
             let '(i, j, (c, _, _)) := slot in
             w_text w = c /\ block_no w = i /\ line_no w = 0%nat /\ word_no w = j)
          [mkWord 0 0 2 3 "a" 0 0 0; mkWord 4 0 5 3 "b" 0 0 1; mkWord 0 5 2 8 "c" 1 0 0]
          (word_slots [[("a", 1, [(0, 0); (2, 0); (2, 3); (0, 3)]);
                        ("b", 1, [(4, 0); (5, 0); (5, 3); (4, 3)])];
                       [("c", 1, [(0, 5); (2, 5); (2, 8); (0, 8)])]]).
Proof.
  apply (ocr_words_layout Z Z.ltb). reflexivity.
Defined.

(** [IMG2WORDS.ocr_chars_to_fitz_words]: for coordinates compared by a
    strict order, the box [(x0, y0, x1, y1)] of each word holds every
    point of its character's quad ([x0 <= x <= x1], [y0 <= y <= y1]). *)
Theorem ocr_word_box_contains_quad (R : Type) (ltb : R -> R -> bool)
    (blocks : list (list (OcrChar R))) (ws : list (FitzWord R)) :
  (forall a, ltb a a = false) ->
  (forall a b c, ltb a b = true -> ltb b c = true -> ltb a c = true) ->
  ocr_chars_to_fitz_words R ltb blocks = Some ws ->
  Forall2 (fun w (slot : nat * nat * OcrChar R) =>
             let '(_, _, (_, _, quad)) := slot in
             Forall (fun '(x, y) => ltb x (x0 w) = false /\ ltb (x1 w) x = false
                                    /\ ltb y (y0 w) = false /\ ltb (y1 w) y = false) quad)
          ws (word_slots blocks).
Proof.
  intros Hirr Htr H. apply blocks_words_spec in H. unfold word_slots.
  eapply Forall2_impl; [|exact H].
  intros w [[i j] [[c s] quad]] Hc. unfold char_word in Hc.
  destruct (py_min R ltb (map fst quad)) as [a|] eqn:E1,
           (py_min R ltb (map snd quad)) as [b|] eqn:E2,
           (py_max R ltb (map fst quad)) as [a'|] eqn:E3,
           (py_max R ltb (map snd quad)) as [b'|] eqn:E4; try discriminate.
  injection Hc as <-. apply Forall_forall. intros [x y] Hxy; simpl.
  pose proof (in_map fst _ _ Hxy) as Hx; pose proof (in_map snd _ _ Hxy) as Hy; simpl in Hx, Hy.
  repeat split.
  - exact (py_min_bound R ltb Hirr Htr _ _ E1 _ Hx).
  - exact (py_max_bound R ltb Hirr Htr _ _ E3 _ Hx).
  - exact (py_min_bound R ltb Hirr Htr _ _ E2 _ Hy).
  - exact (py_max_bound R ltb Hirr Htr _ _ E4 _ Hy).
Qed.

Lemma ocr_word_box_contains_quad_witness :
  Forall2 (fun w (slot : nat * nat * OcrChar Z) =>
             let '(_, _, (_, _, quad)) := slot in
             Forall (fun '(x, y) => Z.ltb x (x0 w) = false /\ Z.ltb (x1 w) x = false
                                    /\ Z.ltb y (y0 w) = false /\ Z.ltb (y1 w) y = false) quad)
          [mkWord 1 0 3 4 "a" 0 0 0]
          (word_slots [[("a", 1, [(1, 0); (3, 1); (2, 4); (1, 3)])]]).
Proof.
  apply (ocr_word_box_contains_quad Z Z.ltb).
  - intros a; apply Z.ltb_irrefl.
  - intros a b c Hab Hbc; apply Z.ltb_lt in Hab, Hbc; apply Z.ltb_lt; lia.
  - reflexivity.
Defined.

End WordboxFacts.

(* ------------------------------------------------------------------ *)
(** ** GET /health *)

Module HealthRouteFacts.
Import Health HealthRoute.

(** [read_health]: the status is "degraded" exactly when some checked
    service is offline; the message is never empty when a service is
    offline or the indexer is paused; and the status is always one of
    "ready", "idle", "indexing" and "degraded". *)
Theorem read_health_status (files folders : Z) (progress : Progress)
    (services : list ServiceStatus) :
  let h := read_health files folders progress services in
  (hr_status h = "degraded" <-> existsb is_offline services = true)
  /\ ((existsb is_offline services = true \/ pg_status progress = "paused") ->
      Deep.text_truthy (hr_message h) = true)
  /\ In (hr_status h) ["ready"; "idle"; "indexing"; "degraded"].
Proof.
  cbv zeta. unfold read_health.
  set (m0 := if Deep.text_truthy (pg_last_error progress) then _ else _).
  set (m1 := if String.eqb (pg_status progress) "paused" then _ else _).
  assert (Hm1 : pg_status progress = "paused" -> Deep.text_truthy m1 = true).
  { intros Hp; subst m1; rewrite Hp; simpl.
    destruct (Deep.text_truthy m0) eqn:E; [exact E|reflexivity]. }
  set (s0 := if existsb _ ["running"; "paused"] then _ else _).
  assert (Hs0 : In s0 ["ready"; "idle"; "indexing"; "degraded"]).
  { subst s0. destruct (existsb _ _); [simpl; tauto|]. destruct (negb _); simpl; tauto. }
  assert (Hs0' : s0 <> "degraded").
  { subst s0. destruct (existsb _ _); [discriminate|]. destruct (negb _); discriminate. }
  destruct (existsb is_offline services) eqn:Hoff; simpl.
  - split; [split; reflexivity|split; [|tauto]].
    intros _. destruct (Deep.text_truthy m1) eqn:E; [exact E|reflexivity].
  - split; [split; [intros H; contradiction|discriminate]|split; [|exact Hs0]].
    intros [H|H]; [discriminate|exact (Hm1 H)].
Qed.

Lemma read_health_status_witness :
  let h := read_health 0 1 (mkProgress "paused" None None)
                       [mkServiceStatus "Embedding" Online None None] in
  (hr_status h = "degraded"
   <-> existsb is_offline [mkServiceStatus "Embedding" Online None None] = true)
  /\ ((existsb is_offline [mkServiceStatus "Embedding" Online None None] = true
       \/ pg_status (mkProgress "paused" None None) = "paused") ->
      Deep.text_truthy (hr_message h) = true)
  /\ In (hr_status h) ["ready"; "idle"; "indexing"; "degraded"].
Proof. apply (read_health_status 0 1 (mkProgress "paused" None None)). Defined.

End HealthRouteFacts.

(* ------------------------------------------------------------------ *)
(** ** PATCH /settings/ *)

Module SettingsMergeFacts.
Import SettingsRouter SettingsMerge.

Ltac settle_fields :=
  unfold update_settings, merge_updates, empty_update, set_if; cbn;
  f_equal;
  repeat match goal with
         | |- context [match ?o with Some _ => _ | None => _ end] => destruct o
         end; reflexivity.

(** [update_settings]: a payload without keys leaves the settings as
    they are, sending the same payload twice is the same as sending it
    once, and two successive payloads act as one payload in which the
    keys of the second override those of the first. *)
Theorem update_settings_compose (s : Settings) (u1 u2 : SettingsUpdate) :
  update_settings s empty_update = s
  /\ update_settings (update_settings s u1) u1 = update_settings s u1
  /\ update_settings (update_settings s u1) u2 = update_settings s (merge_updates u1 u2).
Proof.
  destruct s; split; [|split]; settle_fields.
Qed.

End SettingsMergeFacts.

(* ------------------------------------------------------------------ *)
(** ** Scope isolation: mentions and the intersection *)

Module ScopeRoundFacts.
Import Scope MentionTokens.

Lemma mem_In x l : mem x l = true <-> In x l.
Proof.
  unfold mem; rewrite existsb_exists; split.
  - intros [y [Hy Hxy]]; apply String.eqb_eq in Hxy; subst; exact Hy.
  - intros H; exists x; split; [exact H|apply String.eqb_refl].
Qed.

Lemma dedup_In x l : In x (dedup l) <-> In x l.
Proof.
  induction l as [|y l IH]; simpl; [tauto|].
  destruct (existsb (String.eqb y) l) eqn:E; simpl; rewrite IH; [|tauto].
  split; [tauto|]. intros [->|H]; [|exact H].
  apply (mem_In x l); exact E.
Qed.

Lemma dedup_NoDup l : NoDup (dedup l).
Proof.
  induction l as [|y l IH]; simpl; [constructor|].
  destruct (existsb (String.eqb y) l) eqn:E; [exact IH|].
  constructor; [|exact IH]. rewrite dedup_In. intros H.
  apply (mem_In y l) in H. unfold mem in H; congruence.
Qed.

(** [list(set(a) & set(b))] (line 171): no file id twice, and exactly
    the ids found both among the mentioned files and among the folders'
    files. *)
Theorem set_inter_spec (a b : list string) :
  NoDup (set_inter a b) /\ (forall x, In x (set_inter a b) <-> In x a /\ In x b).
Proof.
  unfold set_inter; split.
  - apply NoDup_filter, dedup_NoDup.
  - intros x; rewrite filter_In, dedup_In, mem_In; tauto.
Qed.

(** The mention scan at the length of its input. *)
Definition scan (l : list ascii) : list (string * string) :=
  findall_mentions (S (length l)) l.

Lemma take_nonspace_length l : (length (snd (take_nonspace l)) <= length l)%nat.
Proof.
  induction l as [|c r IH]; simpl; [lia|].
  destruct (Py.isspace c); simpl; [lia|].
  destruct (take_nonspace r) as [w rest]; simpl in *; lia.
Qed.

Lemma split_at_quote_length l b rest :
  split_at_quote l = (b, Some rest) -> (length rest <= length l)%nat.
Proof.
  revert b; induction l as [|c r IH]; intros b; simpl; [discriminate|].
  destruct (Ascii.eqb c dquote); [intros [= _ <-]; lia|].
  destruct (split_at_quote r) as [b' rs] eqn:E; intros [= _ ->].
  specialize (IH b' eq_refl); lia.
Qed.

Lemma findall_fuel n m l :
  (length l < n)%nat -> (length l < m)%nat -> findall_mentions n l = findall_mentions m l.
Proof.
  revert m l; induction n as [|n IH]; intros m l Hn Hm; [lia|].
  destruct m as [|m]; [lia|]. destruct l as [|c r]; [reflexivity|].
  simpl in Hn, Hm. cbn [findall_mentions].
  assert (Hr : findall_mentions n r = findall_mentions m r) by (apply IH; lia).
  destruct (Ascii.eqb c "@"%char); [|exact Hr].
  assert (Ha : (let (w, rest) := take_nonspace r in
                 match w with
                 | [] => findall_mentions n r
                 | _ :: _ => ("", string_of_list_ascii w) :: findall_mentions n rest
                 end)
                = (let (w, rest) := take_nonspace r in
                 match w with
                 | [] => findall_mentions m r
                 | _ :: _ => ("", string_of_list_ascii w) :: findall_mentions m rest
                 end)).
  { pose proof (take_nonspace_length r) as L.
    destruct (take_nonspace r) as [w rest]; simpl in L.
    destruct w; [exact Hr|f_equal; apply IH; lia]. }
  rewrite Ha. destruct r as [|q r']; [reflexivity|].
  destruct (Ascii.eqb q dquote); [|reflexivity].
  destruct (split_at_quote r') as [body [rest'|]] eqn:Es; destruct body; try reflexivity.
  pose proof (split_at_quote_length r' _ rest' Es) as L; simpl in Hn, Hm.
  f_equal; apply IH; lia.
Qed.

Lemma scan_step c l :
  Ascii.eqb c "@"%char = false -> scan (c :: l) = scan l.
Proof. intros H; unfold scan; cbn [length findall_mentions]; rewrite H; reflexivity. Qed.

Lemma scan_plain (s k : list ascii) :
  (forall c, In c s -> Ascii.eqb c "@"%char = false) -> scan (s ++ k) = scan k.
Proof.
  induction s as [|c s IH]; intros H; [reflexivity|].
  simpl; rewrite scan_step by (apply H; left; reflexivity).
  apply IH; intros d Hd; apply H; right; exact Hd.
Qed.

Lemma take_nonspace_word (w k : list ascii) :
  (forall c, In c w -> Py.isspace c = false) ->
  (k = [] \/ exists k', k = " "%char :: k') ->
  take_nonspace (w ++ k) = (w, k).
Proof.
  intros Hw Hk; induction w as [|c w IH]; simpl.
  - destruct Hk as [->|[k' ->]]; reflexivity.
  - rewrite (Hw c (or_introl eq_refl)).
    rewrite IH by (intros d Hd; apply Hw; right; exact Hd); reflexivity.
Qed.

Lemma split_at_quote_body (b k : list ascii) :
  (forall c, In c b -> Ascii.eqb c dquote = false) ->
  split_at_quote (b ++ dquote :: k) = (b, Some k).
Proof.
  intros Hb; induction b as [|c b IH]; simpl.
  - reflexivity.
  - rewrite (Hb c (or_introl eq_refl)).
    rewrite IH by (intros d Hd; apply Hb; right; exact Hd); reflexivity.
Qed.

Lemma list_ascii_of_string_app (a b : string) :
  list_ascii_of_string (a ++ b) = (list_ascii_of_string a ++ list_ascii_of_string b)%list.
Proof. induction a as [|c a IH]; simpl; [reflexivity|now rewrite IH]. Qed.

Lemma no_char_In p s : no_char p s = true -> forall c, In c (list_ascii_of_string s) -> p c = false.
Proof.
  unfold no_char; rewrite forallb_forall. intros H c Hc; specialize (H c Hc).
  destruct (p c); [discriminate|reflexivity].
Qed.

(** What the scan yields for one well-formed token. *)
Definition token_groups (t : Token) : list (string * string) :=
  match t with
  | Plain _ => []
  | Bare s => [("", s)]
  | Quoted s => [(s, "")]
  end.

Lemma scan_at r :
  scan ("@"%char :: r)
  = match r with
    | q :: r' =>
        if Ascii.eqb q dquote then
          match split_at_quote r' with
          | ((_ :: _) as body, Some rest) => (string_of_list_ascii body, "") :: scan rest
          | _ =>
              match take_nonspace r with
              | ([], _) => scan r
              | (w, rest) => ("", string_of_list_ascii w) :: scan rest
              end
          end
        else
          match take_nonspace r with
          | ([], _) => scan r
          | (w, rest) => ("", string_of_list_ascii w) :: scan rest
          end
    | [] => []
    end.
Proof.
  unfold scan at 1. cbn [length]. set (f := S (length r)).
  cbn [findall_mentions]. simpl Ascii.eqb. cbv iota beta zeta.
  assert (Ha : (let (w, rest) := take_nonspace r in
                 match w with
                 | [] => findall_mentions f r
                 | _ :: _ => ("", string_of_list_ascii w) :: findall_mentions f rest
                 end)
                = (let (w, rest) := take_nonspace r in
                 match w with
                 | [] => scan r
                 | _ :: _ => ("", string_of_list_ascii w) :: scan rest
                 end)).
  { pose proof (take_nonspace_length r) as L. unfold scan.
    destruct (take_nonspace r) as [w rest]; simpl in L.
    destruct w; [reflexivity|f_equal; apply findall_fuel; lia]. }
  rewrite Ha. destruct r as [|q r']; [reflexivity|].
  destruct (Ascii.eqb q dquote); [|reflexivity].
  destruct (split_at_quote r') as [body [rest'|]] eqn:Es; destruct body; try reflexivity.
  pose proof (split_at_quote_length r' _ rest' Es) as L.
  f_equal; unfold scan; apply findall_fuel; simpl in *; lia.
Qed.

Arguments scan : simpl never.

Lemma scan_token t k :
  token_ok t = true -> (k = [] \/ exists k', k = " "%char :: k') ->
  scan (list_ascii_of_string (render t) ++ k) = (token_groups t ++ scan k)%list.
Proof.
  intros Ht Hk. destruct t as [s|s|s]; simpl in Ht |- *.
  - apply scan_plain. intros c Hc; exact (no_char_In _ _ Ht c Hc).
  - destruct s as [|c0 s0]; [discriminate|]. apply andb_prop in Ht as [Hq Hsp].
    pose proof (no_char_In _ _ Hsp) as Hw.
    rewrite scan_at, (take_nonspace_word _ k Hw Hk).
    assert (Hd : Ascii.eqb c0 dquote = false)
      by (destruct (Ascii.eqb c0 dquote); [discriminate|reflexivity]).
    simpl list_ascii_of_string. cbn [app]. rewrite Hd.
    change (c0 :: list_ascii_of_string s0) with (list_ascii_of_string (String c0 s0)).
    rewrite string_of_list_ascii_of_string; reflexivity.
  - apply andb_prop in Ht as [Hs Hq]. pose proof (no_char_In _ _ Hq) as Hb.
    rewrite list_ascii_of_string_app. simpl. rewrite <- app_assoc. simpl.
    rewrite scan_at, Ascii.eqb_refl, (split_at_quote_body _ _ Hb).
    destruct (list_ascii_of_string s) as [|c0 l0] eqn:Es.
    + destruct s; discriminate.
    + rewrite <- Es, string_of_list_ascii_of_string. reflexivity.
Qed.

Lemma scan_tokens ts :
  forallb token_ok ts = true ->
  scan (list_ascii_of_string (Py.join " " (map render ts))) = concat (map token_groups ts).
Proof.
  induction ts as [|t ts IH]; intros H; [reflexivity|].
  simpl in H; apply andb_prop in H as [Ht Hts].
  destruct ts as [|t' ts'].
  - simpl. rewrite <- (app_nil_r (list_ascii_of_string (render t))).
    rewrite scan_token by auto. reflexivity.
  - change (Py.join " " (map render (t :: t' :: ts')))
      with (render t ++ " " ++ Py.join " " (map render (t' :: ts'))).
    rewrite list_ascii_of_string_app.
    change (list_ascii_of_string (" " ++ Py.join " " (map render (t' :: ts'))))
      with (" "%char :: list_ascii_of_string (Py.join " " (map render (t' :: ts')))).
    rewrite scan_token by (auto; right; eexists; reflexivity).
    rewrite scan_step by reflexivity. rewrite IH by exact Hts. reflexivity.
Qed.

(** [stream_answer] lines 138-143: in a query made of plain words, bare
    mentions [@name] and quoted mentions [@"name"] separated by single
    spaces, [file_filters] is exactly the list of mentioned names, in
    order and with repetitions, quoted names keeping their spaces. *)
Theorem mentions_round_trip (ts : list Token) :
  forallb token_ok ts = true ->
  file_filters (Py.join " " (map render ts)) = concat (map token_names ts).
Proof.
  intros H. unfold file_filters. fold (scan (list_ascii_of_string (Py.join " " (map render ts)))).
  rewrite (scan_tokens ts H). clear - H.
  induction ts as [|t ts IH]; [reflexivity|].
  simpl in H; apply andb_prop in H as [Ht Hts]. simpl.
  rewrite map_app, filter_app, IH by exact Hts. f_equal.
  destruct t as [s|s|s]; simpl in Ht |- *; [reflexivity| |].
  - destruct s as [|c s]; [discriminate|reflexivity].
  - apply andb_prop in Ht as [Hs _]. rewrite Hs; simpl; rewrite Hs; reflexivity.
Qed.

Lemma mentions_round_trip_witness :
  file_filters (Py.join " " (map render [Plain "Compare"; Bare "q3.pdf"; Plain "with";
                                         Quoted "board notes.docx"; Bare "q3.pdf"]))
  = ["q3.pdf"; "board notes.docx"; "q3.pdf"].
Proof. apply (mentions_round_trip [Plain "Compare"; Bare "q3.pdf"; Plain "with";
                                    Quoted "board notes.docx"; Bare "q3.pdf"]).
       reflexivity.
Defined.

(** [stream_answer] lines 133-177: a query without an at sign and a
    request without folder ids leave the search unrestricted
    ([target_file_ids] stays None). *)
Theorem no_mention_no_folder_unrestricted (st : ScopeStorage) (query : string)
    (folder_ids : option (list string)) :
  no_char (fun c => Ascii.eqb c "@"%char) query = true ->
  (folder_ids = None \/ folder_ids = Some []) ->
  file_filters query = [] /\ scope_target st query folder_ids = None.
Proof.
  intros Hq Hf.
  assert (Hff : file_filters query = []).
  { unfold file_filters.
    fold (scan (list_ascii_of_string query)).
    rewrite <- (app_nil_r (list_ascii_of_string query)), scan_plain;
      [reflexivity|exact (no_char_In _ _ Hq)]. }
  split; [exact Hff|]. unfold scope_target; rewrite Hff.
  destruct Hf as [->| ->]; reflexivity.
Qed.

Lemma no_mention_no_folder_unrestricted_witness :
  file_filters "what changed in revenue?" = []
  /\ scope_target ScopeFixtures.scope_storage "what changed in revenue?" (Some []) = None.
Proof.
  apply (no_mention_no_folder_unrestricted ScopeFixtures.scope_storage
           "what changed in revenue?" (Some [])); [reflexivity|right; reflexivity].
Defined.

End ScopeRoundFacts.

(* ------------------------------------------------------------------ *)
(** ** Memory store: episodes and profiles *)

Module MemoryFacts.
Import MemoryStore MemoryFixtures.

Lemma filter_negb_id {A} (p : A -> bool) (l : list A) :
  existsb p l = false -> filter (fun x => negb (p x)) l = l.
Proof.
  induction l as [|x l IH]; simpl; [reflexivity|].
  intros H; apply orb_false_iff in H as [Hx Hl]. rewrite Hx, IH by exact Hl; reflexivity.
Qed.

Lemma filter_neg_filter {A} (p : A -> bool) (l : list A) :
  filter p (filter (fun x => negb (p x)) l) = [].
Proof. induction l as [|x l IH]; simpl; [reflexivity|]. destruct (p x) eqn:E; simpl; rewrite ?E; auto. Qed.

Lemma filter_neg_idem {A} (p : A -> bool) (l : list A) :
  filter (fun x => negb (p x)) (filter (fun x => negb (p x)) l) = filter (fun x => negb (p x)) l.
Proof. induction l as [|x l IH]; simpl; [reflexivity|]. destruct (p x) eqn:E; simpl; rewrite ?E, ?IH; auto. Qed.

Lemma filter_length_map {A B} (p : B -> bool) (f : A -> B) (q : A -> bool) (l : list A) :
  (forall x, p (f x) = q x) -> length (filter p (map f l)) = length (filter q l).
Proof.
  intros H; induction l as [|x l IH]; simpl; [reflexivity|].
  rewrite H; destruct (q x); simpl; rewrite IH; reflexivity.
Qed.

Lemma find_none {A} (p : A -> bool) (l : list A) : existsb p l = false -> find p l = None.
Proof.
  induction l as [|x l IH]; simpl; [reflexivity|].
  intros H; apply orb_false_iff in H as [Hx Hl]; rewrite Hx; exact (IH Hl).
Qed.

Lemma existsb_In_eqb (w : EpisodeRow) (l : list EpisodeRow) (i : string) :
  In w l -> er_id w = i -> existsb (fun v => String.eqb (er_id v) i) l = true.
Proof.
  intros Hin Hid; apply existsb_exists; exists w; split; [exact Hin|].
  rewrite Hid; apply String.eqb_refl.
Qed.

Definition newer (a b : EpisodeRow) : Prop :=
  String.ltb (er_timestamp a) (er_timestamp b) = false.

Lemma ltb_asym x y : String.ltb x y = true -> String.ltb y x = false.
Proof.
  unfold String.ltb; rewrite (String.compare_antisym y x).
  destruct (String.compare x y); simpl; congruence.
Qed.

Lemma insert_desc_perm w l : Permutation (insert_desc w l) (w :: l).
Proof.
  induction l as [|v l IH]; simpl; [reflexivity|].
  destruct (String.ltb (er_timestamp v) (er_timestamp w)); [reflexivity|].
  rewrite IH; constructor.
Qed.

Lemma sort_desc_perm l : Permutation (sort_desc l) l.
Proof.
  induction l as [|w l IH]; simpl; [reflexivity|].
  rewrite insert_desc_perm, IH; reflexivity.
Qed.

Lemma insert_desc_sorted w l : Sorted newer l -> Sorted newer (insert_desc w l).
Proof.
  induction l as [|v l IH]; simpl; intros Hs; [repeat constructor|].
  destruct (String.ltb (er_timestamp v) (er_timestamp w)) eqn:E.
  - constructor; [exact Hs|constructor; apply ltb_asym; exact E].
  - apply Sorted_inv in Hs as [Hl Hh]. constructor; [apply IH; exact Hl|].
    destruct l as [|v' l]; simpl; [constructor; exact E|].
    destruct (String.ltb (er_timestamp v') (er_timestamp w));
      constructor; [exact E|inversion Hh; assumption].
Qed.

Lemma sort_desc_sorted l : Sorted newer (sort_desc l).
Proof. induction l; simpl; [constructor|apply insert_desc_sorted; assumption]. Qed.

Lemma sorted_skipn {A} (R : A -> A -> Prop) n l : Sorted R l -> Sorted R (skipn n l).
Proof.
  revert l; induction n as [|n IH]; intros l Hs; [exact Hs|].
  destruct l as [|x l]; [constructor|]. apply IH, (Sorted_inv Hs).
Qed.

Lemma sorted_firstn {A} (R : A -> A -> Prop) n l : Sorted R l -> Sorted R (firstn n l).
Proof.
  revert l; induction n as [|n IH]; intros l Hs; [constructor|].
  destruct l as [|x l]; [constructor|]. apply Sorted_inv in Hs as [Hl Hh].
  simpl; constructor; [apply IH; exact Hl|].
  destruct n, l; simpl; constructor; inversion Hh; assumption.
Qed.

Lemma sorted_map {A B} (R : A -> A -> Prop) (Q : B -> B -> Prop) (f : A -> B) l :
  (forall a b, R a b -> Q (f a) (f b)) -> Sorted R l -> Sorted Q (map f l).
Proof.
  intros HRQ; induction 1 as [|a l Hs IH Hh]; simpl; constructor; [exact IH|].
  destruct Hh; simpl; constructor; apply HRQ; assumption.
Qed.

Lemma In_window {A} (x : A) n m l : In x (firstn n (skipn m l)) -> In x l.
Proof.
  intros H. rewrite <- (firstn_skipn m l). apply in_or_app; right.
  rewrite <- (firstn_skipn n (skipn m l)). apply in_or_app; left; exact H.
Qed.

(** [upsert_episode]: the number of episodes [count_episodes] reports
    for a user grows by one exactly when the id is new and the record
    belongs to that user; updating an existing id changes no count, not
    even when the record names another user. *)
Theorem upsert_episode_count (db : Db) (now : string) (r : EpisodeRecord) (u : string) :
  count_episodes (upsert_episode db now r) u
  = (count_episodes db u
     + if existsb (fun w => String.eqb (er_id w) (ep_id r)) (episodes db) then 0
       else if String.eqb (ep_user_id r) u then 1 else 0)%nat.
Proof.
  unfold count_episodes, user_episodes, upsert_episode; cbn [episodes].
  destruct (existsb _ (episodes db)).
  - rewrite Nat.add_0_r. apply filter_length_map.
    intros w; destruct (String.eqb (er_id w) (ep_id r)); reflexivity.
  - rewrite filter_app, length_app; simpl.
    destruct (String.eqb (ep_user_id r) u); reflexivity.
Qed.

(** [upsert_episode]: afterwards the search index holds exactly one
    entry for the episode, with the record's summary, episode and
    subject as content and the record's user, and every other entry is
    left as it was. *)
Theorem upsert_episode_fts (db : Db) (now : string) (r : EpisodeRecord) :
  filter (episode_fts (ep_id r)) (fts (upsert_episode db now r))
  = [mkFtsRow (ep_summary r ++ " " ++ str_or (ep_episode r) "" ++ " "
               ++ str_or (ep_subject r) "") (ep_user_id r) "episode" (ep_id r)]
  /\ filter (fun f => negb (episode_fts (ep_id r) f)) (fts (upsert_episode db now r))
     = filter (fun f => negb (episode_fts (ep_id r) f)) (fts db).
Proof.
  unfold upsert_episode; cbn [fts]. rewrite !filter_app.
  assert (Hself : episode_fts (ep_id r) (mkFtsRow (ep_summary r ++ " " ++ str_or (ep_episode r) ""
                    ++ " " ++ str_or (ep_subject r) "") (ep_user_id r) "episode" (ep_id r)) = true)
    by (unfold episode_fts; simpl; rewrite String.eqb_refl; reflexivity).
  split.
  - rewrite filter_neg_filter. cbn [filter]. rewrite Hself; reflexivity.
  - rewrite filter_neg_idem. cbn [filter]. rewrite Hself; cbn [negb]; apply app_nil_r.
Qed.

(** [upsert_episode] on an id that already exists keeps the stored
    owner and creation time and overwrites the content (summary,
    episode, subject), the timestamp and the metadata with the record's,
    whatever user the record names; the search entry it writes carries
    the record's user. *)
Theorem upsert_episode_keeps_owner (db : Db) (now : string) (r : EpisodeRecord)
    (w : EpisodeRow) :
  In w (episodes db) -> er_id w = ep_id r ->
  (exists w', In w' (episodes (upsert_episode db now r))
              /\ er_id w' = ep_id r /\ er_user_id w' = er_user_id w
              /\ er_created_at w' = er_created_at w /\ er_summary w' = ep_summary r
              /\ er_episode w' = ep_episode r /\ er_subject w' = ep_subject r
              /\ er_timestamp w' = str_or (ep_timestamp r) now
              /\ er_metadata w' = json_or_null (ep_metadata r))
  /\ In (mkFtsRow (ep_summary r ++ " " ++ str_or (ep_episode r) "" ++ " "
                   ++ str_or (ep_subject r) "") (ep_user_id r) "episode" (ep_id r))
        (fts (upsert_episode db now r)).
Proof.
  intros Hin Hid. unfold upsert_episode; cbn [episodes fts].
  rewrite (existsb_In_eqb w (episodes db) (ep_id r) Hin Hid). split.
  - eexists; split; [apply in_map; exact Hin|].
    rewrite Hid, String.eqb_refl; simpl. repeat split; assumption.
  - apply in_or_app; right; left; reflexivity.
Qed.

Lemma upsert_episode_keeps_owner_witness :
  (exists w', In w' (episodes (upsert_episode mem_db clock bob_episode))
              /\ er_id w' = ep_id bob_episode /\ er_user_id w' = er_user_id alice_row
              /\ er_created_at w' = er_created_at alice_row
              /\ er_summary w' = ep_summary bob_episode
              /\ er_episode w' = ep_episode bob_episode
              /\ er_subject w' = ep_subject bob_episode
              /\ er_timestamp w' = str_or (ep_timestamp bob_episode) clock
              /\ er_metadata w' = json_or_null (ep_metadata bob_episode))
  /\ In (mkFtsRow (ep_summary bob_episode ++ " " ++ str_or (ep_episode bob_episode) "" ++ " "
                   ++ str_or (ep_subject bob_episode) "") (ep_user_id bob_episode)
                  "episode" (ep_id bob_episode))
        (fts (upsert_episode mem_db clock bob_episode)).
Proof.
  apply (upsert_episode_keeps_owner mem_db clock bob_episode alice_row);
    [left; reflexivity|reflexivity].
Defined.

(** [delete_episode] undoes [upsert_episode] of a new id: the episode
    table and the search index are back to what they were. *)
Theorem delete_after_fresh_upsert (db : Db) (now : string) (r : EpisodeRecord) :
  existsb (fun w => String.eqb (er_id w) (ep_id r)) (episodes db) = false ->
  existsb (episode_fts (ep_id r)) (fts db) = false ->
  delete_episode (upsert_episode db now r) (ep_id r) = db.
Proof.
  intros He Hf. destruct db as [es ps fs]; unfold delete_episode, upsert_episode;
    cbn [episodes profiles fts] in *.
  rewrite He. f_equal.
  - rewrite filter_app, (filter_negb_id _ _ He); simpl.
    rewrite String.eqb_refl; apply app_nil_r.
  - rewrite filter_app, filter_neg_idem, (filter_negb_id _ _ Hf); simpl.
    unfold episode_fts at 1; simpl; rewrite String.eqb_refl; apply app_nil_r.
Qed.

Lemma delete_after_fresh_upsert_witness :
  delete_episode (upsert_episode mem_db clock fresh_episode) (ep_id fresh_episode) = mem_db.
Proof.
  apply (delete_after_fresh_upsert mem_db clock fresh_episode); reflexivity.
Defined.

(** [upsert_profile] then [get_profile]: the profile read back is the
    record with empty lists and dicts read as None, [updated_at] the
    clock of the write, and nothing kept from a previous profile of the
    user; the profiles of other users read as before. *)
Theorem profile_round_trip (db : Db) (now : string) (r : ProfileRecord) (u : string) :
  get_profile (upsert_profile db now r) (pr_user_id r)
  = Some {| pr_user_id := pr_user_id r; pr_user_name := pr_user_name r;
            pr_personality := json_or_null (pr_personality r);
            pr_interests := json_or_null (pr_interests r);
            pr_hard_skills := json_or_null (pr_hard_skills r);
            pr_soft_skills := json_or_null (pr_soft_skills r);
            pr_updated_at := Some now;
            pr_metadata := json_or_null (pr_metadata r) |}
  /\ (u <> pr_user_id r -> get_profile (upsert_profile db now r) u = get_profile db u).
Proof.
  unfold get_profile, upsert_profile; cbn [profiles].
  set (row := {| pw_user_id := pr_user_id r; pw_user_name := pr_user_name r;
                 pw_personality := json_or_null (pr_personality r);
                 pw_interests := json_or_null (pr_interests r);
                 pw_hard_skills := json_or_null (pr_hard_skills r);
                 pw_soft_skills := json_or_null (pr_soft_skills r);
                 pw_updated_at := now; pw_metadata := json_or_null (pr_metadata r) |}).
  assert (Hfind : find (fun w => String.eqb (pw_user_id w) (pr_user_id r))
            (if existsb (fun w => String.eqb (pw_user_id w) (pr_user_id r)) (profiles db)
             then map (fun w => if String.eqb (pw_user_id w) (pr_user_id r) then row else w)
                      (profiles db)
             else (profiles db ++ [row])%list) = Some row).
  { destruct (existsb _ (profiles db)) eqn:E.
    - induction (profiles db) as [|w l IH]; simpl in *; [discriminate|].
      destruct (String.eqb (pw_user_id w) (pr_user_id r)) eqn:Ew; simpl.
      + subst row; simpl; rewrite String.eqb_refl; reflexivity.
      + rewrite Ew; apply IH; exact E.
    - induction (profiles db) as [|w l IH]; simpl in *.
      + subst row; simpl; rewrite String.eqb_refl; reflexivity.
      + apply orb_false_iff in E as [Ew El]; rewrite Ew; apply IH; exact El. }
  split.
  - rewrite Hfind; reflexivity.
  - intros Hu. clear Hfind.
    assert (Hrow : String.eqb (pw_user_id row) u = false)
      by (subst row; simpl; apply String.eqb_neq; congruence).
    assert (Hsame : find (fun w => String.eqb (pw_user_id w) u)
              (if existsb (fun w => String.eqb (pw_user_id w) (pr_user_id r)) (profiles db)
               then map (fun w => if String.eqb (pw_user_id w) (pr_user_id r) then row else w)
                        (profiles db)
               else (profiles db ++ [row])%list)
            = find (fun w => String.eqb (pw_user_id w) u) (profiles db)).
    { destruct (existsb _ (profiles db)).
      - induction (profiles db) as [|w l IH]; cbn [map find]; [reflexivity|].
        destruct (String.eqb (pw_user_id w) (pr_user_id r)) eqn:Ew.
        + rewrite Hrow. apply String.eqb_eq in Ew.
          replace (String.eqb (pw_user_id w) u) with false
            by (symmetry; apply String.eqb_neq; congruence).
          exact IH.
        + rewrite IH; reflexivity.
      - induction (profiles db) as [|w l IH]; cbn [app find]; [rewrite Hrow; reflexivity|].
        rewrite IH; reflexivity. }
    rewrite Hsame; reflexivity.
Qed.

Lemma profile_round_trip_witness :
  get_profile (upsert_profile mem_db clock alice_profile) "alice"
  = Some (mkProfile "alice" (Some "Alice") None None None None (Some clock) None)
  /\ ("bob" <> "alice" -> get_profile (upsert_profile mem_db clock alice_profile) "bob"
                          = get_profile mem_db "bob").
Proof. apply (profile_round_trip mem_db clock alice_profile "bob"). Defined.

(** [get_episodes]: a page holds only episodes of the requested user,
    at most [limit] of them, newest first (each timestamp is not smaller
    than the next one, as TEXT compares). *)
Theorem get_episodes_page (db : Db) (u : string) (limit offset : nat) :
  let es := get_episodes db u limit offset in
  Forall (fun e => ep_user_id e = u) es /\ (length es <= limit)%nat
  /\ Sorted (fun a b => match ep_timestamp a, ep_timestamp b with
                        | Some x, Some y => String.ltb x y = false
                        | _, _ => False end) es.
Proof.
  cbv zeta. unfold get_episodes. split; [|split].
  - apply Forall_forall. intros e He. apply in_map_iff in He as [w [<- Hw]].
    apply In_window, (Permutation_in w (sort_desc_perm _)) in Hw.
    unfold user_episodes in Hw; apply filter_In in Hw as [_ Hu].
    apply String.eqb_eq in Hu; exact Hu.
  - rewrite length_map, length_firstn; lia.
  - apply (sorted_map newer); [intros a b H; exact H|].
    apply sorted_firstn, sorted_skipn, sort_desc_sorted.
Qed.

(** [get_episodes] with offset 0 returns [min(limit, count_episodes)]
    episodes: the first page is full whenever the user has enough. *)
Theorem get_episodes_first_page_length (db : Db) (u : string) (limit : nat) :
  length (get_episodes db u limit 0) = Nat.min limit (count_episodes db u).
Proof.
  unfold get_episodes, count_episodes.
  rewrite length_map, skipn_0, length_firstn, (Permutation_length (sort_desc_perm _)).
  reflexivity.
Qed.

(** [upsert_episode] then [get_episodes] of the user: an episode with a
    new id is read back with its content, its timestamp (the clock of
    the write when the record has none or an empty one) and its metadata
    (None when empty). *)
Theorem fresh_episode_read_back (db : Db) (now : string) (r : EpisodeRecord) :
  existsb (fun w => String.eqb (er_id w) (ep_id r)) (episodes db) = false ->
  In {| ep_id := ep_id r; ep_user_id := ep_user_id r; ep_summary := ep_summary r;
        ep_episode := ep_episode r; ep_subject := ep_subject r;
        ep_timestamp := Some (str_or (ep_timestamp r) now);
        ep_metadata := json_or_null (ep_metadata r) |}
     (get_episodes (upsert_episode db now r) (ep_user_id r)
                   (count_episodes (upsert_episode db now r) (ep_user_id r)) 0).
Proof.
  intros He. unfold get_episodes, count_episodes.
  rewrite skipn_0, <- (Permutation_length (sort_desc_perm _)), firstn_all.
  set (row := {| er_id := ep_id r; er_user_id := ep_user_id r; er_summary := ep_summary r;
                 er_episode := ep_episode r; er_subject := ep_subject r;
                 er_timestamp := str_or (ep_timestamp r) now;
                 er_metadata := json_or_null (ep_metadata r); er_created_at := now |}).
  change {| ep_id := ep_id r; ep_user_id := ep_user_id r; ep_summary := ep_summary r;
            ep_episode := ep_episode r; ep_subject := ep_subject r;
            ep_timestamp := Some (str_or (ep_timestamp r) now);
            ep_metadata := json_or_null (ep_metadata r) |} with (row_to_episode row).
  apply in_map, (Permutation_in row (Permutation_sym (sort_desc_perm _))).
  unfold user_episodes, upsert_episode; cbn [episodes]. rewrite He.
  apply filter_In; split; [apply in_or_app; right; left; reflexivity|].
  apply String.eqb_refl.
Qed.

Lemma fresh_episode_read_back_witness :
  In (mkEpisode "e2" "alice" "Gym" None (Some "health") (Some "2026-01-03T08:00:00+00:00")
                (Some [("mood", JStr "good")]))
     (get_episodes (upsert_episode mem_db clock fresh_episode) "alice"
                   (count_episodes (upsert_episode mem_db clock fresh_episode) "alice") 0).
Proof. apply (fresh_episode_read_back mem_db clock fresh_episode). reflexivity. Defined.

End MemoryFacts.
